(** * Affiliate posting bot: a shallow embedding of [real-bot-engine.js]

    The development follows the two halves of the source file: the
    [RealBotEngine] class (product search, platform publishers, the bot
    cycle, the earnings aggregator) and the server glue built on it
    (user registry, [BotManager], withdrawal and earnings endpoints, the
    background earnings loop).

    Conventions of the embedding:
    - an [async] function is a computation in a state-and-exception monad;
      [await] is sequencing, a rejected promise is a thrown [JSError];
    - every call that leaves the process (axios, the Twitter, Facebook,
      Stripe and PayPal SDKs) is a [request]: it is appended to the call
      log of the state and answered by an environment [Net] that the
      theorems quantify over;
    - [Date.now()] reads a clock in the state, which requests and
      [setTimeout] pauses advance;
    - JavaScript numbers are an abstract type with the operations the
      source uses and no algebraic law assumed (class [JSNumber]);
    - object properties that the source dereferences can be absent
      ([option]); dereferencing an absent one throws a [TypeError];
    - a value that the source uses without checking its type keeps the
      shapes it can have: the [Items] of a search reply need not be an
      array, and an object literal used as a dictionary
      ([user.activeBots]) is read through [Object.prototype];
    - [console.log] and [console.error] are not modelled. *)

From Stdlib Require Import QArith Qround ZArith List Bool Lia.
From stdpp Require Import base strings gmap list pretty.

Local Close Scope Q_scope.
Local Open Scope string_scope.

(** ** JavaScript numbers *)

Class JSNumber (num : Type) := {
  nlit : Q -> num;                  (* a numeric literal *)
  nadd : num -> num -> num;         (* a + b *)
  nsub : num -> num -> num;         (* a - b *)
  nmul : num -> num -> num;         (* a * b *)
  ngt : num -> num -> bool;         (* a > b *)
  ntruthy : num -> bool;            (* ToBoolean(a): false for 0 and NaN *)
  nround : num -> num;              (* Math.round(a) *)
}.

(** [x || 0] on a number. *)
Definition nor0 {num : Type} `{!JSNumber num} (x : num) : num :=
  if ntruthy x then x else nlit 0.

(** [x || 0] on a possibly undefined number. *)
Definition nor0_opt {num : Type} `{!JSNumber num} (x : option num) : num :=
  match x with
  | Some v => nor0 v
  | None => nlit 0
  end.

(** Exact rationals: the instance used to run the model on fixtures. *)
#[export] Instance Q_JSNumber : JSNumber Q := {|
  nlit q := q;
  nadd := Qplus;
  nsub := Qminus;
  nmul := Qmult;
  ngt a b := if Qlt_le_dec b a then true else false;
  ntruthy a := negb (Qeq_bool a 0);
  nround a := inject_Z (Qfloor (Qplus a (1 # 2)));
|}.

(** ** Errors, results and the state-and-exception monad *)

Record JSError := mkError { err_name : string; err_message : string }.

Definition TypeError (msg : string) : JSError := mkError "TypeError" msg.
Definition Error (msg : string) : JSError := mkError "Error" msg.

Inductive Res (A : Type) : Type :=
| Ok (a : A)
| Throw (e : JSError).
Arguments Ok {A} a.
Arguments Throw {A} e.

Definition SE (S A : Type) : Type := S -> Res A * S.

Definition ret {S A} (a : A) : SE S A := fun s => (Ok a, s).

Definition bind {S A B} (m : SE S A) (k : A -> SE S B) : SE S B :=
  fun s =>
    match m s with
    | (Ok a, s') => k a s'
    | (Throw e, s') => (Throw e, s')
    end.

Definition throw {S A} (e : JSError) : SE S A := fun s => (Throw e, s).

(** [try { m } catch (e) { h e }]: effects of [m] before the throw stay. *)
Definition try_catch {S A} (m : SE S A) (h : JSError -> SE S A) : SE S A :=
  fun s =>
    match m s with
    | (Ok a, s') => (Ok a, s')
    | (Throw e, s') => h e s'
    end.

Definition gets {S A} (f : S -> A) : SE S A := fun s => (Ok (f s), s).
Definition modify {S} (f : S -> S) : SE S unit := fun s => (Ok tt, f s).

Declare Scope js_scope.
Delimit Scope js_scope with js.
Notation "x <- m ;; k" := (bind m (fun x => k))
  (at level 100, m at next level, right associativity) : js_scope.
Notation "m ;; k" := (bind m (fun _ => k))
  (at level 100, right associativity) : js_scope.
Local Open Scope js_scope.

(** [for (const x of l) body]. *)
Fixpoint for_of {S A} (l : list A) (body : A -> SE S unit) : SE S unit :=
  match l with
  | [] => ret tt
  | x :: rest => body x ;; for_of rest body
  end.

(** A mutable local variable of type [L] (an array that is pushed to)
    lives next to the state for the duration of the function body. *)
Definition on_fst {S L A} (m : SE S A) : SE (S * L) A :=
  fun sl =>
    let '(r, s') := m (fst sl) in (r, (s', snd sl)).

Definition local {S L} : SE (S * L) L := gets snd.

Definition set_local {S L} (f : L -> L) : SE (S * L) unit :=
  modify (fun sl => (fst sl, f (snd sl))).

Definition with_local {S L A} (init : L) (m : SE (S * L) A) : SE S A :=
  fun s =>
    let '(r, sl) := m (s, init) in (r, fst sl).

(** Dereferencing a property of a possibly undefined object. *)
Definition deref {S A} (what : string) (o : option A) : SE S A :=
  match o with
  | Some a => ret a
  | None => throw (TypeError ("Cannot read properties of undefined (reading '" +:+ what +:+ "')"))
  end.

(** ToBoolean on a possibly undefined string: [undefined], [null] and the
    empty string are falsy. *)
Definition truthy (o : option string) : bool :=
  match o with
  | Some s => negb (String.eqb s EmptyString)
  | None => false
  end.

(** A possibly undefined string inside a template literal. *)
Definition show (o : option string) : string := default "undefined" o.

Definition nl : string := String (Ascii.ascii_of_nat 10) EmptyString.

(** [arr.join(sep)]. *)
Fixpoint join (sep : string) (l : list string) : string :=
  match l with
  | [] => EmptyString
  | [x] => x
  | x :: rest => x +:+ sep +:+ join sep rest
  end.

(** ** Object literals used as dictionaries

    [user.activeBots] is created as [{}] and indexed by platform names
    that come from the request. Such an object holds its own properties,
    booleans here, and inherits the members of [Object.prototype]: under
    one of their names a read answers the inherited member, a function,
    unless an own property shadows it. [__proto__] is an accessor: a read
    answers the prototype itself, and a write of a boolean is ignored. *)

Definition object_prototype : list string :=
  ["constructor"; "__defineGetter__"; "__defineSetter__"; "hasOwnProperty";
   "__lookupGetter__"; "__lookupSetter__"; "isPrototypeOf"; "propertyIsEnumerable";
   "toString"; "valueOf"; "__proto__"; "toLocaleString"].

(** The value of [obj[name]]. *)
Inductive PropValue :=
| PropUndefined
| PropBool (b : bool)
| PropInherited (name : string).

Definition get_prop (obj : gmap string bool) (name : string) : PropValue :=
  if decide (name = "__proto__") then PropInherited name
  else
    match obj !! name with
    | Some b => PropBool b
    | None =>
        if bool_decide (name ∈ object_prototype) then PropInherited name
        else PropUndefined
    end.

(** [obj[name] = b]. *)
Definition set_prop (name : string) (b : bool) (obj : gmap string bool)
  : gmap string bool :=
  if decide (name = "__proto__") then obj else <[name := b]> obj.

(** ToBoolean: a function and the prototype object are truthy. *)
Definition prop_truthy (v : PropValue) : bool :=
  match v with
  | PropUndefined => false
  | PropBool b => b
  | PropInherited _ => true
  end.

(** ** The JavaScript [Map]: insertion-ordered, one entry per key *)

Module JSMap.
Section Ops.
Context {V : Type}.

Definition t := list (string * V).

Definition empty : t := [].

Fixpoint get (k : string) (m : t) : option V :=
  match m with
  | [] => None
  | (k', v) :: rest => if decide (k' = k) then Some v else get k rest
  end.

Definition has (k : string) (m : t) : bool :=
  match get k m with Some _ => true | None => false end.

(** [set] keeps the position of an existing key, appends a new one. *)
Fixpoint set (k : string) (v : V) (m : t) : t :=
  match m with
  | [] => [(k, v)]
  | (k', v') :: rest =>
      if decide (k' = k) then (k, v) :: rest else (k', v') :: set k v rest
  end.

Fixpoint delete (k : string) (m : t) : t :=
  match m with
  | [] => []
  | (k', v') :: rest =>
      if decide (k' = k) then delete k rest else (k', v') :: delete k rest
  end.

Definition keys (m : t) : list string := map fst m.
End Ops.
Arguments t V : clear implicits.
End JSMap.

(** ** Data model *)

(** A product as returned by the marketplace search. Every object the
    source dereferences is optional here; [Title], [URL] and [ASIN] are
    only read as values. *)
Record Image := { URL : string }.
Record ImagesT := { PrimaryImage : option Image }.
Record FeaturesT := { DisplayValues : option (list string) }.
Record ItemInfoT := {
  Title : string;
  Features : option FeaturesT;
  Images : option ImagesT;
}.
Record Product := { ASIN : string; ItemInfo : option ItemInfoT }.

Record PostResult := {
  pr_platform : string;
  pr_postId : string;
  pr_product : string;
  pr_affiliateLink : string;
  pr_timestamp : N;
}.

(** The configuration object handed to the engine's constructor. A [None]
    field is an unset environment variable. *)
Record AmazonCfg := {
  amazon_access_key : option string;
  amazon_secret_key : option string;
  amazon_affiliate_tag : option string;
  amazon_access_token : option string;
}.
Record TwitterCfg := {
  consumer_key : option string;
  consumer_secret : option string;
  twitter_access_token : option string;
  twitter_access_secret : option string;
}.
Record FacebookCfg := {
  facebook_access_token : option string;
  page_id : option string;
}.
Record InstagramCfg := {
  instagram_access_token : option string;
  user_id : option string;
}.
Record TikTokCfg := {
  client_key : option string;
  client_secret : option string;
  tiktok_access_token : option string;
}.
Record PinterestCfg := {
  pinterest_access_token : option string;
  board_id : option string;
}.
Record ClickbankCfg := {
  api_key : option string;
  nickname : option string;
}.
Record EbayCfg := {
  ebay_access_token : option string;
  client_id : option string;
  cert_id : option string;
}.
Record Config := {
  amazon : option AmazonCfg;
  twitter : option TwitterCfg;
  facebook : option FacebookCfg;
  instagram : option InstagramCfg;
  tiktok : option TikTokCfg;
  pinterest : option PinterestCfg;
  clickbank : option ClickbankCfg;
  ebay : option EbayCfg;
}.

(** What [SearchResult.Items] holds in a parsed reply: the array of
    items that the provider documents, or any other JSON value, since
    nothing in the source checks it. [null] and an absent property are
    the [None] of the field below. The elements of an array are item
    objects; one that is no object would be skipped by the cycle like an
    item without [ItemInfo]. *)
Inductive ItemsValue :=
| ItemsArray (items : list Product)
| ItemsString (s : string)
| ItemsNumber (n : Q)
| ItemsBoolean (b : bool)
| ItemsObject.

(** ToBoolean on such a value: an array and an object are truthy, a
    string unless it is empty, a number unless it is zero. *)
Definition items_truthy (v : ItemsValue) : bool :=
  match v with
  | ItemsArray _ => true
  | ItemsString s => negb (String.eqb s EmptyString)
  | ItemsNumber n => negb (Qeq_bool n 0)
  | ItemsBoolean b => b
  | ItemsObject => true
  end.

(** What [for (const product of v)] iterates over. An array yields its
    elements and a string its characters; a character has none of the
    properties of an item, so that it stands here as an item whose
    [ASIN] prints as "undefined" and whose [ItemInfo] is absent. A
    number, a boolean and a plain object are not iterable. *)
Definition character : Product := {| ASIN := "undefined"; ItemInfo := None |}.

Definition elements (v : ItemsValue) : option (list Product) :=
  match v with
  | ItemsArray items => Some items
  | ItemsString s => Some (repeat character (String.length s))
  | ItemsNumber _ | ItemsBoolean _ | ItemsObject => None
  end.

(** [for (const product of products) body] on the value that the search
    returned: a value that is not iterable makes the statement throw. *)
Definition for_of_value {S} (products : ItemsValue) (body : Product -> SE S unit)
  : SE S unit :=
  match elements products with
  | Some items => for_of items body
  | None => throw (TypeError "products is not iterable")
  end.

(** Response bodies, as far as the source reads them. *)
Record SearchResultT := { Items : option ItemsValue }.
Record SearchData := { SearchResult : option SearchResultT }.
Record PinResponse := { pin_id : option string }.
Record TokenResponse := { access_token : option string }.
Record StripeIntent := { intent_status : string; intent_id : string }.
Record PaypalResult := { paypal_status : string; paypal_id : string }.

Section Wire.
Context {num : Type}.

Record EarningsBody := { body_totalEarnings : option num }.
Record PerformanceBody := { performanceData : option (list EarningsBody) }.

(** Every request that leaves the process. *)
Inductive ExtReq : Type :=
| PaapiSearchItems (Keywords : string) (ItemCount : nat) (access_key : option string)
| TwitterUploadMedia (url : string)
| TwitterTweet (text : string) (media : list string) (media_ids : option (list string))
| GraphPost (token : string) (path : string) (fields : list (string * option string))
| PinterestCreatePin (board : option string) (title description : string)
    (url : option string) (bearer : option string)
| EbayOAuthToken (credentials : string)
| PaapiGetItems (bearer : option string)
| ClickbankAccount (bearer : option string)
| EbayPartnerPerformance (bearer : string)
| StripeCreatePaymentIntent (amount : num) (payment_method : option string)
| PaypalCreateOrder (value : num)
| PaypalCaptureOrder (order : string).

(** What the awaited call evaluates to when it does not reject. An axios
    response carries an optional body ([response.data]). *)
Definition Reply (r : ExtReq) : Type :=
  match r with
  | PaapiSearchItems _ _ _ => option SearchData
  | TwitterUploadMedia _ => string
  | TwitterTweet _ _ _ => string
  | GraphPost _ _ _ => option string
  | PinterestCreatePin _ _ _ _ _ => option PinResponse
  | EbayOAuthToken _ => option TokenResponse
  | PaapiGetItems _ => option EarningsBody
  | ClickbankAccount _ => option EarningsBody
  | EbayPartnerPerformance _ => option PerformanceBody
  | StripeCreatePaymentIntent _ _ => StripeIntent
  | PaypalCreateOrder _ => string
  | PaypalCaptureOrder _ => PaypalResult
  end.

Inductive Outcome (T : Type) : Type :=
| Resolved (t : T)
| Rejected (e : JSError).

(** The outside world: how the [i]-th request of a run is answered and
    how long it takes, and by how much a timer overshoots. *)
Record Net := {
  answer : nat -> forall r : ExtReq, Outcome (Reply r);
  latency : nat -> N;
  timer_lag : N -> N;
}.

Record IOState := { clock : N; calls : list ExtReq }.

Definition IO (A : Type) : Type := SE IOState A.

Section WithNet.
Variable net : Net.

Definition request (r : ExtReq) : IO (Reply r) :=
  fun s =>
    let i := length (calls s) in
    let s' := {| clock := (clock s + latency net i)%N; calls := (calls s ++ [r])%list |} in
    match answer net i r with
    | Resolved _ t => (Ok t, s')
    | Rejected _ e => (Throw e, s')
    end.

(** [Date.now()]. *)
Definition now : IO N := gets clock.

(** [await new Promise(resolve => setTimeout(resolve, ms))]. *)
Definition sleep (ms : N) : IO unit :=
  modify (fun s =>
    {| clock := (clock s + ms + timer_lag net (clock s))%N; calls := calls s |}).
End WithNet.
End Wire.
Arguments ExtReq num : clear implicits.
Arguments Net num : clear implicits.
Arguments IOState num : clear implicits.
Arguments IO num A : clear implicits.
Arguments Resolved {T} t.
Arguments Rejected {T} e.

(** ** The engine: [class RealBotEngine] *)

Record TwitterClient := {
  appKey : option string;
  appSecret : option string;
  accessToken : option string;
  accessSecret : option string;
}.
Record FacebookClient := { client_token : string }.

(** Whether the SDK constructors accept their arguments ([false]: the
    constructor throws). *)
Record SDK := {
  TwitterApi_ok : TwitterClient -> bool;
  FacebookClient_ok : string -> bool;
}.

Record Engine := {
  config : Config;
  twitter_client : option TwitterClient;
  facebook_client : option FacebookClient;
  instagram_client : option FacebookClient;
}.

Record EarningsSnapshot {num : Type} := {
  es_amazon : option num;
  es_clickbank : option num;
  es_ebay : option num;
  es_total : num;
  es_timestamp : N;
}.
Arguments EarningsSnapshot num : clear implicits.

Module RealBotEngine.

(** [initializeClients], run by the constructor. *)
Definition initializeClients (sdk : SDK) (cfg : Config) : Engine :=
  let tw :=
    match twitter cfg with
    | Some t =>
        if truthy (consumer_key t) && truthy (consumer_secret t) then
          let args := {| appKey := consumer_key t;
                         appSecret := consumer_secret t;
                         accessToken := twitter_access_token t;
                         accessSecret := twitter_access_secret t |} in
          if TwitterApi_ok sdk args then Some args else None
        else None
    | None => None
    end in
  let fb :=
    match facebook cfg with
    | Some f =>
        match facebook_access_token f with
        | Some tok =>
            if truthy (Some tok) && FacebookClient_ok sdk tok
            then Some {| client_token := tok |} else None
        | None => None
        end
    | None => None
    end in
  let ig :=
    match instagram cfg with
    | Some i =>
        match instagram_access_token i with
        | Some tok =>
            if truthy (Some tok) && FacebookClient_ok sdk tok
            then Some {| client_token := tok |} else None
        | None => None
        end
    | None => None
    end in
  {| config := cfg; twitter_client := tw; facebook_client := fb; instagram_client := ig |}.

Section Methods.
Context {num : Type} `{!JSNumber num}.
Variable net : Net num.
Variable this : Engine.

Abbreviation IO := (IO num).
Abbreviation request := (request net).

Definition generateAmazonSignature : IO string := ret "signature_generated_here".

(** [value || []] on the [Items] of a reply. *)
Definition items_or_empty (value : option ItemsValue) : ItemsValue :=
  match value with
  | Some v => if items_truthy v then v else ItemsArray []
  | None => ItemsArray []
  end.

Definition fetchAmazonProducts (keyword : string) (maxProducts : option nat)
  : IO ItemsValue :=
  let maxProducts := default 10 maxProducts in
  try_catch
    (amz <- deref "access_key" (amazon (config this)) ;;
     _ <- generateAmazonSignature ;;
     response <- (request (PaapiSearchItems keyword maxProducts (amazon_access_key amz))
                   : IO (option SearchData)) ;;
     data <- deref "SearchResult" response ;;
     ret match SearchResult data with
         | Some sr => items_or_empty (Items sr)
         | None => ItemsArray []
         end)
    (fun _ => ret (ItemsArray [])).

(** [product.ItemInfo.Features?.DisplayValues] *)
Definition displayValues (info : ItemInfoT) : option (list string) :=
  match Features info with
  | Some f => DisplayValues f
  | None => None
  end.

Definition postToTwitter (product : Product) (affiliateLink : string)
  : IO (option string) :=
  match twitter_client this with
  | None => ret None
  | Some _ =>
      try_catch
        (info <- deref "Title" (ItemInfo product) ;;
         let text := "🔥 Check this out! " +:+ Title info +:+ nl +:+ nl
                     +:+ affiliateLink +:+ nl +:+ nl
                     +:+ "#AmazonFinds #Deals #Musthave" in
         images <- deref "PrimaryImage" (Images info) ;;
         let media := match PrimaryImage images with
                      | Some img => [URL img]
                      | None => []
                      end in
         media_ids <- match media with
                      | url :: _ =>
                          mediaId <- (request (TwitterUploadMedia url) : IO string) ;;
                          ret (Some [mediaId])
                      | [] => ret None
                      end ;;
         result <- (request (TwitterTweet text media media_ids) : IO string) ;;
         ret (Some result))
        (fun _ => ret None)
  end.

Definition postToFacebook (product : Product) (affiliateLink : string)
  : IO (option string) :=
  match facebook_client this with
  | None => ret None
  | Some client =>
      fb <- deref "page_id" (facebook (config this)) ;;
      if negb (truthy (page_id fb)) then ret None
      else
        try_catch
          (info <- deref "Title" (ItemInfo product) ;;
           let message := "🔥 Must-Have Product!" +:+ nl +:+ nl +:+ Title info
                          +:+ nl +:+ nl
                          +:+ default EmptyString (join nl <$> displayValues info)
                          +:+ nl +:+ nl +:+ "Shop Now: " +:+ affiliateLink in
           let postData := [("message", Some message);
                            ("access_token", facebook_access_token fb)] in
           images <- deref "PrimaryImage" (Images info) ;;
           let postData :=
             match PrimaryImage images with
             | Some img => (postData ++ [("link", Some (URL img));
                                         ("picture", Some (URL img))])%list
             | None => postData
             end in
           response <- (request (GraphPost (client_token client)
                                   (show (page_id fb) +:+ "/feed") postData)
                         : IO (option string)) ;;
           ret response)
          (fun _ => ret None)
  end.

Definition postToInstagram (product : Product) (affiliateLink : string)
  : IO (option string) :=
  match instagram_client this with
  | None => ret None
  | Some client =>
      ig <- deref "user_id" (instagram (config this)) ;;
      if negb (truthy (user_id ig)) then ret None
      else
        try_catch
          (info <- deref "Title" (ItemInfo product) ;;
           let caption := "🔥 " +:+ Title info +:+ nl +:+ nl
                          +:+ default EmptyString (join nl <$> (firstn 2 <$> displayValues info))
                          +:+ nl +:+ nl +:+ "Link in bio! 👆" +:+ nl +:+ nl
                          +:+ "#AmazonFinds #Deals #Musthave" in
           images <- deref "PrimaryImage" (Images info) ;;
           let mediaData := [("image_url", URL <$> PrimaryImage images);
                             ("caption", Some caption);
                             ("access_token", instagram_access_token ig)] in
           mediaResponse <- (request (GraphPost (client_token client)
                                        (show (user_id ig) +:+ "/media") mediaData)
                              : IO (option string)) ;;
           publishResponse <- (request (GraphPost (client_token client)
                                          (show (user_id ig) +:+ "/media_publish")
                                          [("creation_id", mediaResponse);
                                           ("access_token", instagram_access_token ig)])
                                : IO (option string)) ;;
           ret publishResponse)
          (fun _ => ret None)
  end.

(** A placeholder: no request is made, the identifier is fabricated. *)
Definition postToTikTok (product : Product) (affiliateLink : string)
  : IO (option string) :=
  try_catch
    (_ <- deref "Title" (ItemInfo product) ;;
     t <- now ;;
     let fakeVideoId := "tiktok_" +:+ pretty t in
     ret (Some fakeVideoId))
    (fun _ => ret None).

Definition postToPinterest (product : Product) (affiliateLink : string)
  : IO (option string) :=
  try_catch
    (pin <- deref "board_id" (pinterest (config this)) ;;
     let boardId := board_id pin in
     info <- deref "Title" (ItemInfo product) ;;
     let description := default EmptyString (join nl <$> displayValues info)
                        +:+ nl +:+ nl +:+ "Shop: " +:+ affiliateLink in
     images <- deref "PrimaryImage" (Images info) ;;
     response <- (request (PinterestCreatePin boardId (Title info) description
                             (URL <$> PrimaryImage images)
                             (pinterest_access_token pin))
                   : IO (option PinResponse)) ;;
     data <- deref "id" response ;;
     ret (pin_id data))
    (fun _ => ret None).

Definition getEbayAccessToken : IO (option string) :=
  try_catch
    (eb <- deref "client_id" (ebay (config this)) ;;
     let auth := show (client_id eb) +:+ ":" +:+ show (cert_id eb) in
     response <- (request (EbayOAuthToken auth) : IO (option TokenResponse)) ;;
     data <- deref "access_token" response ;;
     ret (access_token data))
    (fun _ => ret None).

(** A placeholder like [postToTikTok]; the listing object it builds
    (with a random price) is discarded. *)
Definition postToEbay (product : Product) (affiliateLink : string)
  : IO (option string) :=
  try_catch
    (_ <- deref "Title" (ItemInfo product) ;;
     t <- now ;;
     let fakeListingId := "ebay_" +:+ pretty t in
     ret (Some fakeListingId))
    (fun _ => ret None).

Definition generateAffiliateLinks (product : Product) : IO string :=
  amz <- deref "affiliate_tag" (amazon (config this)) ;;
  let baseUrl := "https://amazon.com/dp/" +:+ ASIN product in
  ret (baseUrl +:+ "?tag=" +:+ show (amazon_affiliate_tag amz) +:+ "&ref=paapi5_dp").

(** The [switch (platform)] of [runBotCycle]: an unknown platform
    leaves [postId] at [null]. *)
Definition publish (platform : string) (product : Product) (affiliateLink : string)
  : IO (option string) :=
  if decide (platform = "twitter") then postToTwitter product affiliateLink
  else if decide (platform = "facebook") then postToFacebook product affiliateLink
  else if decide (platform = "instagram") then postToInstagram product affiliateLink
  else if decide (platform = "tiktok") then postToTikTok product affiliateLink
  else if decide (platform = "pinterest") then postToPinterest product affiliateLink
  else if decide (platform = "ebay") then postToEbay product affiliateLink
  else ret None.

Definition runBotCycle (keyword : string) (platforms : list string)
  : IO (list PostResult) :=
  products <- fetchAmazonProducts keyword (Some 5%nat) ;;
  with_local ([] : list PostResult)
    (for_of_value products (fun product =>
       try_catch
         (affiliateLink <- on_fst (generateAffiliateLinks product) ;;
          info <- deref "Title" (ItemInfo product) ;;
          for_of platforms (fun platform =>
            postId <- on_fst (publish platform product affiliateLink) ;;
            if truthy postId then
              t <- on_fst now ;;
              set_local (fun results =>
                (results ++ [{| pr_platform := platform;
                                pr_postId := default EmptyString postId;
                                pr_product := Title info;
                                pr_affiliateLink := affiliateLink;
                                pr_timestamp := t |}])%list)
            else ret tt) ;;
          on_fst (sleep net 2000))
         (fun _ => ret tt)) ;;
     local).

Definition getAmazonEarnings : IO num :=
  try_catch
    (amz <- deref "access_token" (amazon (config this)) ;;
     response <- (request (PaapiGetItems (amazon_access_token amz))
                   : IO (option EarningsBody)) ;;
     data <- deref "totalEarnings" response ;;
     ret (nor0_opt (body_totalEarnings data)))
    (fun _ => ret (nlit 0)).

Definition getClickbankEarnings : IO num :=
  try_catch
    (cb <- deref "api_key" (clickbank (config this)) ;;
     response <- (request (ClickbankAccount (api_key cb)) : IO (option EarningsBody)) ;;
     data <- deref "totalEarnings" response ;;
     ret (nor0_opt (body_totalEarnings data)))
    (fun _ => ret (nlit 0)).

Definition getEbayEarnings : IO num :=
  try_catch
    (accessToken <- getEbayAccessToken ;;
     if negb (truthy accessToken) then ret (nlit 0)
     else
       response <- (request (EbayPartnerPerformance (default EmptyString accessToken))
                     : IO (option PerformanceBody)) ;;
       data <- deref "performanceData" response ;;
       let totalEarnings :=
         nor0_opt
           (match performanceData data with
            | Some items =>
                Some (fold_left
                        (fun total item => nadd total (nor0_opt (body_totalEarnings item)))
                        items (nlit 0))
            | None => None
            end) in
       ret totalEarnings)
    (fun _ => ret (nlit 0)).

Definition trackAffiliateEarnings : IO (EarningsSnapshot num) :=
  try_catch
    (amazonEarnings <- getAmazonEarnings ;;
     clickbankEarnings <- getClickbankEarnings ;;
     ebayEarnings <- getEbayEarnings ;;
     t <- now ;;
     ret {| es_amazon := Some amazonEarnings;
            es_clickbank := Some clickbankEarnings;
            es_ebay := Some ebayEarnings;
            es_total := nadd (nadd amazonEarnings clickbankEarnings) ebayEarnings;
            es_timestamp := t |})
    (fun _ =>
       t <- now ;;
       ret {| es_amazon := None; es_clickbank := None; es_ebay := None;
              es_total := nlit 0; es_timestamp := t |}).
End Methods.
End RealBotEngine.

(** ** The server: registries, [BotManager], endpoints *)

Section ServerData.
Context {num : Type}.

Record Withdrawal := {
  wd_id : string;
  wd_userId : string;
  wd_amount : num;
  wd_method : string;
  wd_date : N;
  wd_status : string;
  wd_transactionId : string;
  wd_fee : num;
  wd_processingTime : string;
}.

(** The user record of [/api/user-data]. The fields [botStats],
    [cryptoWallets], [activities] and the settings, which none of the
    functions below reads or writes, are left out. *)
Record User := {
  uid : string;
  totalEarnings : num;
  availableBalance : num;
  totalRevenue : num;
  totalProfit : num;
  activeBots : option (gmap string bool);
  withdrawalHistory : option (list Withdrawal);
}.

Record BotConfig := { keywords : list string; platforms : list string }.

(** The body of a withdrawal request. *)
Record WithdrawalData := {
  req_userId : string;
  req_amount : num;
  req_method : string;
  req_paymentMethodId : option string;
}.

Record PaymentResult := {
  pay_success : bool;
  pay_transactionId : string;
  pay_fee : num;
  pay_processingTime : string;
}.

(** What the server-side [trackAffiliateEarnings] returns: one object. *)
Record Breakdown := { b_amazon : num; b_clickbank : num; b_ebay : num }.
Record EarningsReport := {
  er_total : num;
  er_breakdown : option Breakdown;      (* [None] is the empty object *)
  er_timestamp : option N;
  er_source : option string;
  er_error : option string;
}.

(** What the earnings endpoint and the background loop iterate over: an
    array of entries with an [amount]. The two shapes meet in
    [earnings.length] and [earnings.forEach]. *)
Record EarningItem := { amount : num }.
Inductive EarningsValue :=
| ReportObject (r : EarningsReport)
| EarningArray (l : list EarningItem).

(** [earnings.length]: [undefined] on the report object. *)
Definition length_of (v : EarningsValue) : option nat :=
  match v with
  | ReportObject _ => None
  | EarningArray l => Some (length l)
  end.

(** [x > 0] for an array length or [undefined]. *)
Definition gt0 (x : option nat) : bool :=
  match x with
  | Some n => Nat.ltb 0 n
  | None => false
  end.

Inductive ActivityMessage :=
| MsgStarted                                   (* 'Real bot started - posting to social media' *)
| MsgStopped                                   (* 'Bot stopped' *)
| MsgFetching                                  (* 'Fetching real products from Amazon...' *)
| MsgRealEarnings (total : num) (posts : nat)  (* `REAL EARNINGS: $.. from .. posts` *)
| MsgCompleted (posts : nat) (on : list string)
| MsgFailed                                    (* 'Real cycle failed - retrying in 5 minutes' *)
| MsgManual (keyword : string).                (* `Manual run: searching ".."` *)

Inductive Event :=
| bot_activity (platform : string) (message : ActivityMessage)
    (results : option (list PostResult)) (error : option string) (timestamp : N)
| earning_update (source : string) (amount : num)
    (breakdown : EarningsSnapshot num) (timestamp : N)
| earning_update_item (earning : EarningItem)
| withdrawal_status (withdrawalId : string) (status : string) (amount : num)
    (transactionId : option string) (error : option string).

(** A [setInterval] registration. *)
Inductive Callback :=
| CbRunRealBotCycle (userId platform : string)
| CbBackgroundEarnings.

Record Timer := { handle : nat; callback : Callback; period : N }.

(** The process state. The [bots] map and [BotManager.activeBots], which
    are created and never used, are left out. *)
Record World := {
  io : IOState num;
  users : JSMap.t User;
  withdrawals : JSMap.t Withdrawal;
  botIntervals : JSMap.t nat;
  userConfigs : JSMap.t BotConfig;
  timers : list Timer;
  next_handle : nat;
  emitted : list (string * Event);
}.

Definition with_io (w : World) (x : IOState num) : World :=
  {| io := x; users := users w; withdrawals := withdrawals w;
     botIntervals := botIntervals w; userConfigs := userConfigs w;
     timers := timers w; next_handle := next_handle w; emitted := emitted w |}.
Definition with_users (w : World) (x : JSMap.t User) : World :=
  {| io := io w; users := x; withdrawals := withdrawals w;
     botIntervals := botIntervals w; userConfigs := userConfigs w;
     timers := timers w; next_handle := next_handle w; emitted := emitted w |}.
Definition with_withdrawals (w : World) (x : JSMap.t Withdrawal) : World :=
  {| io := io w; users := users w; withdrawals := x;
     botIntervals := botIntervals w; userConfigs := userConfigs w;
     timers := timers w; next_handle := next_handle w; emitted := emitted w |}.
Definition with_botIntervals (w : World) (x : JSMap.t nat) : World :=
  {| io := io w; users := users w; withdrawals := withdrawals w;
     botIntervals := x; userConfigs := userConfigs w;
     timers := timers w; next_handle := next_handle w; emitted := emitted w |}.
Definition with_userConfigs (w : World) (x : JSMap.t BotConfig) : World :=
  {| io := io w; users := users w; withdrawals := withdrawals w;
     botIntervals := botIntervals w; userConfigs := x;
     timers := timers w; next_handle := next_handle w; emitted := emitted w |}.
Definition with_timers (w : World) (x : list Timer) (n : nat) : World :=
  {| io := io w; users := users w; withdrawals := withdrawals w;
     botIntervals := botIntervals w; userConfigs := userConfigs w;
     timers := x; next_handle := n; emitted := emitted w |}.
Definition with_emitted (w : World) (x : list (string * Event)) : World :=
  {| io := io w; users := users w; withdrawals := withdrawals w;
     botIntervals := botIntervals w; userConfigs := userConfigs w;
     timers := timers w; next_handle := next_handle w; emitted := x |}.

(** The four financial totals of a user. *)
Definition financials (u : User) : num * num * num * num :=
  (totalEarnings u, availableBalance u, totalRevenue u, totalProfit u).

Definition set_financials (u : User) (te ab tr tp : num) : User :=
  {| uid := uid u; totalEarnings := te; availableBalance := ab;
     totalRevenue := tr; totalProfit := tp;
     activeBots := activeBots u; withdrawalHistory := withdrawalHistory u |}.
Definition set_activeBots (u : User) (x : option (gmap string bool)) : User :=
  {| uid := uid u; totalEarnings := totalEarnings u;
     availableBalance := availableBalance u; totalRevenue := totalRevenue u;
     totalProfit := totalProfit u;
     activeBots := x; withdrawalHistory := withdrawalHistory u |}.
Definition set_withdrawalHistory (u : User) (x : option (list Withdrawal)) : User :=
  {| uid := uid u; totalEarnings := totalEarnings u;
     availableBalance := availableBalance u; totalRevenue := totalRevenue u;
     totalProfit := totalProfit u;
     activeBots := activeBots u; withdrawalHistory := x |}.
End ServerData.
Arguments Withdrawal num : clear implicits.
Arguments User num : clear implicits.
Arguments WithdrawalData num : clear implicits.
Arguments PaymentResult num : clear implicits.
Arguments Breakdown num : clear implicits.
Arguments EarningsReport num : clear implicits.
Arguments EarningItem num : clear implicits.
Arguments EarningsValue num : clear implicits.
Arguments ActivityMessage num : clear implicits.
Arguments Event num : clear implicits.
Arguments World num : clear implicits.

Record ManualResult {num : Type} := {
  mr_success : bool;
  mr_posts : list PostResult;
  mr_earnings : num;
  mr_timestamp : N;
}.
Arguments ManualResult num : clear implicits.

(** The JSON bodies of the two endpoints modelled below. *)
Record TrackReply {num : Type} := {
  tr_success : bool;
  tr_earnings : option (EarningsValue num);
  tr_error : option string;
}.
Arguments TrackReply num : clear implicits.

Record WithdrawReply := {
  wr_success : bool;
  wr_withdrawalId : option string;
  wr_transactionId : option string;
  wr_error : option string;
}.

Module Server.
Section Handlers.
Context {num : Type} `{!JSNumber num}.
Variable net : Net num.
(** [const botEngine = new RealBotEngine({...})] *)
Variable botEngine : Engine.
(** whether [paypalClient] was initialised from the environment *)
Variable paypalClient : bool.

Abbreviation M := (SE (World num)).

(** A call into code that only sees the network and the clock. *)
Definition liftIO {A} (m : IO num A) : M A :=
  fun w => let '(r, s') := m (io w) in (r, with_io w s').

(** [io.to(room).emit(...)] *)
Definition emit (room : string) (ev : Event num) : M unit :=
  modify (fun w => with_emitted w (emitted w ++ [(room, ev)])%list).

Definition setInterval (cb : Callback) (ms : N) : M nat :=
  fun w =>
    let h := next_handle w in
    (Ok h, with_timers w (timers w ++ [{| handle := h; callback := cb; period := ms |}])%list
             (S h)).

Definition clearInterval (h : nat) : M unit :=
  modify (fun w =>
    with_timers w (List.filter (fun t => negb (Nat.eqb (handle t) h)) (timers w))
      (next_handle w)).

(** A write through a reference to the user object stored under
    [userId]: objects in [users] are never replaced, so the reference
    and the key denote the same record. *)
Definition mutate (userId : string) (f : User num -> User num) : M unit :=
  modify (fun w =>
    match JSMap.get userId (users w) with
    | Some u => with_users w (JSMap.set userId (f u) (users w))
    | None => w
    end).

Definition key (userId platform : string) : string :=
  userId +:+ "_" +:+ platform.

(** [app.get('/api/user-data')]: the only place that creates a user. *)
Definition getUserData (query_userId : option string) : M (User num) :=
  let userId := if truthy query_userId then default EmptyString query_userId
                else "default_user" in
  has <- gets (fun w => JSMap.has userId (users w)) ;;
  (if negb has then
     let newUser := {| uid := userId;
                       totalEarnings := nlit 0;
                       availableBalance := nlit 0;
                       totalRevenue := nlit 0;
                       totalProfit := nlit 0;
                       activeBots := Some ∅;
                       withdrawalHistory := Some [] |} in
     modify (fun w => with_users w (JSMap.set userId newUser (users w)))
   else ret tt) ;;
  u <- gets (fun w => JSMap.get userId (users w)) ;;
  deref "user" u.

(** *** [class BotManager] *)

Definition startBot (userId platform : string) (keywords : list string) : M bool :=
  user <- gets (fun w => JSMap.get userId (users w)) ;;
  match user with
  | None =>
      (* [!user] holds, so [user.activeBots = {}] is evaluated *)
      throw (TypeError "Cannot set properties of undefined (setting 'activeBots')")
  | Some u =>
      match activeBots u with
      | None => mutate userId (fun u => set_activeBots u (Some ∅))
      | Some _ => ret tt
      end
  end ;;
  mutate userId (fun u =>
    set_activeBots u (Some (set_prop platform true (default ∅ (activeBots u))))) ;;
  modify (fun w => with_userConfigs w
    (JSMap.set (key userId platform)
       {| keywords := match keywords with
                      | [] => ["trending"; "popular"; "bestseller"]
                      | _ => keywords
                      end;
          platforms := [platform] |}
       (userConfigs w))) ;;
  interval <- setInterval (CbRunRealBotCycle userId platform) 60000 ;;
  modify (fun w => with_botIntervals w
    (JSMap.set (key userId platform) interval (botIntervals w))) ;;
  t <- liftIO now ;;
  emit userId (bot_activity platform MsgStarted None None t) ;;
  ret true.

Definition stopBot (userId platform : string) : M bool :=
  user <- gets (fun w => JSMap.get userId (users w)) ;;
  match user with
  | Some u =>
      match activeBots u with
      | Some _ =>
          mutate userId (fun u =>
            set_activeBots u (Some (set_prop platform false (default ∅ (activeBots u)))))
      | None => ret tt
      end
  | None => ret tt
  end ;;
  let intervalKey := key userId platform in
  tracked <- gets (fun w => JSMap.get intervalKey (botIntervals w)) ;;
  match tracked with
  | Some h =>
      clearInterval h ;;
      modify (fun w => with_botIntervals w (JSMap.delete intervalKey (botIntervals w)))
  | None => ret tt
  end ;;
  t <- liftIO now ;;
  emit userId (bot_activity platform MsgStopped None None t) ;;
  ret true.

(** [user.activeBots[platform]] as a condition. *)
Definition flag (u : User num) (platform : string) : bool :=
  match activeBots u with
  | Some ab => prop_truthy (get_prop ab platform)
  | None => false
  end.

Definition apply_earnings (total : num) (u : User num) : User num :=
  set_financials u
    (nadd (nor0 (totalEarnings u)) total)
    (nadd (nor0 (availableBalance u)) total)
    (nadd (nor0 (totalRevenue u)) total)
    (nadd (nor0 (totalProfit u)) (nmul total (nlit (8 # 10)))).

Definition runRealBotCycle (userId platform : string) : M unit :=
  user <- gets (fun w => JSMap.get userId (users w)) ;;
  match user with
  | None => ret tt
  | Some u =>
      if negb (flag u platform) then ret tt
      else
        config <- gets (fun w => JSMap.get (key userId platform) (userConfigs w)) ;;
        match config with
        | None => ret tt
        | Some config =>
            try_catch
              (t <- liftIO now ;;
               emit userId (bot_activity platform MsgFetching None None t) ;;
               with_local ([] : list PostResult)
                 (for_of (keywords config) (fun keyword =>
                    try_catch
                      (results <- on_fst (liftIO
                         (RealBotEngine.runBotCycle net botEngine keyword
                            (platforms config))) ;;
                       set_local (fun searchResults => (searchResults ++ results)%list) ;;
                       on_fst (liftIO (sleep net 5000)))
                      (fun _ => ret tt)) ;;
                  earnings <- on_fst (liftIO
                    (RealBotEngine.trackAffiliateEarnings net botEngine)) ;;
                  searchResults <- local ;;
                  (if ngt (es_total earnings) (nlit 0) then
                     on_fst (mutate userId (apply_earnings (es_total earnings))) ;;
                     t <- on_fst (liftIO now) ;;
                     on_fst (emit userId
                       (earning_update platform (es_total earnings) earnings t)) ;;
                     t <- on_fst (liftIO now) ;;
                     on_fst (emit userId
                       (bot_activity platform
                          (MsgRealEarnings (es_total earnings) (length searchResults))
                          None None t))
                   else ret tt) ;;
                  t <- on_fst (liftIO now) ;;
                  on_fst (emit userId
                    (bot_activity platform
                       (MsgCompleted (length searchResults) (platforms config))
                       (Some searchResults) None t))))
              (fun error =>
                 t <- liftIO now ;;
                 emit userId
                   (bot_activity platform MsgFailed None (Some (err_message error)) t))
        end
  end.

Definition runManualCycle (userId platform keyword : string) : M (ManualResult num) :=
  config <- gets (fun w => JSMap.get (key userId platform) (userConfigs w)) ;;
  match config with
  | None => throw (Error "Bot not started - start the bot first")
  | Some _ =>
      try_catch
        (t <- liftIO now ;;
         emit userId (bot_activity platform (MsgManual keyword) None None t) ;;
         results <- liftIO (RealBotEngine.runBotCycle net botEngine keyword [platform]) ;;
         earnings <- liftIO (RealBotEngine.trackAffiliateEarnings net botEngine) ;;
         t <- liftIO now ;;
         ret {| mr_success := true; mr_posts := results;
                mr_earnings := es_total earnings; mr_timestamp := t |})
        (fun error => throw error)
  end.

(** *** Earnings: the server-side wrapper, the endpoint, the loop *)

Definition trackAffiliateEarnings (userId : string) : M (EarningsReport num) :=
  user <- gets (fun w => JSMap.get userId (users w)) ;;
  match user with
  | None =>
      ret {| er_total := nlit 0; er_breakdown := None; er_timestamp := None;
             er_source := None; er_error := None |}
  | Some _ =>
      try_catch
        (realEarnings <- liftIO (RealBotEngine.trackAffiliateEarnings net botEngine) ;;
         t <- liftIO now ;;
         ret {| er_total := nor0 (es_total realEarnings);
                er_breakdown :=
                  Some {| b_amazon := nor0_opt (es_amazon realEarnings);
                          b_clickbank := nor0_opt (es_clickbank realEarnings);
                          b_ebay := nor0_opt (es_ebay realEarnings) |};
                er_timestamp := Some t;
                er_source := Some "real-api";
                er_error := None |})
        (fun error =>
           ret {| er_total := nlit 0; er_breakdown := None; er_timestamp := None;
                  er_source := None; er_error := Some (err_message error) |})
  end.

(** [earnings.forEach(f)]: only an array has the method. *)
Definition forEach (earnings : EarningsValue num) (f : EarningItem num -> M unit)
  : M unit :=
  match earnings with
  | EarningArray l => for_of l f
  | ReportObject _ => throw (TypeError "earnings.forEach is not a function")
  end.

(** The four [+=] of the endpoint and of the background loop. *)
Definition add_earning (earning : EarningItem num) (u : User num) : User num :=
  set_financials u
    (nadd (totalEarnings u) (amount earning))
    (nadd (availableBalance u) (amount earning))
    (nadd (totalRevenue u) (amount earning))
    (nadd (totalProfit u) (nmul (amount earning) (nlit (8 # 10)))).

(** [app.post('/api/track-earnings')] *)
Definition track_earnings (userId : string) : M (TrackReply num) :=
  try_catch
    (report <- trackAffiliateEarnings userId ;;
     let earnings := ReportObject report in
     user <- gets (fun w => JSMap.get userId (users w)) ;;
     (if bool_decide (is_Some user) && gt0 (length_of earnings) then
        forEach earnings (fun earning =>
          mutate userId (add_earning earning) ;;
          emit userId (earning_update_item earning))
      else ret tt) ;;
     ret {| tr_success := true; tr_earnings := Some earnings; tr_error := None |})
    (fun error =>
       ret {| tr_success := false; tr_earnings := None;
              tr_error := Some (err_message error) |}).

(** The callback of the 30-second [setInterval]: one pass over the
    registry, in insertion order. *)
Definition backgroundEarnings : M unit :=
  entries <- gets users ;;
  for_of entries (fun entry =>
    let userId := fst entry in
    try_catch
      (report <- trackAffiliateEarnings userId ;;
       let earnings := ReportObject report in
       if gt0 (length_of earnings) then
         forEach earnings (fun earning =>
           mutate userId (add_earning earning) ;;
           emit userId (earning_update_item earning))
       else ret tt)
      (fun _ => ret tt)).

(** What a timer runs when it fires. *)
Definition fire (cb : Callback) : M unit :=
  match cb with
  | CbRunRealBotCycle userId platform => runRealBotCycle userId platform
  | CbBackgroundEarnings => backgroundEarnings
  end.

(** *** Withdrawals *)

Definition processWithdrawal (withdrawalData : WithdrawalData num)
  : M (PaymentResult num) :=
  let amount := req_amount withdrawalData in
  try_catch
    (if decide (req_method withdrawalData = "stripe") then
       stripePaymentIntent <-
         liftIO (request net (StripeCreatePaymentIntent
                                (nround (nmul amount (nlit 100)))
                                (req_paymentMethodId withdrawalData))
                 : IO num StripeIntent) ;;
       ret {| pay_success := String.eqb (intent_status stripePaymentIntent) "succeeded";
              pay_transactionId := intent_id stripePaymentIntent;
              pay_fee := nadd (nmul amount (nlit (29 # 1000))) (nlit (30 # 100));
              pay_processingTime := "instant" |}
     else if decide (req_method withdrawalData = "paypal") then
       if negb paypalClient then throw (Error "PayPal not configured")
       else
         order <- liftIO (request net (PaypalCreateOrder amount) : IO num string) ;;
         capture <- liftIO (request net (PaypalCaptureOrder order)
                            : IO num PaypalResult) ;;
         ret {| pay_success := String.eqb (paypal_status capture) "COMPLETED";
                pay_transactionId := paypal_id capture;
                pay_fee := nadd (nmul amount (nlit (349 # 10000))) (nlit (30 # 100));
                pay_processingTime := "instant" |}
     else if decide (req_method withdrawalData = "bank") then
       t <- liftIO now ;;
       ret {| pay_success := true;
              pay_transactionId := "bank_" +:+ pretty t;
              pay_fee := nlit 0;
              pay_processingTime := "1-3 business days" |}
     else throw (Error "Unsupported payment method"))
    (fun error => throw error).

(** [app.post('/api/withdraw')] *)
Definition withdraw (withdrawalData : WithdrawalData num) : M WithdrawReply :=
  let userId := req_userId withdrawalData in
  let amount := req_amount withdrawalData in
  t0 <- liftIO now ;;
  let withdrawalId := "withdraw_" +:+ pretty t0 in
  try_catch
    (paymentResult <- processWithdrawal withdrawalData ;;
     if pay_success paymentResult then
       user <- gets (fun w => JSMap.get userId (users w)) ;;
       (if bool_decide (is_Some user) then
          mutate userId (fun u =>
            set_financials u (totalEarnings u) (nsub (availableBalance u) amount)
              (totalRevenue u) (totalProfit u))
        else ret tt) ;;
       date <- liftIO now ;;
       let withdrawal := {| wd_id := withdrawalId;
                            wd_userId := userId;
                            wd_amount := amount;
                            wd_method := req_method withdrawalData;
                            wd_date := date;
                            wd_status := "completed";
                            wd_transactionId := pay_transactionId paymentResult;
                            wd_fee := pay_fee paymentResult;
                            wd_processingTime := pay_processingTime paymentResult |} in
       modify (fun w => with_withdrawals w
                 (JSMap.set withdrawalId withdrawal (withdrawals w))) ;;
       (if bool_decide (is_Some user) then
          mutate userId (fun u =>
            set_withdrawalHistory u
              (Some (withdrawal :: default [] (withdrawalHistory u))))
        else ret tt) ;;
       emit userId (withdrawal_status withdrawalId "completed" amount
                      (Some (pay_transactionId paymentResult)) None) ;;
       ret {| wr_success := true; wr_withdrawalId := Some withdrawalId;
              wr_transactionId := Some (pay_transactionId paymentResult);
              wr_error := None |}
     else throw (Error "Payment processing failed"))
    (fun error =>
       emit userId (withdrawal_status withdrawalId "failed" amount None
                      (Some (err_message error))) ;;
       ret {| wr_success := false; wr_withdrawalId := None;
              wr_transactionId := None; wr_error := Some (err_message error) |}).
End Handlers.
End Server.


(** ** The HTTP layer: the bot endpoints and the route table *)

Record ControlReply := {
  cr_success : bool;
  cr_platform : option string;
  cr_action : option string;
  cr_message : option string;
  cr_error : option string;
}.

Inductive CycleReply {num : Type} :=
| CycleResult (result : ManualResult num)
| CycleFailed (error : string).
Arguments CycleReply num : clear implicits.

Record StatusReply := {
  st_platform : string;
  st_active : PropValue;             (* what [user.activeBots[platform]] reads *)
  st_config : option BotConfig;      (* [None] is [null] *)
  st_keywords : list string;
  st_lastRun : N;
}.

Module Api.
Section Endpoints.
Context {num : Type} `{!JSNumber num}.
Variable net : Net num.
Variable botEngine : Engine.

Abbreviation M := (SE (World num)).

(** [app.post('/api/bot/:platform/:action')]; [keywords] is the body's
    field, absent or an array. *)
Definition bot_control (platform action userId : string) (keywords : option (list string))
  : M ControlReply :=
  try_catch
    (success <-
       (if decide (action = "start") then
          Server.startBot userId platform (default [] keywords)
        else if decide (action = "stop") then
          Server.stopBot userId platform
        else ret false) ;;
     ret {| cr_success := success;
            cr_platform := Some platform;
            cr_action := Some action;
            cr_message := Some ("Real " +:+ platform +:+ " bot " +:+ action +:+ "ed");
            cr_error := None |})
    (fun error =>
       ret {| cr_success := false; cr_platform := None; cr_action := None;
              cr_message := None; cr_error := Some (err_message error) |}).

(** [app.post('/api/bot/:platform/cycle')] *)
Definition bot_cycle (platform userId : string) (keyword : option string)
  : M (CycleReply num) :=
  try_catch
    (result <- Server.runManualCycle net botEngine userId platform
                 (if truthy keyword then default EmptyString keyword
                  else "trending products") ;;
     ret (CycleResult result))
    (fun error => ret (CycleFailed (err_message error))).

(** [app.get('/api/bot/:platform/status')] *)
Definition bot_status (platform userId : string) : M StatusReply :=
  user <- gets (fun w => JSMap.get userId (users w)) ;;
  let isActive :=
    match user with
    | Some u =>
        match activeBots u with
        | Some ab => get_prop ab platform
        | None => PropUndefined
        end
    | None => PropUndefined
    end in
  config <- gets (fun w => JSMap.get (Server.key userId platform) (userConfigs w)) ;;
  t <- Server.liftIO now ;;
  ret {| st_platform := platform;
         st_active := isActive;
         st_config := config;
         st_keywords := match config with
                        | Some c => keywords c
                        | None => []
                        end;
         st_lastRun := t |}.
End Endpoints.

(** *** The route table

    Routes are tried in the order of their registration and the first
    one whose method and path pattern match handles the request (no
    handler of the file passes the request on). A pattern is a list of
    segments; a literal segment is compared without regard to case (the
    application does not enable case sensitive routing) and [:name]
    matches any one non-empty segment. A path is given as the list of
    its segments. The static file middleware registered before the
    routes answers [GET] and [HEAD] requests only. *)

Inductive Method := GET | POST.

Inductive Seg :=
| Lit (s : string)
| Param (name : string).

Inductive Handler :=
| UserData | TrackEarnings | CryptoBalance | BotControl | BotCycle | BotStatus
| Withdraw | SaveSettings | TestConnections | StartServer | ServerStatus.

Definition routes : list (Method * list Seg * Handler) :=
  [ (GET,  [Lit "api"; Lit "user-data"], UserData);
    (POST, [Lit "api"; Lit "track-earnings"], TrackEarnings);
    (GET,  [Lit "api"; Lit "crypto-balance"; Param "type"; Param "address"], CryptoBalance);
    (POST, [Lit "api"; Lit "bot"; Param "platform"; Param "action"], BotControl);
    (POST, [Lit "api"; Lit "bot"; Param "platform"; Lit "cycle"], BotCycle);
    (GET,  [Lit "api"; Lit "bot"; Param "platform"; Lit "status"], BotStatus);
    (POST, [Lit "api"; Lit "withdraw"], Withdraw);
    (POST, [Lit "api"; Lit "save-settings"], SaveSettings);
    (POST, [Lit "api"; Lit "test-connections"], TestConnections);
    (POST, [Lit "start-server"], StartServer);
    (GET,  [Lit "server-status"], ServerStatus) ].

Definition lower_ascii (c : Ascii.ascii) : Ascii.ascii :=
  let n := Ascii.nat_of_ascii c in
  if Nat.leb 65 n && Nat.leb n 90 then Ascii.ascii_of_nat (n + 32) else c.

Fixpoint lower (s : string) : string :=
  match s with
  | EmptyString => EmptyString
  | String c s' => String (lower_ascii c) (lower s')
  end.

Definition lit_eqb (s x : string) : bool := String.eqb (lower s) (lower x).

Definition method_eqb (a b : Method) : bool :=
  match a, b with
  | GET, GET => true
  | POST, POST => true
  | _, _ => false
  end.

(** The parameters bound when [pattern] matches the segments [path]. *)
Fixpoint match_path (pattern : list Seg) (path : list string)
  : option (list (string * string)) :=
  match pattern, path with
  | [], [] => Some []
  | Lit s :: pattern', x :: path' =>
      if lit_eqb s x then match_path pattern' path' else None
  | Param name :: pattern', x :: path' =>
      if String.eqb x EmptyString then None
      else
        match match_path pattern' path' with
        | Some params => Some ((name, x) :: params)
        | None => None
        end
  | _, _ => None
  end.

Fixpoint dispatch_in (table : list (Method * list Seg * Handler))
  (m : Method) (path : list string) : option (Handler * list (string * string)) :=
  match table with
  | [] => None
  | (m', pattern, h) :: rest =>
      if method_eqb m' m then
        match match_path pattern path with
        | Some params => Some (h, params)
        | None => dispatch_in rest m path
        end
      else dispatch_in rest m path
  end.

Definition dispatch (m : Method) (path : list string)
  : option (Handler * list (string * string)) :=
  dispatch_in routes m path.
End Api.

(** * Specification vocabulary *)

(** A computation that cannot throw. *)
Definition total {S A} (m : SE S A) : Prop :=
  forall s, exists a s', m s = (Ok a, s').


Section EngineSpec.
Context {num : Type} `{!JSNumber num}.
Variable net : Net num.
Variable this : Engine.

(** The value that a search reply yields:
    [response.data.SearchResult?.Items || []], and the empty list for a
    rejected call or a reply without a body. *)
Definition items_of_reply (reply : Outcome (option SearchData)) : ItemsValue :=
  match reply with
  | Resolved (Some data) =>
      match SearchResult data with
      | Some sr =>
          match Items sr with
          | Some v => if items_truthy v then v else ItemsArray []
          | None => ItemsArray []
          end
      | None => ItemsArray []
      end
  | Resolved None => ItemsArray []
  | Rejected _ => ItemsArray []
  end.

(** The state after one request. *)
Definition sent (r : ExtReq num) (s : IOState num) : IOState num :=
  {| clock := (clock s + latency net (length (calls s)))%N;
     calls := calls s ++ [r] |}.

(** Section 4.1: the value fetched for a keyword is the [Items] of the
    provider's reply; the empty list without an [amazon] section, in
    which case no request is made. *)
Definition search_spec (keyword : string) (maxCount : nat) (s : IOState num)
  : ItemsValue * IOState num :=
  match amazon (config this) with
  | None => (ItemsArray [], s)
  | Some amz =>
      let r := PaapiSearchItems keyword maxCount (amazon_access_key amz) in
      (items_of_reply (answer net (length (calls s)) r), sent r s)
  end.

(** The products that a cycle goes through: the elements of the fetched
    value, in the provider's order; none when it cannot be iterated. *)
Definition fetch_spec (keyword : string) (maxCount : nat) (s : IOState num)
  : list Product * IOState num :=
  let '(v, s') := search_spec keyword maxCount s in
  (default [] (elements v), s').

(** The state after a pause of [ms] milliseconds. *)
Definition paused (ms : N) (s : IOState num) : IOState num :=
  {| clock := (clock s + ms + timer_lag net (clock s))%N; calls := calls s |}.

(** The affiliate link of a product, for a configured [amazon] section. *)
Definition affiliate_link (amz : AmazonCfg) (product : Product) : string :=
  ("https://amazon.com/dp/" +:+ ASIN product) +:+ "?tag="
  +:+ show (amazon_affiliate_tag amz) +:+ "&ref=paapi5_dp".

(** Section 4.4, step 2, for one product: invoke the publisher of each
    requested platform in the caller's order and record one [PostResult],
    stamped at the return of the publisher, for each truthy identifier. *)
Fixpoint publish_each (product : Product) (title link : string)
  (platforms : list string) (s : IOState num) : list PostResult * IOState num :=
  match platforms with
  | [] => ([], s)
  | platform :: rest =>
      let '(r, s1) := RealBotEngine.publish net this platform product link s in
      let recorded :=
        match r with
        | Ok (Some postId) =>
            if truthy (Some postId) then
              [{| pr_platform := platform; pr_postId := postId; pr_product := title;
                  pr_affiliateLink := link; pr_timestamp := clock s1 |}]
            else []
        | _ => []
        end in
      let '(more, s2) := publish_each product title link rest s1 in
      ((recorded ++ more)%list, s2)
  end.

(** Section 4.4, steps 2 to 4, for the fetched products in fetch order: a
    product that cannot be processed (no [ItemInfo], no [amazon] section)
    is skipped; every other one is published and followed by the pause. *)
Fixpoint cycle_spec (platforms : list string) (products : list Product)
  (s : IOState num) : list PostResult * IOState num :=
  match products with
  | [] => ([], s)
  | product :: rest =>
      match amazon (config this), ItemInfo product with
      | Some amz, Some info =>
          let '(rs, s1) :=
            publish_each product (Title info) (affiliate_link amz product) platforms s in
          let '(more, s3) := cycle_spec platforms rest (paused 2000 s1) in
          ((rs ++ more)%list, s3)
      | _, _ => cycle_spec platforms rest s
      end
  end.

(** A publisher that always succeeds: on every product that has its
    [ItemInfo], in every state, it returns a truthy identifier. *)
Definition always_succeeds (platform : string) : Prop :=
  forall product info link s,
    ItemInfo product = Some info ->
    exists postId s',
      RealBotEngine.publish net this platform product link s = (Ok (Some postId), s') /\
      truthy (Some postId) = true.

(** A publisher that always succeeds on a given product: whatever the
    link and the state, it returns a truthy identifier. *)
Definition succeeds_at (platform : string) (product : Product) : Prop :=
  forall link s,
    exists postId s',
      RealBotEngine.publish net this platform product link s = (Ok (Some postId), s') /\
      truthy (Some postId) = true.

(** The network state when a tick has run the cycles of its keywords:
    each cycle that ends normally is followed by the 5-second pause. *)
Fixpoint after_keywords (platforms : list string) (keywords : list string)
  (s : IOState num) : IOState num :=
  match keywords with
  | [] => s
  | keyword :: rest =>
      let '(r, s1) := RealBotEngine.runBotCycle net this keyword platforms s in
      after_keywords platforms rest
        match r with
        | Ok _ => paused 5000 s1
        | Throw _ => s1
        end
  end.

(** What an earnings reply contributes: [response.data.totalEarnings || 0],
    and 0 for a rejected call or a reply without a body. *)
Definition earnings_of_reply (reply : Outcome (option (@EarningsBody num))) : num :=
  match reply with
  | Resolved (Some data) => nor0_opt (body_totalEarnings data)
  | Resolved None => nlit 0
  | Rejected _ => nlit 0
  end.

(** The eBay figure: the sum over [performanceData] of the entries'
    [totalEarnings || 0], itself read with [|| 0]. *)
Definition performance_of_reply (reply : Outcome (option (@PerformanceBody num))) : num :=
  match reply with
  | Resolved (Some data) =>
      nor0_opt
        (match performanceData data with
         | Some items =>
             Some (fold_left
                     (fun total item => nadd total (nor0_opt (body_totalEarnings item)))
                     items (nlit 0))
         | None => None
         end)
  | Resolved None => nlit 0
  | Rejected _ => nlit 0
  end.

(** The token that an OAuth reply yields, if any. *)
Definition token_of_reply (reply : Outcome (option TokenResponse)) : option string :=
  match reply with
  | Resolved (Some data) => access_token data
  | Resolved None => None
  | Rejected _ => None
  end.

(** Each provider's figure as a function of that provider's own replies,
    with the state in which its query ends. *)
Definition amazon_earnings_spec (s : IOState num) : num * IOState num :=
  match amazon (config this) with
  | None => (nlit 0, s)
  | Some amz =>
      let r := PaapiGetItems (amazon_access_token amz) in
      (earnings_of_reply (answer net (length (calls s)) r), sent r s)
  end.

Definition clickbank_earnings_spec (s : IOState num) : num * IOState num :=
  match clickbank (config this) with
  | None => (nlit 0, s)
  | Some cb =>
      let r := ClickbankAccount (api_key cb) in
      (earnings_of_reply (answer net (length (calls s)) r), sent r s)
  end.

Definition ebay_token_spec (s : IOState num) : option string * IOState num :=
  match ebay (config this) with
  | None => (None, s)
  | Some eb =>
      let r := EbayOAuthToken (show (client_id eb) +:+ ":" +:+ show (cert_id eb)) in
      (token_of_reply (answer net (length (calls s)) r), sent r s)
  end.

Definition ebay_earnings_spec (s : IOState num) : num * IOState num :=
  let '(token, s1) := ebay_token_spec s in
  if truthy token then
    let r := EbayPartnerPerformance (default EmptyString token) in
    (performance_of_reply (answer net (length (calls s1)) r), sent r s1)
  else (nlit 0, s1).
End EngineSpec.

(** A client object exists only for a platform whose configuration section
    exists: what [initializeClients] establishes. *)
Definition wf_engine (e : Engine) : Prop :=
  (is_Some (facebook_client e) -> is_Some (facebook (config e))) /\
  (is_Some (instagram_client e) -> is_Some (instagram (config e))).

(** "That platform's credentials are configured", per platform: the
    settings without which its publisher cannot authenticate. *)
Definition configured (cfg : Config) (platform : string) : bool :=
  if decide (platform = "twitter") then
    match twitter cfg with
    | Some t => truthy (consumer_key t) && truthy (consumer_secret t)
    | None => false
    end
  else if decide (platform = "facebook") then
    match facebook cfg with
    | Some f => truthy (facebook_access_token f) && truthy (page_id f)
    | None => false
    end
  else if decide (platform = "instagram") then
    match instagram cfg with
    | Some i => truthy (instagram_access_token i) && truthy (user_id i)
    | None => false
    end
  else if decide (platform = "tiktok") then
    match tiktok cfg with
    | Some t => truthy (tiktok_access_token t)
    | None => false
    end
  else if decide (platform = "pinterest") then
    match pinterest cfg with
    | Some p => truthy (pinterest_access_token p)
    | None => false
    end
  else if decide (platform = "ebay") then
    match ebay cfg with
    | Some e => truthy (client_id e) && truthy (cert_id e)
    | None => false
    end
  else false.

(** What tells two entries of a result list apart. *)
Definition stamp (r : PostResult) : string * string * N :=
  (pr_platform r, pr_product r, pr_timestamp r).

(** The clock never runs backwards, the call log only grows. *)
Definition advances {num : Type} (s s' : IOState num) : Prop :=
  (clock s <= clock s')%N /\ exists more, calls s' = (calls s ++ more)%list.

Definition progressive {num A : Type} (m : IO num A) : Prop :=
  forall s, advances s (snd (m s)).

(** The payment did not go through: the processor's call raised, or it
    reported a status other than success. *)
Definition payment_failed {num : Type} (r : Res (PaymentResult num)) : Prop :=
  match r with
  | Ok p => pay_success p = false
  | Throw _ => True
  end.

(** The timer that [startBot] registers for a pair, under handle [h]. *)
Definition bot_timer (h : nat) (userId platform : string) : Timer :=
  {| handle := h; callback := CbRunRealBotCycle userId platform; period := 60000 |}.

(** Handles are handed out in increasing order and never reused: every
    scheduled timer has its own handle, below the next one to be issued. *)
Definition timers_ok {num : Type} (w : World num) : Prop :=
  NoDup (map handle (timers w)) /\
  Forall (fun t => handle t < next_handle w) (timers w).

(** The events of [w'] are those of [w] followed by events addressed to
    the room [room] only. *)
Definition emits_only_to {num : Type} (room : string) (w w' : World num) : Prop :=
  exists events,
    emitted w' = (emitted w ++ events)%list /\
    Forall (fun e => fst e = room) events.

(** Everything but the network state, the registry of users and the list
    of emitted events is as it was. *)
Definition same_books {num : Type} (w w' : World num) : Prop :=
  withdrawals w' = withdrawals w /\
  botIntervals w' = botIntervals w /\
  userConfigs w' = userConfigs w /\
  timers w' = timers w /\
  next_handle w' = next_handle w.

(** A product that the cycle can process. *)
Definition processable (product : Product) : bool :=
  match ItemInfo product with
  | Some _ => true
  | None => false
  end.

(** The text of a tweet and the caption of an Instagram post. *)
Definition tweet_text (info : ItemInfoT) (link : string) : string :=
  "🔥 Check this out! " +:+ Title info +:+ nl +:+ nl
  +:+ link +:+ nl +:+ nl +:+ "#AmazonFinds #Deals #Musthave".

Definition instagram_caption (info : ItemInfoT) : string :=
  "🔥 " +:+ Title info +:+ nl +:+ nl
  +:+ default EmptyString (join nl <$> (firstn 2 <$> RealBotEngine.displayValues info))
  +:+ nl +:+ nl +:+ "Link in bio! 👆" +:+ nl +:+ nl
  +:+ "#AmazonFinds #Deals #Musthave".

(** The user id that [/api/user-data] works on. *)
Definition requested_user (query_userId : option string) : string :=
  if truthy query_userId then default EmptyString query_userId else "default_user".

(** The record of a user that has just been created. *)
Definition fresh_user {num : Type} `{!JSNumber num} (userId : string) : User num :=
  {| uid := userId;
     totalEarnings := nlit 0; availableBalance := nlit 0;
     totalRevenue := nlit 0; totalProfit := nlit 0;
     activeBots := Some ∅; withdrawalHistory := Some [] |}.

(** The configuration that [startBot] stores. *)
Definition started_config (platform : string) (kws : list string) : BotConfig :=
  {| keywords := match kws with
                 | [] => ["trending"; "popular"; "bestseller"]
                 | _ => kws
                 end;
     platforms := [platform] |}.

(** The identifier that the withdrawal endpoint gives a request received
    in state [w]. *)
Definition withdrawal_id {num : Type} (w : World num) : string :=
  "withdraw_" +:+ pretty (clock (io w)).

(** The record of a paid withdrawal. *)
Definition withdrawal_record {num : Type} (withdrawalData : WithdrawalData num)
  (paid : PaymentResult num) (id : string) (date : N) : Withdrawal num :=
  {| wd_id := id;
     wd_userId := req_userId withdrawalData;
     wd_amount := req_amount withdrawalData;
     wd_method := req_method withdrawalData;
     wd_date := date;
     wd_status := "completed";
     wd_transactionId := pay_transactionId paid;
     wd_fee := pay_fee paid;
     wd_processingTime := pay_processingTime paid |}.

(** A user after a paid withdrawal: the amount is taken off the available
    balance and the record is put in front of the history. *)
Definition paid_user {num : Type} `{!JSNumber num} (amount : num)
  (record : Withdrawal num) (u : User num) : User num :=
  set_withdrawalHistory
    (set_financials u (totalEarnings u) (nsub (availableBalance u) amount)
       (totalRevenue u) (totalProfit u))
    (Some (record :: default [] (withdrawalHistory u))).

(** The keyword that the manual-cycle endpoint searches for: the one of
    the request unless it is absent or empty. *)
Definition cycle_keyword (keyword : option string) : string :=
  match keyword with
  | None | Some EmptyString => "trending products"
  | Some k => k
  end.


(** * Fixtures *)

Definition offline : JSError := Error "network unreachable".

Definition sdk_ok : SDK :=
  {| TwitterApi_ok := fun _ => true; FacebookClient_ok := fun _ => true |}.

Definition cfg_none : Config :=
  {| amazon := None; twitter := None; facebook := None; instagram := None;
     tiktok := None; pinterest := None; clickbank := None; ebay := None |}.

Definition amazon_section : AmazonCfg :=
  {| amazon_access_key := Some "AKIA"; amazon_secret_key := Some "secret";
     amazon_affiliate_tag := Some "your-tag-20"; amazon_access_token := None |}.

(** Only the marketplace is configured. *)
Definition cfg_amazon : Config :=
  {| amazon := Some amazon_section; twitter := None; facebook := None;
     instagram := None; tiktok := None; pinterest := None; clickbank := None;
     ebay := None |}.

(** The marketplace and a Twitter application. *)
Definition cfg_twitter : Config :=
  {| amazon := Some amazon_section;
     twitter := Some {| consumer_key := Some "ck"; consumer_secret := Some "cs";
                        twitter_access_token := Some "at";
                        twitter_access_secret := Some "as" |};
     facebook := None; instagram := None; tiktok := None; pinterest := None;
     clickbank := None; ebay := None |}.

(** A Twitter application (consumer key and secret) without an access
    token. *)
Definition cfg_twitter_no_access_token : Config :=
  {| amazon := Some amazon_section;
     twitter := Some {| consumer_key := Some "ck"; consumer_secret := Some "cs";
                        twitter_access_token := None;
                        twitter_access_secret := None |};
     facebook := None; instagram := None; tiktok := None; pinterest := None;
     clickbank := None; ebay := None |}.

(** A Facebook page without an access token. *)
Definition cfg_facebook_no_token : Config :=
  {| amazon := Some amazon_section; twitter := None;
     facebook := Some {| facebook_access_token := None; page_id := Some "page1" |};
     instagram := None; tiktok := None; pinterest := None; clickbank := None;
     ebay := None |}.

(** The three affiliate programmes. *)
Definition cfg_programmes : Config :=
  {| amazon := Some amazon_section; twitter := None; facebook := None;
     instagram := None; tiktok := None; pinterest := None;
     clickbank := Some {| api_key := Some "cb-key"; nickname := None |};
     ebay := Some {| ebay_access_token := None; client_id := Some "id";
                     cert_id := Some "cert" |} |}.

Definition earbuds (n : string) : Product :=
  {| ASIN := "B00" +:+ n;
     ItemInfo := Some {| Title := "Wireless earbuds " +:+ n;
                         Features := None;
                         Images := Some {| PrimaryImage := None |} |} |}.

Definition two_products : SearchData :=
  {| SearchResult := Some {| Items := Some (ItemsArray [earbuds "1"; earbuds "2"]) |} |}.

Definition no_lag : N -> N := fun _ => 0%N.

(** Nothing outside answers. *)
Definition net_down : Net Q :=
  {| answer := fun _ r => Rejected offline;
     latency := fun _ => 0%N;
     timer_lag := no_lag |}.

(** The marketplace answers every search with the same two products,
    whatever [ItemCount] asks for; nothing else answers. *)
Definition net_shop : Net Q :=
  {| answer := fun _ r =>
       match r as r0 return Outcome (Reply r0) with
       | PaapiSearchItems _ _ _ => Resolved (Some two_products)
       | _ => Rejected offline
       end;
     latency := fun _ => 0%N;
     timer_lag := no_lag |}.

(** The marketplace answers every search with a body whose [Items] is
    the number 7; nothing else answers. *)
Definition net_malformed : Net Q :=
  {| answer := fun _ r =>
       match r as r0 return Outcome (Reply r0) with
       | PaapiSearchItems _ _ _ =>
           Resolved (Some {| SearchResult := Some {| Items := Some (ItemsNumber (7 # 1)%Q) |} |})
       | _ => Rejected offline
       end;
     latency := fun _ => 0%N;
     timer_lag := no_lag |}.

(** As [net_shop], and Twitter accepts every tweet but answers with an
    empty identifier. *)
Definition net_blank_id : Net Q :=
  {| answer := fun _ r =>
       match r as r0 return Outcome (Reply r0) with
       | PaapiSearchItems _ _ _ => Resolved (Some two_products)
       | TwitterTweet _ _ _ => Resolved EmptyString
       | _ => Rejected offline
       end;
     latency := fun _ => 0%N;
     timer_lag := no_lag |}.

(** Amazon's earnings call fails, ClickBank reports 42, eBay refuses the
    token. *)
Definition net_earnings : Net Q :=
  {| answer := fun _ r =>
       match r as r0 return Outcome (Reply r0) with
       | ClickbankAccount _ =>
           Resolved (Some {| body_totalEarnings := Some (42 # 1)%Q |})
       | _ => Rejected offline
       end;
     latency := fun _ => 0%N;
     timer_lag := no_lag |}.

Definition io0 : IOState Q := {| clock := 1700000000000%N; calls := [] |}.

Definition member (name : string) : User Q :=
  {| uid := name;
     totalEarnings := (100 # 1)%Q;
     availableBalance := (100 # 1)%Q;
     totalRevenue := (100 # 1)%Q;
     totalProfit := (80 # 1)%Q;
     activeBots := Some ∅;
     withdrawalHistory := Some [] |}.

(** A fresh process. *)
Definition world_empty : World Q :=
  {| io := io0; users := []; withdrawals := []; botIntervals := [];
     userConfigs := []; timers := []; next_handle := 0; emitted := [] |}.

(** A process with one registered user. *)
Definition world_with (name : string) : World Q :=
  {| io := io0; users := [(name, member name)]; withdrawals := [];
     botIntervals := []; userConfigs := []; timers := []; next_handle := 0;
     emitted := [] |}.

Definition stripe_request (name : string) : WithdrawalData Q :=
  {| req_userId := name; req_amount := (25 # 1)%Q; req_method := "stripe";
     req_paymentMethodId := Some "pm_card" |}.

(** A catalogue entry without [ItemInfo]. *)
Definition bare_product : Product := {| ASIN := "B00X"; ItemInfo := None |}.

Definition picture : Image := {| URL := "https://img.example/earbuds.jpg" |}.

Definition pictured_info : ItemInfoT :=
  {| Title := "Wireless earbuds";
     Features := Some {| DisplayValues := Some ["Bluetooth 5"; "24h battery"; "IPX4"] |};
     Images := Some {| PrimaryImage := Some picture |} |}.

(** A product with a primary image. *)
Definition pictured_product : Product :=
  {| ASIN := "B00P"; ItemInfo := Some pictured_info |}.

Definition instagram_section : InstagramCfg :=
  {| instagram_access_token := Some "ig-token"; user_id := Some "ig-user" |}.

(** The marketplace and an Instagram account. *)
Definition cfg_instagram : Config :=
  {| amazon := Some amazon_section; twitter := None; facebook := None;
     instagram := Some instagram_section;
     tiktok := None; pinterest := None; clickbank := None; ebay := None |}.

Definition bank_request (name : string) (amount : Q) : WithdrawalData Q :=
  {| req_userId := name; req_amount := amount; req_method := "bank";
     req_paymentMethodId := None |}.

Definition crypto_request (name : string) : WithdrawalData Q :=
  {| req_userId := name; req_amount := (25 # 1)%Q; req_method := "crypto";
     req_paymentMethodId := None |}.

(** "alice" has a TikTok bot running for the keyword "earbuds". *)
Definition world_ticking : World Q :=
  snd (Server.startBot "alice" "tiktok" ["earbuds"] (world_with "alice")).
(** * Properties *)

(** ** The monad *)

Section MonadFacts.
Context {S A B : Type}.

Lemma bind_ok (m : SE S A) (k : A -> SE S B) s a s' :
  m s = (Ok a, s') -> bind m k s = k a s'.
Proof. intros E. unfold bind. now rewrite E. Qed.

Lemma bind_throw (m : SE S A) (k : A -> SE S B) s e s' :
  m s = (Throw e, s') -> bind m k s = (Throw e, s').
Proof. intros E. unfold bind. now rewrite E. Qed.

Lemma try_catch_ok (m : SE S A) h s a s' :
  m s = (Ok a, s') -> try_catch m h s = (Ok a, s').
Proof. intros E. unfold try_catch. now rewrite E. Qed.

Lemma try_catch_throw (m : SE S A) h s e s' :
  m s = (Throw e, s') -> try_catch m h s = h e s'.
Proof. intros E. unfold try_catch. now rewrite E. Qed.
End MonadFacts.

Lemma total_try_catch {S A} (m : SE S A) h :
  (forall e, total (h e)) -> total (try_catch m h).
Proof.
  intros Hh s. unfold try_catch.
  destruct (m s) as [[a|e] s']; [now exists a, s' | apply Hh].
Qed.

Lemma total_ret {S A} (a : A) : total (ret (S := S) a).
Proof. intros s. now exists a, s. Qed.

(** ** The [Map] *)

Section JSMapFacts.
Context {V : Type}.
Implicit Types (m : JSMap.t V) (k : string) (v : V).

Lemma get_set_eq m k v : JSMap.get k (JSMap.set k v m) = Some v.
Proof.
  induction m as [|[k' v'] m IH]; simpl.
  - now rewrite decide_True.
  - destruct (decide (k' = k)) as [->|Hne]; simpl.
    + now rewrite decide_True.
    + now rewrite decide_False.
Qed.

Lemma get_set_ne m k k' v : k <> k' -> JSMap.get k' (JSMap.set k v m) = JSMap.get k' m.
Proof.
  intros Hne. induction m as [|[k0 v0] m IH]; simpl.
  - now rewrite decide_False.
  - destruct (decide (k0 = k)) as [->|Hne0]; simpl.
    + now rewrite !decide_False.
    + destruct (decide (k0 = k')); [reflexivity | exact IH].
Qed.

Lemma get_delete_eq m k : JSMap.get k (JSMap.delete k m) = None.
Proof.
  induction m as [|[k0 v0] m IH]; simpl; [reflexivity|].
  destruct (decide (k0 = k)) as [->|Hne]; simpl; [exact IH|].
  now rewrite decide_False.
Qed.
End JSMapFacts.

(** ** Object literals *)

Lemma get_prop_proto (obj : gmap string bool) :
  get_prop obj "__proto__" = PropInherited "__proto__".
Proof. reflexivity. Qed.

Lemma set_prop_proto (b : bool) (obj : gmap string bool) :
  set_prop "__proto__" b obj = obj.
Proof. reflexivity. Qed.

Lemma get_set_prop_eq (name : string) (b : bool) (obj : gmap string bool) :
  name <> "__proto__" -> get_prop (set_prop name b obj) name = PropBool b.
Proof.
  intros Hne. unfold get_prop, set_prop. rewrite !decide_False by assumption.
  now rewrite lookup_insert_eq.
Qed.

Lemma get_set_prop_ne (name name' : string) (b : bool) (obj : gmap string bool) :
  name <> name' -> get_prop (set_prop name b obj) name' = get_prop obj name'.
Proof.
  intros Hne. unfold get_prop, set_prop.
  destruct (decide (name' = "__proto__")); [reflexivity|].
  destruct (decide (name = "__proto__")); [reflexivity|].
  now rewrite lookup_insert_ne.
Qed.

(** What a read answers after a write under the same name. *)
Lemma get_set_prop (name : string) (b : bool) (obj : gmap string bool) :
  get_prop (set_prop name b obj) name =
  if decide (name = "__proto__") then PropInherited "__proto__" else PropBool b.
Proof.
  destruct (decide (name = "__proto__")) as [->|Hne];
    [reflexivity | now apply get_set_prop_eq].
Qed.

Lemma truthy_after_set_true (name : string) (obj : gmap string bool) :
  prop_truthy (get_prop (set_prop name true obj) name) = true.
Proof. rewrite get_set_prop. now destruct (decide (name = "__proto__")). Qed.

(** ** The engine *)

Section EngineFacts.
Context {num : Type} `{!JSNumber num}.
Variable net : Net num.
Variable this : Engine.

Lemma fetchAmazonProducts_eq keyword maxProducts s :
  RealBotEngine.fetchAmazonProducts net this keyword maxProducts s =
  match amazon (config this) with
  | None => (Ok (ItemsArray []), s)
  | Some amz =>
      let r := PaapiSearchItems keyword (default 10%nat maxProducts) (amazon_access_key amz) in
      (Ok (items_of_reply (answer net (length (calls s)) r)), sent net r s)
  end.
Proof.
  unfold RealBotEngine.fetchAmazonProducts, try_catch, bind, deref, request, sent.
  destruct (amazon (config this)) as [amz|]; simpl; [|reflexivity].
  destruct (answer net _ _) as [[data|]|e]; simpl; reflexivity.
Qed.

(** With five as the count, the fetch is [search_spec]. *)
Lemma fetchAmazonProducts_search keyword s :
  RealBotEngine.fetchAmazonProducts net this keyword (Some 5%nat) s =
  (Ok (fst (search_spec net this keyword 5 s)), snd (search_spec net this keyword 5 s)).
Proof.
  rewrite fetchAmazonProducts_eq. unfold search_spec.
  now destruct (amazon (config this)).
Qed.
End EngineFacts.

(** *** Time and the call log only move forward *)

Section Progress.
Context {num : Type} `{!JSNumber num}.
Variable net : Net num.

Lemma advances_refl (s : IOState num) : advances s s.
Proof. split; [lia | exists []; now rewrite app_nil_r]. Qed.

Lemma advances_trans (s1 s2 s3 : IOState num) :
  advances s1 s2 -> advances s2 s3 -> advances s1 s3.
Proof.
  intros [H1 [m1 E1]] [H2 [m2 E2]]. split; [lia|].
  exists (m1 ++ m2)%list. now rewrite E2, E1, app_assoc.
Qed.

Lemma progressive_ret {A} (a : A) : progressive (ret (S := IOState num) a).
Proof. intros s. apply advances_refl. Qed.

Lemma progressive_throw {A} e : progressive (throw (S := IOState num) (A := A) e).
Proof. intros s. apply advances_refl. Qed.

Lemma progressive_deref {A} what (o : option A) :
  progressive (deref (S := IOState num) what o).
Proof. destruct o; [apply progressive_ret | apply progressive_throw]. Qed.

Lemma progressive_now : progressive (now (num := num)).
Proof. intros s. apply advances_refl. Qed.

Lemma progressive_request r : progressive (request net r).
Proof.
  intros s. unfold request.
  destruct (answer net _ r); simpl; (split; simpl; [lia | now exists [r]]).
Qed.

Lemma progressive_sleep ms : progressive (sleep net ms).
Proof.
  intros s. unfold sleep, modify. simpl. split; simpl; [lia|].
  exists []. now rewrite app_nil_r.
Qed.

Lemma progressive_bind {A B} (m : IO num A) (k : A -> IO num B) :
  progressive m -> (forall a, progressive (k a)) -> progressive (bind m k).
Proof.
  intros Hm Hk s. unfold bind. specialize (Hm s).
  destruct (m s) as [[a|e] s1]; simpl in *; [|exact Hm].
  eapply advances_trans; [exact Hm | apply Hk].
Qed.

Lemma progressive_try_catch {A} (m : IO num A) h :
  progressive m -> (forall e, progressive (h e)) -> progressive (try_catch m h).
Proof.
  intros Hm Hh s. unfold try_catch. specialize (Hm s).
  destruct (m s) as [[a|e] s1]; simpl in *; [exact Hm|].
  eapply advances_trans; [exact Hm | apply Hh].
Qed.
End Progress.

Ltac progress_step :=
  first
    [ apply progressive_ret
    | apply progressive_throw
    | apply progressive_deref
    | apply progressive_now
    | match goal with
      | |- progressive (request ?n ?r) => exact (progressive_request n r)
      end
    | apply progressive_sleep
    | apply progressive_bind; [|intros ?]
    | apply progressive_try_catch; [|intros ?]
    | match goal with
      | |- progressive (match ?x with _ => _ end) => destruct x
      end ].

Section PublisherFacts.
Context {num : Type} `{!JSNumber num}.
Variable net : Net num.
Variable this : Engine.
Hypothesis Hwf : wf_engine this.

Lemma publish_progressive platform product link :
  progressive (RealBotEngine.publish net this platform product link).
Proof.
  unfold RealBotEngine.publish, RealBotEngine.postToTwitter,
    RealBotEngine.postToFacebook, RealBotEngine.postToInstagram,
    RealBotEngine.postToTikTok, RealBotEngine.postToPinterest,
    RealBotEngine.postToEbay.
  repeat progress_step.
Qed.

Lemma publish_total platform product link :
  total (RealBotEngine.publish net this platform product link).
Proof.
  destruct Hwf as [Hfb Hig].
  unfold RealBotEngine.publish.
  repeat match goal with
         | |- total (if decide ?P then _ else _) => destruct (decide P)
         end; try apply total_ret.
  - unfold RealBotEngine.postToTwitter.
    destruct (twitter_client this); [|apply total_ret].
    apply total_try_catch. intros; apply total_ret.
  - unfold RealBotEngine.postToFacebook.
    destruct (facebook_client this) as [c|]; [|apply total_ret].
    destruct Hfb as [fb Efb]; [eauto|]. rewrite Efb. intros s.
    unfold bind, deref, ret at 1. simpl.
    destruct (negb (truthy (page_id fb))); [apply total_ret|].
    apply total_try_catch. intros; apply total_ret.
  - unfold RealBotEngine.postToInstagram.
    destruct (instagram_client this) as [c|]; [|apply total_ret].
    destruct Hig as [ig Eig]; [eauto|]. rewrite Eig. intros s.
    unfold bind, deref, ret at 1. simpl.
    destruct (negb (truthy (user_id ig))); [apply total_ret|].
    apply total_try_catch. intros; apply total_ret.
  - apply total_try_catch. intros; apply total_ret.
  - apply total_try_catch. intros; apply total_ret.
  - apply total_try_catch. intros; apply total_ret.
Qed.

(** No publisher posts a product without [ItemInfo]. *)
Lemma publish_bare platform product link s :
  ItemInfo product = None ->
  RealBotEngine.publish net this platform product link s = (Ok None, s).
Proof.
  intros Hnone. destruct Hwf as [Hfb Hig].
  unfold RealBotEngine.publish.
  repeat match goal with
         | |- (if decide ?P then _ else _) _ = _ => destruct (decide P)
         end; try reflexivity.
  - unfold RealBotEngine.postToTwitter.
    destruct (twitter_client this); [|reflexivity].
    unfold try_catch, bind, deref. now rewrite Hnone.
  - unfold RealBotEngine.postToFacebook.
    destruct (facebook_client this) as [c|]; [|reflexivity].
    destruct Hfb as [fb Efb]; [eauto|]. rewrite Efb.
    unfold bind at 1, deref at 1, ret at 1.
    destruct (negb (truthy (page_id fb))); [reflexivity|].
    unfold try_catch, bind, deref. now rewrite Hnone.
  - unfold RealBotEngine.postToInstagram.
    destruct (instagram_client this) as [c|]; [|reflexivity].
    destruct Hig as [ig Eig]; [eauto|]. rewrite Eig.
    unfold bind at 1, deref at 1, ret at 1.
    destruct (negb (truthy (user_id ig))); [reflexivity|].
    unfold try_catch, bind, deref. now rewrite Hnone.
  - unfold RealBotEngine.postToTikTok, try_catch, bind, deref. now rewrite Hnone.
  - unfold RealBotEngine.postToPinterest, try_catch, bind, deref.
    destruct (pinterest (config this)); [|reflexivity]. now rewrite Hnone.
  - unfold RealBotEngine.postToEbay, try_catch, bind, deref. now rewrite Hnone.
Qed.

(** Hence a product on which some publisher succeeds has its
    [ItemInfo]. *)
Lemma succeeds_at_ItemInfo platform product :
  succeeds_at net this platform product -> exists info, ItemInfo product = Some info.
Proof.
  intros Hs. destruct (ItemInfo product) as [info|] eqn:E; [eauto|].
  destruct (Hs EmptyString {| clock := 0; calls := [] |}) as (id & s' & Ep & _).
  rewrite (publish_bare platform product _ _ E) in Ep. discriminate Ep.
Qed.
End PublisherFacts.

Lemma wf_initializeClients sdk cfg : wf_engine (RealBotEngine.initializeClients sdk cfg).
Proof.
  unfold wf_engine, RealBotEngine.initializeClients; simpl. split.
  - destruct (facebook cfg); [eauto | intros [? ?]; discriminate].
  - destruct (instagram cfg); [eauto | intros [? ?]; discriminate].
Qed.

(** *** The bot cycle *)

Section CycleFacts.
Context {num : Type} `{!JSNumber num}.
Variable net : Net num.
Variable this : Engine.
Hypothesis Hwf : wf_engine this.

Lemma platforms_loop product info link platforms :
  forall s (acc : list PostResult),
    for_of platforms (fun platform =>
      postId <- on_fst (RealBotEngine.publish net this platform product link) ;;
      if truthy postId then
        t <- on_fst now ;;
        set_local (fun results =>
          (results ++ [{| pr_platform := platform;
                          pr_postId := default EmptyString postId;
                          pr_product := Title info;
                          pr_affiliateLink := link;
                          pr_timestamp := t |}])%list)
      else ret tt) (s, acc)
    = (Ok tt,
       (snd (publish_each net this product (Title info) link platforms s),
        (acc ++ fst (publish_each net this product (Title info) link platforms s))%list)).
Proof.
  induction platforms as [|platform rest IH]; intros s acc; simpl.
  - now rewrite app_nil_r.
  - destruct (publish_total net this Hwf platform product link s) as (postId & s1 & E).
    unfold bind at 1. unfold bind at 1. unfold on_fst at 1. simpl. rewrite E.
    destruct (publish_each net this product (Title info) link rest s1) as [more s2] eqn:Erest.
    destruct postId as [id|]; simpl.
    + destruct (negb (String.eqb id EmptyString)) eqn:Etr; simpl.
      * rewrite IH, Erest. simpl. now rewrite <- app_assoc.
      * rewrite IH, Erest. reflexivity.
    + rewrite IH, Erest. reflexivity.
Qed.

Lemma products_loop platforms products :
  forall s (acc : list PostResult),
    for_of products (fun product =>
      try_catch
        (affiliateLink <- on_fst (RealBotEngine.generateAffiliateLinks this product) ;;
         info <- deref "Title" (ItemInfo product) ;;
         for_of platforms (fun platform =>
           postId <- on_fst (RealBotEngine.publish net this platform product affiliateLink) ;;
           if truthy postId then
             t <- on_fst now ;;
             set_local (fun results =>
               (results ++ [{| pr_platform := platform;
                               pr_postId := default EmptyString postId;
                               pr_product := Title info;
                               pr_affiliateLink := affiliateLink;
                               pr_timestamp := t |}])%list)
           else ret tt) ;;
         on_fst (sleep net 2000))
        (fun _ => ret tt)) (s, acc)
    = (Ok tt,
       (snd (cycle_spec net this platforms products s),
        (acc ++ fst (cycle_spec net this platforms products s))%list)).
Proof.
  induction products as [|product rest IH]; intros s acc; simpl.
  - now rewrite app_nil_r.
  - unfold bind at 1. unfold try_catch at 1. unfold bind at 1.
    unfold on_fst at 1, RealBotEngine.generateAffiliateLinks at 1.
    unfold bind at 1, deref at 1. simpl.
    destruct (amazon (config this)) as [amz|]; simpl; [|apply IH].
    unfold bind at 1, deref at 1.
    destruct (ItemInfo product) as [info|]; simpl; [|apply IH].
    unfold bind at 1. fold (affiliate_link amz product).
    rewrite (platforms_loop product info (affiliate_link amz product) platforms s acc).
    destruct (publish_each net this product (Title info) (affiliate_link amz product)
                platforms s) as [rs s1] eqn:Epub.
    simpl. unfold on_fst, sleep, modify. simpl. fold (paused net 2000 s1).
    rewrite IH.
    destruct (cycle_spec net this platforms rest (paused net 2000 s1)) as [more s3].
    simpl. now rewrite <- app_assoc.
Qed.

(** A cycle raises exactly when the fetched value cannot be iterated;
    otherwise it is [cycle_spec] on the elements of that value. *)
Lemma runBotCycle_eq keyword platforms s :
  RealBotEngine.runBotCycle net this keyword platforms s =
  let '(v, s1) := search_spec net this keyword 5 s in
  match elements v with
  | Some products =>
      let '(results, s2) := cycle_spec net this platforms products s1 in
      (Ok results, s2)
  | None => (Throw (TypeError "products is not iterable"), s1)
  end.
Proof.
  unfold RealBotEngine.runBotCycle. unfold bind at 1.
  rewrite fetchAmazonProducts_search.
  destruct (search_spec net this keyword 5 s) as [v s1]. cbn [fst snd].
  unfold with_local, bind at 1, for_of_value.
  destruct (elements v) as [products|].
  - rewrite products_loop. simpl.
    now destruct (cycle_spec net this platforms products s1).
  - reflexivity.
Qed.

(** The same, for a fetched value that can be iterated, in terms of the
    products of [fetch_spec]. *)
Lemma runBotCycle_iterable keyword platforms s products :
  elements (fst (search_spec net this keyword 5 s)) = Some products ->
  fst (fetch_spec net this keyword 5 s) = products /\
  RealBotEngine.runBotCycle net this keyword platforms s =
  (Ok (fst (cycle_spec net this platforms products
              (snd (fetch_spec net this keyword 5 s)))),
   snd (cycle_spec net this platforms products
          (snd (fetch_spec net this keyword 5 s)))).
Proof.
  intros He. rewrite runBotCycle_eq. unfold fetch_spec.
  destruct (search_spec net this keyword 5 s) as [v s1]. cbn [fst snd] in *.
  rewrite He. split; [reflexivity|].
  now destruct (cycle_spec net this platforms products s1).
Qed.

Lemma runBotCycle_not_iterable keyword platforms s :
  elements (fst (search_spec net this keyword 5 s)) = None ->
  fst (fetch_spec net this keyword 5 s) = [] /\
  RealBotEngine.runBotCycle net this keyword platforms s =
  (Throw (TypeError "products is not iterable"), snd (fetch_spec net this keyword 5 s)).
Proof.
  intros He. rewrite runBotCycle_eq. unfold fetch_spec.
  destruct (search_spec net this keyword 5 s) as [v s1]. cbn [fst snd] in *.
  now rewrite He.
Qed.

Lemma publish_each_length product title link platforms :
  forall s, length (fst (publish_each net this product title link platforms s))
            <= length platforms.
Proof.
  induction platforms as [|platform rest IH]; intros s; simpl; [lia|].
  destruct (RealBotEngine.publish net this platform product link s) as [r s1].
  specialize (IH s1).
  destruct (publish_each net this product title link rest s1) as [more s2].
  simpl in *. rewrite length_app.
  destruct r as [[id|]|]; simpl; try lia.
  destruct (negb (String.eqb id EmptyString)); simpl; lia.
Qed.

Lemma cycle_spec_length platforms products :
  forall s, length (fst (cycle_spec net this platforms products s))
            <= length products * length platforms.
Proof.
  induction products as [|product rest IH]; intros s; simpl; [lia|].
  destruct (amazon (config this)) as [amz|]; [|specialize (IH s); lia].
  destruct (ItemInfo product) as [info|]; [|specialize (IH s); lia].
  pose proof (publish_each_length product (Title info) (affiliate_link amz product)
                platforms s) as Hlen.
  destruct (publish_each net this product (Title info) (affiliate_link amz product)
              platforms s) as [rs s1].
  specialize (IH (paused net 2000 s1)).
  destruct (cycle_spec net this platforms rest (paused net 2000 s1)) as [more s3].
  simpl in *. rewrite length_app. lia.
Qed.

(** With publishers that always succeed, one product yields one entry per
    platform, in the caller's order, stamped within the product's turn. *)
Lemma publish_each_all product info link platforms :
  Forall (fun platform => succeeds_at net this platform product) platforms ->
  forall s,
    let out := publish_each net this product (Title info) link platforms s in
    map pr_platform (fst out) = platforms /\
    Forall (fun r => (clock s <= pr_timestamp r <= clock (snd out))%N /\
                     pr_product r = Title info) (fst out) /\
    (clock s <= clock (snd out))%N.
Proof.
  intros Hall. induction Hall as [|platform rest Hp Hrest IH]; intros s; simpl.
  - repeat split; [constructor | lia].
  - destruct (Hp link s) as (id & s1 & E & Hid). rewrite E.
    pose proof (publish_progressive net this platform product link s) as [Hclk _].
    rewrite E in Hclk. simpl in Hclk.
    specialize (IH s1). simpl in IH.
    destruct (publish_each net this product (Title info) link rest s1) as [more s2].
    simpl in *. destruct IH as (IHp & IHf & IHc).
    rewrite Hid. simpl. repeat split.
    + now rewrite IHp.
    + constructor; simpl; [repeat split; lia|].
      eapply Forall_impl; [exact IHf|]. simpl. intros r [Hr ?]. split; [lia|assumption].
    + lia.
Qed.

Lemma cycle_spec_two_by_two amz p1 p2 i1 i2 a b s :
  amazon (config this) = Some amz ->
  ItemInfo p1 = Some i1 -> ItemInfo p2 = Some i2 ->
  a <> b ->
  (forall platform product,
     In platform [a; b] -> In product [p1; p2] -> succeeds_at net this platform product) ->
  let results := fst (cycle_spec net this [a; b] [p1; p2] s) in
  exists r1 r2 r3 r4,
    results = [r1; r2; r3; r4] /\
    map pr_platform results = [a; b; a; b] /\
    map pr_product results = [Title i1; Title i1; Title i2; Title i2] /\
    NoDup (map stamp results).
Proof.
  intros Hamz H1 H2 Hab Hok. cbv zeta.
  assert (Hall : forall product, In product [p1; p2] ->
            Forall (fun platform => succeeds_at net this platform product) [a; b]).
  { intros product Hin. repeat constructor; apply Hok; simpl; auto. }
  pose proof (Hall p1 ltac:(simpl; auto)) as Hall1.
  pose proof (Hall p2 ltac:(simpl; auto)) as Hall2.
  clear Hall Hok.
  remember [a; b] as pls eqn:Epls. simpl. rewrite Hamz, H1, H2.
  pose proof (publish_each_all p1 i1 (affiliate_link amz p1) pls Hall1 s) as Q1.
  destruct (publish_each net this p1 (Title i1) (affiliate_link amz p1) pls s)
    as [rs1 s1].
  pose proof (publish_each_all p2 i2 (affiliate_link amz p2) pls Hall2
                (paused net 2000 s1)) as Q2.
  destruct (publish_each net this p2 (Title i2) (affiliate_link amz p2) pls
              (paused net 2000 s1)) as [rs2 s2].
  simpl in Q1, Q2. destruct Q1 as (P1 & F1 & _), Q2 as (P2 & F2 & _).
  rewrite Epls in P1, P2.
  destruct rs1 as [|r1 [|r2 [|? ?]]]; try discriminate P1.
  destruct rs2 as [|r3 [|r4 [|? ?]]]; try discriminate P2.
  injection P1 as E1 E2. injection P2 as E3 E4.
  inversion F1 as [|? ? [T1 N1] F1']; subst. inversion F1' as [|? ? [T2 N2] _]; subst.
  inversion F2 as [|? ? [T3 N3] F2']; subst. inversion F2' as [|? ? [T4 N4] _]; subst.
  exists r1, r2, r3, r4. cbn. rewrite N1, N2, N3, N4, E3, E4. repeat split.
  unfold stamp. rewrite N1, N2, N3, N4.
  assert (Hlt : forall x y : N, (x <= clock s1)%N -> (clock s1 + 2000 + timer_lag net (clock s1) <= y)%N -> x <> y)
    by (intros; lia).
  repeat constructor; rewrite ?list_elem_of_In; simpl; intros Hin;
    repeat match goal with
           | H : _ \/ _ |- _ => destruct H
           | H : False |- _ => destruct H
           | H : (_, _, _) = (_, _, _) |- _ => injection H as ? ? ?
           end;
    try congruence;
    match goal with
    | H : pr_timestamp ?x = pr_timestamp ?y |- _ =>
        first [ apply (Hlt (pr_timestamp x) (pr_timestamp y)); [lia | lia | exact H]
              | apply (Hlt (pr_timestamp y) (pr_timestamp x)); [lia | lia | now symmetry] ]
    end.
Qed.
End CycleFacts.

(** *** The earnings aggregator *)

Section EarningsFacts.
Context {num : Type} `{!JSNumber num}.
Variable net : Net num.
Variable this : Engine.

Lemma getAmazonEarnings_eq s :
  RealBotEngine.getAmazonEarnings net this s =
  (Ok (fst (amazon_earnings_spec net this s)), snd (amazon_earnings_spec net this s)).
Proof.
  unfold RealBotEngine.getAmazonEarnings, amazon_earnings_spec, try_catch, bind,
    deref, request, sent.
  destruct (amazon (config this)) as [amz|]; simpl; [|reflexivity].
  destruct (answer net _ _) as [[data|]|e]; reflexivity.
Qed.

Lemma getClickbankEarnings_eq s :
  RealBotEngine.getClickbankEarnings net this s =
  (Ok (fst (clickbank_earnings_spec net this s)),
   snd (clickbank_earnings_spec net this s)).
Proof.
  unfold RealBotEngine.getClickbankEarnings, clickbank_earnings_spec, try_catch, bind,
    deref, request, sent.
  destruct (clickbank (config this)) as [cb|]; simpl; [|reflexivity].
  destruct (answer net _ _) as [[data|]|e]; reflexivity.
Qed.

Lemma getEbayAccessToken_eq s :
  RealBotEngine.getEbayAccessToken net this s =
  (Ok (fst (ebay_token_spec net this s)), snd (ebay_token_spec net this s)).
Proof.
  unfold RealBotEngine.getEbayAccessToken, ebay_token_spec, try_catch, bind,
    deref, request, sent.
  destruct (ebay (config this)) as [eb|]; simpl; [|reflexivity].
  destruct (answer net _ _) as [[data|]|e]; reflexivity.
Qed.

Lemma getEbayEarnings_eq s :
  RealBotEngine.getEbayEarnings net this s =
  (Ok (fst (ebay_earnings_spec net this s)), snd (ebay_earnings_spec net this s)).
Proof.
  unfold RealBotEngine.getEbayEarnings, ebay_earnings_spec, try_catch.
  unfold bind at 1. rewrite getEbayAccessToken_eq.
  destruct (ebay_token_spec net this s) as [token s1]. simpl.
  destruct (truthy token); simpl; [|reflexivity].
  unfold bind, deref, request, sent.
  destruct (answer net _ _) as [[data|]|e]; reflexivity.
Qed.

Lemma trackAffiliateEarnings_eq s :
  let a := amazon_earnings_spec net this s in
  let c := clickbank_earnings_spec net this (snd a) in
  let e := ebay_earnings_spec net this (snd c) in
  RealBotEngine.trackAffiliateEarnings net this s =
  (Ok {| es_amazon := Some (fst a);
         es_clickbank := Some (fst c);
         es_ebay := Some (fst e);
         es_total := nadd (nadd (fst a) (fst c)) (fst e);
         es_timestamp := clock (snd e) |},
   snd e).
Proof.
  unfold RealBotEngine.trackAffiliateEarnings, try_catch.
  unfold bind at 1. rewrite getAmazonEarnings_eq.
  unfold bind at 1. rewrite getClickbankEarnings_eq.
  unfold bind at 1. rewrite getEbayEarnings_eq.
  reflexivity.
Qed.
End EarningsFacts.

(** *** The two placeholder publishers *)

Section Placeholders.
Context {num : Type} `{!JSNumber num}.
Variable net : Net num.
Variable this : Engine.

Lemma tiktok_always_succeeds : always_succeeds net this "tiktok".
Proof.
  intros product info link s Hinfo.
  exists ("tiktok_" +:+ pretty (clock s)), s. split; [|reflexivity].
  unfold RealBotEngine.publish; simpl.
  unfold RealBotEngine.postToTikTok, try_catch, bind, deref. now rewrite Hinfo.
Qed.

Lemma always_succeeds_at platform product info :
  always_succeeds net this platform -> ItemInfo product = Some info ->
  succeeds_at net this platform product.
Proof. intros Ha Hinfo link s. exact (Ha product info link s Hinfo). Qed.

Lemma ebay_always_succeeds : always_succeeds net this "ebay".
Proof.
  intros product info link s Hinfo.
  exists ("ebay_" +:+ pretty (clock s)), s. split; [|reflexivity].
  unfold RealBotEngine.publish; simpl.
  unfold RealBotEngine.postToEbay, try_catch, bind, deref. now rewrite Hinfo.
Qed.
End Placeholders.

(** * The engine's contract *)



(** C2, as the code has it. When the credentials that its gate reads are
    not configured, the Twitter (consumer key and secret), Facebook
    (access token and page id) and Instagram (access token and user id)
    publishers return [null] at once: no request is made and the clock
    does not move. The TikTok and eBay publishers are placeholders:
    whatever the configuration, they make no request and leave the state
    as it is, and for a product with its [ItemInfo] they return an
    identifier fabricated from the clock ([null] for a product without
    it). *)
Theorem publish_without_credentials {num : Type} `{!JSNumber num}
  (net : Net num) (sdk : SDK) (cfg : Config)
  (product : Product) (link : string) (s : IOState num) :
  let this := RealBotEngine.initializeClients sdk cfg in
  (forall platform,
     In platform ["twitter"; "facebook"; "instagram"] ->
     configured cfg platform = false ->
     RealBotEngine.publish net this platform product link s = (Ok None, s)) /\
  (forall platform,
     In platform ["tiktok"; "ebay"] ->
     RealBotEngine.publish net this platform product link s =
     (Ok match ItemInfo product with
         | Some _ => Some (platform +:+ "_" +:+ pretty (clock s))
         | None => None
         end, s)).
Proof.
  intros this. split.
  - intros platform [<-|[<-|[<-|[]]]] Hc; unfold configured in Hc; simpl in Hc;
      unfold RealBotEngine.publish; simpl.
    + unfold RealBotEngine.postToTwitter, this. simpl.
      destruct (twitter cfg) as [t|]; [|reflexivity]. now rewrite Hc.
    + unfold RealBotEngine.postToFacebook, this. simpl.
      destruct (facebook cfg) as [f|]; [|reflexivity].
      destruct (facebook_access_token f) as [tok|]; [|reflexivity].
      destruct (truthy (Some tok) && FacebookClient_ok sdk tok) eqn:Eok;
        simpl in Eok |- *; rewrite Eok; [|reflexivity].
      apply andb_true_iff in Eok as [Etok _]. simpl in Hc. rewrite Etok in Hc. simpl in Hc.
      unfold bind, deref, ret at 1. simpl. now rewrite Hc.
    + unfold RealBotEngine.postToInstagram, this. simpl.
      destruct (instagram cfg) as [i|]; [|reflexivity].
      destruct (instagram_access_token i) as [tok|]; [|reflexivity].
      destruct (truthy (Some tok) && FacebookClient_ok sdk tok) eqn:Eok;
        simpl in Eok |- *; rewrite Eok; [|reflexivity].
      apply andb_true_iff in Eok as [Etok _]. simpl in Hc. rewrite Etok in Hc. simpl in Hc.
      unfold bind, deref, ret at 1. simpl. now rewrite Hc.
  - intros platform [<-|[<-|[]]]; unfold RealBotEngine.publish; simpl.
    + unfold RealBotEngine.postToTikTok, try_catch, bind, deref.
      now destruct (ItemInfo product).
    + unfold RealBotEngine.postToEbay, try_catch, bind, deref.
      now destruct (ItemInfo product).
Qed.

Lemma publish_without_credentials_witness :
  configured cfg_facebook_no_token "facebook" = false /\
  RealBotEngine.publish net_down
    (RealBotEngine.initializeClients sdk_ok cfg_facebook_no_token)
    "facebook" (earbuds "1") "https://amazon.com/dp/B001" io0 = (Ok None, io0) /\
  RealBotEngine.publish net_down
    (RealBotEngine.initializeClients sdk_ok cfg_facebook_no_token)
    "tiktok" bare_product "https://amazon.com/dp/B00X" io0 = (Ok None, io0).
Proof.
  split; [reflexivity|].
  pose proof (publish_without_credentials net_down sdk_ok cfg_facebook_no_token)
    as H.
  split.
  - apply (proj1 (H (earbuds "1") "https://amazon.com/dp/B001" io0) "facebook");
      [simpl; auto | reflexivity].
  - apply (proj2 (H bare_product "https://amazon.com/dp/B00X" io0) "tiktok").
    simpl; auto.
Defined.

(** C2, as stated, fails twice. With no TikTok credentials at all the
    TikTok publisher returns an identifier, not [null]. And with a
    Twitter application configured without an access token, the
    publisher does not return at once: it sends the tweet, and returns
    [null] only because the call is rejected. *)
Lemma postToTikTok_ignores_credentials :
  (configured cfg_none "tiktok" = false /\
   fst (RealBotEngine.publish net_down
          (RealBotEngine.initializeClients sdk_ok cfg_none)
          "tiktok" (earbuds "1") "https://amazon.com/dp/B001" io0) <> Ok None) /\
  (twitter_access_token <$> twitter cfg_twitter_no_access_token = Some None /\
   exists tweet,
     calls (snd (RealBotEngine.publish net_down
                   (RealBotEngine.initializeClients sdk_ok cfg_twitter_no_access_token)
                   "twitter" (earbuds "1") "https://amazon.com/dp/B001" io0))
     = [tweet]).
Proof.
  split.
  - split; [reflexivity|]. vm_compute. discriminate.
  - split; [reflexivity|]. eexists. vm_compute. reflexivity.
Qed.

(** C3, as the code has it. When the value fetched for the keyword can be
    iterated, [runBotCycle] ends normally and its result is the list of
    [cycle_spec]: for the fetched products in fetch order, and for each
    of them the requested platforms in the caller's order, one
    [PostResult] for each publisher call that returned a truthy
    identifier (an empty identifier is dropped like [null]); so there is
    at most one entry per pair, and no entry at all is a result like any
    other. When two products are fetched and two different platforms
    are requested whose publishers always succeed on these products,
    there are exactly four entries, told apart by platform, product and
    timestamp. *)
Theorem runBotCycle_records_truthy_posts {num : Type} `{!JSNumber num}
  (net : Net num) (sdk : SDK) (cfg : Config) (keyword : string)
  (platforms : list string) (s : IOState num) (products : list Product) :
  let this := RealBotEngine.initializeClients sdk cfg in
  let fetched := search_spec net this keyword 5 s in
  elements (fst fetched) = Some products ->
  let out := cycle_spec net this platforms products (snd fetched) in
  RealBotEngine.runBotCycle net this keyword platforms s = (Ok (fst out), snd out) /\
  length (fst out) <= length products * length platforms /\
  (products = [] -> fst out = []) /\
  (forall p1 p2 a b,
     products = [p1; p2] -> platforms = [a; b] -> a <> b ->
     (forall platform product,
        In platform platforms -> In product products ->
        succeeds_at net this platform product) ->
     exists r1 r2 r3 r4 i1 i2,
       fst out = [r1; r2; r3; r4] /\
       map pr_platform (fst out) = [a; b; a; b] /\
       ItemInfo p1 = Some i1 /\ ItemInfo p2 = Some i2 /\
       map pr_product (fst out) = [Title i1; Title i1; Title i2; Title i2] /\
       NoDup (map stamp (fst out))).
Proof.
  intros this fetched He out.
  pose proof (wf_initializeClients sdk cfg) as Hwf. fold this in Hwf.
  destruct (runBotCycle_iterable net this Hwf keyword platforms s products He)
    as [Hfetch Hrun].
  assert (Hsnd : snd (fetch_spec net this keyword 5 s) = snd fetched).
  { unfold fetch_spec, fetched. now destruct (search_spec net this keyword 5 s). }
  rewrite Hsnd in Hrun. fold out in Hrun.
  split; [exact Hrun|]. split; [apply cycle_spec_length|].
  split; [intros E; unfold out; now rewrite E|].
  intros p1 p2 a b Ep Epl Hab Hok.
  destruct (succeeds_at_ItemInfo net this Hwf a p1) as [i1 H1];
    [apply Hok; rewrite ?Ep, ?Epl; simpl; auto|].
  destruct (succeeds_at_ItemInfo net this Hwf a p2) as [i2 H2];
    [apply Hok; rewrite ?Ep, ?Epl; simpl; auto|].
  destruct (amazon (config this)) as [amz|] eqn:Eamz.
  - rewrite Ep, Epl in Hok.
    destruct (cycle_spec_two_by_two net this amz p1 p2 i1 i2 a b (snd fetched)
                Eamz H1 H2 Hab Hok) as (r1 & r2 & r3 & r4 & E & Hp & Ht & Hn).
    unfold out. rewrite Ep, Epl.
    exists r1, r2, r3, r4, i1, i2. repeat split; assumption.
  - unfold fetched, search_spec in He. rewrite Eamz in He. simpl in He.
    rewrite Ep in He. discriminate He.
Qed.

Lemma runBotCycle_records_truthy_posts_witness :
  exists r1 r2 r3 r4,
    fst (RealBotEngine.runBotCycle net_shop
           (RealBotEngine.initializeClients sdk_ok cfg_amazon)
           "wireless earbuds" ["tiktok"; "ebay"] io0) = Ok [r1; r2; r3; r4] /\
    NoDup (map stamp [r1; r2; r3; r4]).
Proof.
  destruct (runBotCycle_records_truthy_posts net_shop sdk_ok cfg_amazon
              "wireless earbuds" ["tiktok"; "ebay"] io0 [earbuds "1"; earbuds "2"]
              eq_refl) as (Hrun & _ & _ & Hfour).
  destruct (Hfour (earbuds "1") (earbuds "2") "tiktok" "ebay"
              eq_refl eq_refl ltac:(discriminate))
    as (r1 & r2 & r3 & r4 & i1 & i2 & E & _ & _ & _ & _ & Hnodup).
  { intros platform product [<-|[<-|[]]] [<-|[<-|[]]];
      first [ eapply always_succeeds_at; [apply tiktok_always_succeeds | reflexivity]
            | eapply always_succeeds_at; [apply ebay_always_succeeds | reflexivity] ]. }
  exists r1, r2, r3, r4. rewrite Hrun. split.
  - exact (f_equal Ok E).
  - rewrite <- E. exact Hnodup.
Defined.

(** C3, as stated, fails in three ways. Twitter answers the tweet of
    each of the two fetched products with an empty identifier; the
    publisher returns it, which is not [null], and the cycle records
    nothing. When the reply to the search carries the number 7 as its
    [Items], the cycle does not return a list, empty or not: it raises a
    [TypeError]. And when the list of platforms names the same platform
    twice, two products and a publisher that always succeeds give four
    entries of which the first two agree on platform, product and
    timestamp. *)
Lemma runBotCycle_drops_empty_identifier :
  (let this := RealBotEngine.initializeClients sdk_ok cfg_twitter in
   let s1 := snd (fetch_spec net_blank_id this "wireless earbuds" 5 io0) in
   fst (RealBotEngine.publish net_blank_id this "twitter" (earbuds "1")
          (affiliate_link amazon_section (earbuds "1")) s1) = Ok (Some EmptyString) /\
   fst (RealBotEngine.runBotCycle net_blank_id this "wireless earbuds" ["twitter"] io0)
   = Ok []) /\
  fst (RealBotEngine.runBotCycle net_malformed
         (RealBotEngine.initializeClients sdk_ok cfg_amazon)
         "wireless earbuds" ["tiktok"] io0)
  = Throw (TypeError "products is not iterable") /\
  (exists r1 r2 r3 r4,
     fst (RealBotEngine.runBotCycle net_shop
            (RealBotEngine.initializeClients sdk_ok cfg_amazon)
            "wireless earbuds" ["tiktok"; "tiktok"] io0) = Ok [r1; r2; r3; r4] /\
     stamp r1 = stamp r2).
Proof.
  split; [split; vm_compute; reflexivity|].
  split; [vm_compute; reflexivity|].
  vm_compute. eexists _, _, _, _. split; reflexivity.
Qed.

(** C4. [trackAffiliateEarnings] never raises. It queries Amazon,
    ClickBank and eBay one after the other; each query ends normally
    with a figure that depends on that provider's own replies only, and
    that figure is 0 when the provider's call is rejected, whatever
    happened to the queries before it. The total is the sum of the three
    figures. *)
Theorem trackAffiliateEarnings_partial_failure {num : Type} `{!JSNumber num}
  (net : Net num) (this : Engine) (s : IOState num) :
  exists a c e s1 s2 s3,
    RealBotEngine.getAmazonEarnings net this s = (Ok a, s1) /\
    RealBotEngine.getClickbankEarnings net this s1 = (Ok c, s2) /\
    RealBotEngine.getEbayEarnings net this s2 = (Ok e, s3) /\
    (a, s1) = amazon_earnings_spec net this s /\
    (c, s2) = clickbank_earnings_spec net this s1 /\
    (e, s3) = ebay_earnings_spec net this s2 /\
    (forall amz err,
       amazon (config this) = Some amz ->
       answer net (length (calls s)) (PaapiGetItems (amazon_access_token amz))
       = Rejected err -> a = nlit 0) /\
    (forall cb err,
       clickbank (config this) = Some cb ->
       answer net (length (calls s1)) (ClickbankAccount (api_key cb))
       = Rejected err -> c = nlit 0) /\
    (forall eb err,
       ebay (config this) = Some eb ->
       answer net (length (calls s2))
         (EbayOAuthToken (show (client_id eb) +:+ ":" +:+ show (cert_id eb)))
       = Rejected err -> e = nlit 0) /\
    RealBotEngine.trackAffiliateEarnings net this s =
    (Ok {| es_amazon := Some a; es_clickbank := Some c; es_ebay := Some e;
           es_total := nadd (nadd a c) e; es_timestamp := clock s3 |}, s3).
Proof.
  destruct (amazon_earnings_spec net this s) as [a s1] eqn:Ea.
  destruct (clickbank_earnings_spec net this s1) as [c s2] eqn:Ec.
  destruct (ebay_earnings_spec net this s2) as [e s3] eqn:Ee.
  exists a, c, e, s1, s2, s3.
  rewrite getAmazonEarnings_eq, getClickbankEarnings_eq, getEbayEarnings_eq,
    trackAffiliateEarnings_eq, Ea. simpl. rewrite Ec. simpl. rewrite Ee. simpl.
  repeat split.
  - intros amz err Hcfg Hrej. unfold amazon_earnings_spec in Ea.
    rewrite Hcfg in Ea. simpl in Ea. rewrite Hrej in Ea. now injection Ea as <- _.
  - intros cb err Hcfg Hrej. unfold clickbank_earnings_spec in Ec.
    rewrite Hcfg in Ec. simpl in Ec. rewrite Hrej in Ec. now injection Ec as <- _.
  - intros eb err Hcfg Hrej. unfold ebay_earnings_spec, ebay_token_spec in Ee.
    rewrite Hcfg in Ee. simpl in Ee. rewrite Hrej in Ee. simpl in Ee.
    now injection Ee as <- _.
Qed.

(** The fixture of C4: Amazon's call is rejected, ClickBank reports 42,
    eBay refuses the token; the total is 42 and Amazon counts for 0. *)
Lemma trackAffiliateEarnings_partial_failure_witness :
  exists s',
    RealBotEngine.trackAffiliateEarnings net_earnings
      (RealBotEngine.initializeClients sdk_ok cfg_programmes) io0 =
    (Ok {| es_amazon := Some (0 # 1)%Q; es_clickbank := Some (42 # 1)%Q;
           es_ebay := Some (0 # 1)%Q; es_total := (42 # 1)%Q;
           es_timestamp := 1700000000000%N |}, s').
Proof.
  destruct (trackAffiliateEarnings_partial_failure net_earnings
              (RealBotEngine.initializeClients sdk_ok cfg_programmes) io0)
    as (a & c & e & s1 & s2 & s3 & _ & _ & _ & Sa & Sc & Se & Ha & _ & He & Ht).
  exists s3. rewrite Ht.
  rewrite (Ha amazon_section offline eq_refl eq_refl) in *.
  vm_compute in Sa. injection Sa as ->.
  vm_compute in Sc. injection Sc as -> ->.
  rewrite (He _ offline eq_refl eq_refl) in *.
  vm_compute in Se. injection Se as ->.
  reflexivity.
Defined.

(** ** The server *)

Section ServerFacts.
Context {num : Type} `{!JSNumber num}.
Variable net : Net num.
Variable botEngine : Engine.
Variable paypalClient : bool.

Lemma with_io_with_io (w : World num) s1 s2 : with_io (with_io w s1) s2 = with_io w s2.
Proof. reflexivity. Qed.

Lemma with_io_io (w : World num) : with_io w (io w) = w.
Proof. now destruct w. Qed.

Lemma liftIO_eq {A} (m : IO num A) (w : World num) :
  Server.liftIO m w = (fst (m (io w)), with_io w (snd (m (io w)))).
Proof. unfold Server.liftIO. now destruct (m (io w)). Qed.

(** *** [startBot] and [stopBot] *)

Lemma startBot_unknown userId platform keywords (w : World num) :
  JSMap.get userId (users w) = None ->
  Server.startBot userId platform keywords w =
  (Throw (TypeError "Cannot set properties of undefined (setting 'activeBots')"), w).
Proof.
  intros Hnone. unfold Server.startBot.
  unfold bind at 1. unfold bind at 1. unfold bind at 1. unfold gets at 1.
  now rewrite Hnone.
Qed.

Lemma mutate_present userId f (w : World num) u :
  JSMap.get userId (users w) = Some u ->
  Server.mutate userId f w = (Ok tt, with_users w (JSMap.set userId (f u) (users w))).
Proof. intros E. unfold Server.mutate, modify. now rewrite E. Qed.

Lemma startBot_known userId platform keywords (w : World num) u :
  JSMap.get userId (users w) = Some u ->
  exists w',
    Server.startBot userId platform keywords w = (Ok true, w') /\
    timers w' = (timers w ++ [bot_timer (next_handle w) userId platform])%list /\
    next_handle w' = S (next_handle w) /\
    botIntervals w' =
      JSMap.set (Server.key userId platform) (next_handle w) (botIntervals w) /\
    (exists u', JSMap.get userId (users w') = Some u' /\
                Server.flag u' platform = true /\
                financials u' = financials u) /\
    JSMap.get (Server.key userId platform) (userConfigs w') =
      Some {| keywords := match keywords with
                          | [] => ["trending"; "popular"; "bestseller"]
                          | _ => keywords
                          end;
              platforms := [platform] |}.
Proof.
  intros Hu. unfold Server.startBot.
  unfold bind at 1. unfold bind at 1. unfold gets at 1. rewrite Hu.
  destruct (activeBots u) as [ab|] eqn:Eab.
  - unfold ret at 1. unfold bind at 1.
    rewrite (mutate_present _ _ _ u Hu).
    eexists. split; [reflexivity|]. simpl. repeat split.
    + eexists. split; [apply get_set_eq|]. split; [|reflexivity].
      unfold Server.flag; simpl. rewrite Eab. simpl. apply truthy_after_set_true.
    + apply get_set_eq.
  - rewrite (mutate_present _ _ _ u Hu). unfold bind at 1.
    erewrite mutate_present; [|simpl; apply get_set_eq].
    eexists. split; [reflexivity|]. simpl. repeat split.
    + eexists. split; [apply get_set_eq|]. split; [|reflexivity].
      unfold Server.flag; simpl. apply truthy_after_set_true.
    + apply get_set_eq.
Qed.

Lemma stopBot_eq userId platform (w : World num) :
  exists w',
    Server.stopBot userId platform w = (Ok true, w') /\
    match JSMap.get (Server.key userId platform) (botIntervals w) with
    | Some h =>
        timers w' = List.filter (fun t => negb (Nat.eqb (handle t) h)) (timers w) /\
        botIntervals w' = JSMap.delete (Server.key userId platform) (botIntervals w)
    | None => timers w' = timers w /\ botIntervals w' = botIntervals w
    end.
Proof.
  unfold Server.stopBot.
  unfold bind at 1. unfold bind at 1. unfold gets at 1.
  assert (Hstep : exists w1,
    match JSMap.get userId (users w) with
    | Some u =>
        match activeBots u with
        | Some _ =>
            Server.mutate userId (fun u0 =>
              set_activeBots u0
                (Some (set_prop platform false (default ∅ (activeBots u0)))))
        | None => ret ()
        end
    | None => ret ()
    end w = (Ok tt, w1) /\ timers w1 = timers w /\ botIntervals w1 = botIntervals w
             /\ next_handle w1 = next_handle w).
  { destruct (JSMap.get userId (users w)) as [u|] eqn:Hu.
    - destruct (activeBots u).
      + rewrite (mutate_present _ _ _ u Hu). eexists; repeat split.
      + eexists; repeat split.
    - eexists; repeat split. }
  destruct Hstep as (w1 & E1 & Ht & Hb & Hn). rewrite E1.
  unfold bind at 1. unfold bind at 1. unfold gets at 1. rewrite Hb.
  destruct (JSMap.get (Server.key userId platform) (botIntervals w)) as [h|].
  - eexists. split; [reflexivity|]. simpl. now rewrite Ht, Hb.
  - eexists. split; [reflexivity|]. simpl. now rewrite Ht, Hb.
Qed.

Lemma runManualCycle_without_config userId platform keyword (w : World num) :
  JSMap.get (Server.key userId platform) (userConfigs w) = None ->
  Server.runManualCycle net botEngine userId platform keyword w =
  (Throw (Error "Bot not started - start the bot first"), w).
Proof.
  intros Hnone. unfold Server.runManualCycle, bind, gets. now rewrite Hnone.
Qed.
End ServerFacts.

Section EarningsLoopFacts.
Context {num : Type} `{!JSNumber num}.
Variable net : Net num.
Variable botEngine : Engine.

(** The server-side wrapper never raises and touches the network only. *)
Lemma trackAffiliateEarnings_frame userId (w : World num) :
  exists report s',
    Server.trackAffiliateEarnings net botEngine userId w = (Ok report, with_io w s').
Proof.
  unfold Server.trackAffiliateEarnings. unfold bind at 1, gets at 1.
  destruct (JSMap.get userId (users w)).
  - unfold try_catch. unfold bind at 1. rewrite liftIO_eq.
    rewrite trackAffiliateEarnings_eq. simpl.
    eexists _, _. reflexivity.
  - eexists _, (io w). now rewrite with_io_io.
Qed.

Lemma track_earnings_frame userId (w : World num) :
  exists report s',
    Server.track_earnings net botEngine userId w =
    (Ok {| tr_success := true; tr_earnings := Some (ReportObject report);
           tr_error := None |},
     with_io w s').
Proof.
  destruct (trackAffiliateEarnings_frame userId w) as (report & s' & E).
  exists report, s'. unfold Server.track_earnings, try_catch.
  unfold bind at 1. rewrite E. unfold bind at 1, gets at 1. simpl.
  rewrite andb_false_r. reflexivity.
Qed.

Lemma backgroundEarnings_pass (entries : list (string * User num)) :
  forall w : World num,
    exists s',
      for_of entries (fun entry =>
        let userId := fst entry in
        try_catch
          (report <- Server.trackAffiliateEarnings net botEngine userId ;;
           let earnings := ReportObject report in
           if gt0 (length_of earnings) then
             Server.forEach earnings (fun earning =>
               Server.mutate userId (Server.add_earning earning) ;;
               Server.emit userId (earning_update_item earning))
           else ret tt)
          (fun _ => ret tt)) w
      = (Ok tt, with_io w s').
Proof.
  induction entries as [|[userId u] rest IH]; intros w; simpl.
  - exists (io w). now rewrite with_io_io.
  - destruct (trackAffiliateEarnings_frame userId w) as (report & s1 & E).
    unfold bind at 1, try_catch at 1. unfold bind at 1. rewrite E. simpl.
    destruct (IH (with_io w s1)) as (s' & E'). exists s'. exact E'.
Qed.

Lemma backgroundEarnings_frame (w : World num) :
  exists s', Server.backgroundEarnings net botEngine w = (Ok tt, with_io w s').
Proof.
  unfold Server.backgroundEarnings. unfold bind at 1, gets at 1.
  apply backgroundEarnings_pass.
Qed.

(** The keyword loop of a tick: whatever the cycles do, it ends normally
    and has touched the network only. *)
Lemma keywords_loop (pls : list string) (kws : list string) :
  forall (w : World num) (acc : list PostResult),
    exists acc',
      for_of kws (fun keyword =>
        try_catch
          (results <- on_fst (Server.liftIO
             (RealBotEngine.runBotCycle net botEngine keyword pls)) ;;
           set_local (fun searchResults => (searchResults ++ results)%list) ;;
           on_fst (Server.liftIO (sleep net 5000)))
          (fun _ => ret tt)) (w, acc)
      = (Ok tt, (with_io w (after_keywords net botEngine pls kws (io w)), acc')).
Proof.
  induction kws as [|keyword rest IH]; intros w acc; simpl.
  - exists acc. now rewrite with_io_io.
  - unfold bind at 1, try_catch at 1. unfold bind at 1. unfold on_fst at 1.
    simpl. rewrite liftIO_eq.
    destruct (RealBotEngine.runBotCycle net botEngine keyword pls (io w))
      as [[results|e] s1]; simpl.
    + destruct (IH (with_io w (paused net 5000 s1)) (acc ++ results)%list)
        as (acc' & E).
      exists acc'. exact E.
    + destruct (IH (with_io w s1) acc) as (acc' & E).
      exists acc'. exact E.
Qed.
End EarningsLoopFacts.

Section TickFacts.
Context {num : Type} `{!JSNumber num}.
Variable net : Net num.
Variable botEngine : Engine.

Lemma runRealBotCycle_inactive_user userId platform (w : World num) :
  JSMap.get userId (users w) = None ->
  Server.runRealBotCycle net botEngine userId platform w = (Ok tt, w).
Proof. intros E. unfold Server.runRealBotCycle, bind, gets. now rewrite E. Qed.

Lemma runRealBotCycle_inactive_flag userId platform (w : World num) u :
  JSMap.get userId (users w) = Some u ->
  Server.flag u platform = false ->
  Server.runRealBotCycle net botEngine userId platform w = (Ok tt, w).
Proof. intros E F. unfold Server.runRealBotCycle, bind, gets. now rewrite E, F. Qed.

Lemma runRealBotCycle_no_config userId platform (w : World num) u :
  JSMap.get userId (users w) = Some u ->
  JSMap.get (Server.key userId platform) (userConfigs w) = None ->
  Server.runRealBotCycle net botEngine userId platform w = (Ok tt, w).
Proof.
  intros E C. unfold Server.runRealBotCycle. unfold bind at 1, gets at 1. rewrite E.
  destruct (negb (Server.flag u platform)); [reflexivity|].
  unfold bind, gets. now rewrite C.
Qed.

Lemma runRealBotCycle_active userId platform (w : World num) u config :
  JSMap.get userId (users w) = Some u ->
  Server.flag u platform = true ->
  JSMap.get (Server.key userId platform) (userConfigs w) = Some config ->
  let s_poll := after_keywords net botEngine (platforms config) (keywords config) (io w) in
  exists snapshot s_after w',
    RealBotEngine.trackAffiliateEarnings net botEngine s_poll = (Ok snapshot, s_after) /\
    Server.runRealBotCycle net botEngine userId platform w = (Ok tt, w') /\
    users w' = (if ngt (es_total snapshot) (nlit 0)
                then JSMap.set userId (Server.apply_earnings (es_total snapshot) u) (users w)
                else users w) /\
    withdrawals w' = withdrawals w /\
    exists more,
      emitted w' =
        (emitted w ++
         (userId, bot_activity platform MsgFetching None None (clock (io w))) :: more)%list.
Proof.
  intros Hu Hflag Hcfg s_poll.
  pose proof (trackAffiliateEarnings_eq net botEngine s_poll) as Et. cbv zeta in Et.
  match type of Et with
  | _ = (Ok ?snap, ?sa) =>
      generalize dependent snap; intros snapshot;
      generalize dependent sa; intros s_after Et
  end.
  exists snapshot, s_after.
  unfold Server.runRealBotCycle.
  unfold bind at 1, gets at 1. rewrite Hu, Hflag. simpl.
  unfold bind at 1, gets at 1. rewrite Hcfg.
  unfold try_catch at 1. unfold bind at 1. rewrite liftIO_eq. simpl.
  unfold bind at 1. unfold Server.emit at 1, modify at 1.
  unfold with_local at 1. unfold bind at 1.
  match goal with
  | |- context [for_of _ _ (?w0, ?acc0)] =>
      destruct (keywords_loop net botEngine (platforms config) (keywords config) w0 acc0)
        as (acc' & E)
  end.
  rewrite E. clear E. simpl. fold s_poll.
  unfold bind at 1. unfold on_fst at 1. simpl. rewrite liftIO_eq. simpl.
  rewrite !Et. simpl.
  unfold bind at 1, local at 1, gets at 1. simpl.
  destruct (ngt (es_total snapshot) (nlit 0)) eqn:Epos.
  - unfold bind at 1. unfold bind at 1. unfold on_fst at 1. simpl. rewrite Hu.
    eexists. split; [reflexivity|]. split; [reflexivity|]. simpl.
    split; [reflexivity|]. split; [reflexivity|].
    eexists. rewrite <- !app_assoc. reflexivity.
  - eexists. split; [reflexivity|]. split; [reflexivity|]. simpl.
    split; [reflexivity|]. split; [reflexivity|].
    eexists. rewrite <- !app_assoc. reflexivity.
Qed.

(** A manual cycle for a pair under whose key a configuration is stored:
    the event is emitted, then the outcome is that of the cycle. *)
Lemma runManualCycle_accepted userId platform keyword (w : World num) config :
  JSMap.get (Server.key userId platform) (userConfigs w) = Some config ->
  let cycle := RealBotEngine.runBotCycle net botEngine keyword [platform] (io w) in
  let poll := RealBotEngine.trackAffiliateEarnings net botEngine (snd cycle) in
  let announced :=
    (emitted w ++
     [(userId, bot_activity platform (MsgManual keyword) None None (clock (io w)))])%list in
  exists snapshot,
    fst poll = Ok snapshot /\
    Server.runManualCycle net botEngine userId platform keyword w =
    match fst cycle with
    | Ok results =>
        (Ok {| mr_success := true; mr_posts := results;
               mr_earnings := es_total snapshot; mr_timestamp := clock (snd poll) |},
         with_emitted (with_io w (snd poll)) announced)
    | Throw e => (Throw e, with_emitted (with_io w (snd cycle)) announced)
    end.
Proof.
  intros Hcfg. cbv zeta.
  destruct (RealBotEngine.runBotCycle net botEngine keyword [platform] (io w))
    as [r s1] eqn:Ec. cbn [fst snd].
  pose proof (trackAffiliateEarnings_eq net botEngine s1) as Ep. cbv zeta in Ep.
  match type of Ep with
  | _ = (Ok ?snap, ?sa) =>
      generalize dependent snap; intros snapshot;
      generalize dependent sa; intros s_after Ep
  end.
  exists snapshot. rewrite Ep. split; [reflexivity|].
  unfold Server.runManualCycle. unfold bind at 1, gets at 1. rewrite Hcfg.
  unfold try_catch. unfold bind at 1. rewrite liftIO_eq. simpl.
  unfold bind at 1. unfold Server.emit at 1, modify at 1.
  unfold bind at 1. rewrite liftIO_eq. simpl. rewrite Ec.
  destruct r as [results|e]; simpl; [|reflexivity].
  unfold bind at 1. rewrite liftIO_eq. simpl.
  rewrite Ep. reflexivity.
Qed.
End TickFacts.

Section WithdrawalFacts.
Context {num : Type} `{!JSNumber num}.
Variable net : Net num.
Variable paypalClient : bool.

(** Payment processing touches the network only. *)
Lemma processWithdrawal_frame (withdrawalData : WithdrawalData num) (w : World num) :
  exists r s', Server.processWithdrawal net paypalClient withdrawalData w = (r, with_io w s').
Proof.
  unfold Server.processWithdrawal, try_catch.
  destruct (decide (req_method withdrawalData = "stripe")) as [Hm|Hm].
  { unfold bind at 1. rewrite liftIO_eq.
    destruct (request net _ (io w)) as [[intent|e] s1]; simpl; eexists _, _; reflexivity. }
  destruct (decide (req_method withdrawalData = "paypal")) as [Hp|Hp].
  { destruct paypalClient; simpl.
    - unfold bind at 1. rewrite liftIO_eq.
      destruct (request net _ (io w)) as [[order|e] s1]; simpl;
        [|eexists _, _; reflexivity].
      unfold bind at 1. rewrite liftIO_eq. simpl.
      destruct (request net _ s1) as [[capture|e] s2]; simpl; eexists _, _; reflexivity.
    - eexists _, (io w). now rewrite with_io_io. }
  destruct (decide (req_method withdrawalData = "bank")) as [Hb|Hb].
  { eexists _, (io w). unfold bind. rewrite liftIO_eq. simpl. now rewrite with_io_io. }
  eexists _, (io w). unfold throw. now rewrite with_io_io.
Qed.
End WithdrawalFacts.

(** ** More on the [Map] and on the two controls *)

Section JSMapMore.
Context {V : Type}.
Implicit Types (m : JSMap.t V) (k : string) (v : V).

Lemma set_set m k v1 v2 : JSMap.set k v2 (JSMap.set k v1 m) = JSMap.set k v2 m.
Proof.
  induction m as [|[k0 v0] m IH]; simpl.
  - now rewrite decide_True.
  - destruct (decide (k0 = k)) as [->|Hne]; simpl.
    + now rewrite decide_True.
    + rewrite decide_False by assumption. now rewrite IH.
Qed.

Lemma set_fresh m k v : JSMap.get k m = None -> JSMap.set k v m = (m ++ [(k, v)])%list.
Proof.
  induction m as [|[k0 v0] m IH]; simpl; [reflexivity|].
  destruct (decide (k0 = k)); [discriminate|]. intros E. now rewrite IH.
Qed.

Lemma has_get m k : JSMap.has k m = true <-> exists v, JSMap.get k m = Some v.
Proof.
  unfold JSMap.has. destruct (JSMap.get k m) as [v|].
  - split; eauto.
  - split; [discriminate | intros [v Hv]; discriminate].
Qed.

Lemma get_set m k k' v :
  JSMap.get k' (JSMap.set k v m) = if decide (k = k') then Some v else JSMap.get k' m.
Proof.
  destruct (decide (k = k')) as [->|Hne]; [apply get_set_eq | now apply get_set_ne].
Qed.
End JSMapMore.

Section ControlFacts.
Context {num : Type} `{!JSNumber num}.

(** [startBot] for a registered user, effect by effect. *)
Lemma startBot_effects userId platform kws (w : World num) u :
  JSMap.get userId (users w) = Some u ->
  exists w',
    Server.startBot userId platform kws w = (Ok true, w') /\
    users w' =
      JSMap.set userId
        (set_activeBots u (Some (set_prop platform true (default ∅ (activeBots u)))))
        (users w) /\
    userConfigs w' =
      JSMap.set (Server.key userId platform)
        {| keywords := match kws with
                       | [] => ["trending"; "popular"; "bestseller"]
                       | _ => kws
                       end;
           platforms := [platform] |} (userConfigs w) /\
    timers w' = (timers w ++ [bot_timer (next_handle w) userId platform])%list /\
    next_handle w' = S (next_handle w) /\
    botIntervals w' =
      JSMap.set (Server.key userId platform) (next_handle w) (botIntervals w) /\
    emitted w' =
      (emitted w ++ [(userId, bot_activity platform MsgStarted None None (clock (io w)))])%list /\
    withdrawals w' = withdrawals w /\
    io w' = io w.
Proof.
  intros Hu. unfold Server.startBot.
  unfold bind at 1. unfold bind at 1. unfold gets at 1. rewrite Hu.
  destruct (activeBots u) as [ab|] eqn:Eab.
  - unfold ret at 1. unfold bind at 1.
    rewrite (mutate_present _ _ _ u Hu).
    eexists. split; [reflexivity|]. simpl. rewrite Eab. repeat split.
  - rewrite (mutate_present _ _ _ u Hu). unfold bind at 1.
    erewrite mutate_present; [|simpl; apply get_set_eq].
    eexists. split; [reflexivity|]. simpl. rewrite set_set. repeat split.
Qed.

(** [stopBot], effect by effect. *)
Lemma stopBot_effects userId platform (w : World num) :
  exists w',
    Server.stopBot userId platform w = (Ok true, w') /\
    users w' =
      match JSMap.get userId (users w) with
      | Some u =>
          match activeBots u with
          | Some ab =>
              JSMap.set userId (set_activeBots u (Some (set_prop platform false ab))) (users w)
          | None => users w
          end
      | None => users w
      end /\
    userConfigs w' = userConfigs w /\
    timers w' =
      match JSMap.get (Server.key userId platform) (botIntervals w) with
      | Some h => List.filter (fun t => negb (Nat.eqb (handle t) h)) (timers w)
      | None => timers w
      end /\
    next_handle w' = next_handle w /\
    botIntervals w' = JSMap.delete (Server.key userId platform) (botIntervals w) /\
    emitted w' =
      (emitted w ++ [(userId, bot_activity platform MsgStopped None None (clock (io w)))])%list /\
    withdrawals w' = withdrawals w /\
    io w' = io w.
Proof.
  unfold Server.stopBot.
  unfold bind at 1. unfold bind at 1. unfold gets at 1.
  destruct (JSMap.get userId (users w)) as [u|] eqn:Hu.
  - destruct (activeBots u) as [ab|] eqn:Eab.
    + rewrite (mutate_present _ _ _ u Hu).
      unfold bind at 1. unfold bind at 1. unfold gets at 1. simpl.
      destruct (JSMap.get (Server.key userId platform) (botIntervals w)) as [h|] eqn:Eh.
      * eexists. split; [reflexivity|]. simpl. rewrite Eab. repeat split.
      * eexists. split; [reflexivity|]. simpl. rewrite Eab. repeat split.
        clear -Eh. induction (botIntervals w) as [|[k0 v0] m IH]; simpl in *;
          [reflexivity|].
        destruct (decide (k0 = Server.key userId platform)); [discriminate|].
        now rewrite <- IH.
    + unfold ret at 1.
      unfold bind at 1. unfold bind at 1. unfold gets at 1. simpl.
      destruct (JSMap.get (Server.key userId platform) (botIntervals w)) as [h|] eqn:Eh.
      * eexists. split; [reflexivity|]. simpl. repeat split.
      * eexists. split; [reflexivity|]. simpl. repeat split.
        clear -Eh. induction (botIntervals w) as [|[k0 v0] m IH]; simpl in *;
          [reflexivity|].
        destruct (decide (k0 = Server.key userId platform)); [discriminate|].
        now rewrite <- IH.
  - unfold ret at 1.
    unfold bind at 1. unfold bind at 1. unfold gets at 1. simpl.
    destruct (JSMap.get (Server.key userId platform) (botIntervals w)) as [h|] eqn:Eh.
    + eexists. split; [reflexivity|]. simpl. repeat split.
    + eexists. split; [reflexivity|]. simpl. repeat split.
      clear -Eh. induction (botIntervals w) as [|[k0 v0] m IH]; simpl in *;
        [reflexivity|].
      destruct (decide (k0 = Server.key userId platform)); [discriminate|].
      now rewrite <- IH.
Qed.
End ControlFacts.

(** * The server's contract *)

(** C10. [startBot] for a user that the registry does not hold raises a
    [TypeError] and leaves the whole state as it was: the user is not
    created, no configuration is stored, no timer is installed and no
    flag is set. *)
Theorem startBot_unknown_user_throws {num : Type} `{!JSNumber num}
  (userId platform : string) (keywords : list string) (w : World num) :
  JSMap.get userId (users w) = None ->
  exists e,
    Server.startBot userId platform keywords w = (Throw e, w) /\
    err_name e = "TypeError".
Proof.
  intros Hnone. eexists. split; [now apply startBot_unknown | reflexivity].
Qed.

Lemma startBot_unknown_user_throws_witness :
  JSMap.get "alice" (users world_empty) = None /\
  exists e,
    Server.startBot "alice" "twitter" ["trending"] world_empty = (Throw e, world_empty) /\
    err_name e = "TypeError".
Proof.
  split; [reflexivity|].
  exact (startBot_unknown_user_throws "alice" "twitter" ["trending"] world_empty eq_refl).
Defined.

(** C1 does not hold of the code. After two [startBot] and one [stopBot]
    for the same registered user and platform, the timer installed by
    the first start is still scheduled, and no handle is tracked for the
    pair any more, so that no later stop can cancel it. *)
Theorem startBot_twice_stopBot_once_leaves_timer {num : Type} `{!JSNumber num}
  (userId platform : string) (kw1 kw2 : list string) (w : World num) (u : User num) :
  JSMap.get userId (users w) = Some u ->
  let w1 := snd (Server.startBot userId platform kw1 w) in
  let w2 := snd (Server.startBot userId platform kw2 w1) in
  let stopped := Server.stopBot userId platform w2 in
  fst stopped = Ok true /\
  In (bot_timer (next_handle w) userId platform) (timers (snd stopped)) /\
  JSMap.get (Server.key userId platform) (botIntervals (snd stopped)) = None.
Proof.
  intros Hu.
  destruct (startBot_known userId platform kw1 w u Hu)
    as (w1 & E1 & T1 & N1 & B1 & (u1 & Hu1 & _) & _).
  destruct (startBot_known userId platform kw2 w1 u1 Hu1)
    as (w2 & E2 & T2 & N2 & B2 & _).
  destruct (stopBot_eq userId platform w2) as (w3 & E3 & H3).
  rewrite B2, get_set_eq in H3. destruct H3 as [T3 B3].
  cbv zeta. rewrite E1. simpl. rewrite E2. simpl. rewrite E3. simpl.
  split; [reflexivity|]. split.
  - rewrite T3, T2, T1. apply filter_In. split.
    + apply in_or_app. left. apply in_or_app. right. now left.
    + simpl. rewrite N1. apply negb_true_iff, Nat.eqb_neq. lia.
  - rewrite B3. apply get_delete_eq.
Qed.

Lemma startBot_twice_stopBot_once_leaves_timer_witness :
  JSMap.get "alice" (users (world_with "alice")) = Some (member "alice") /\
  In (bot_timer 0 "alice" "twitter")
     (timers (snd (Server.stopBot "alice" "twitter"
        (snd (Server.startBot "alice" "twitter" []
           (snd (Server.startBot "alice" "twitter" [] (world_with "alice")))))))).
Proof.
  split; [reflexivity|].
  exact (proj1 (proj2 (startBot_twice_stopBot_once_leaves_timer
                         "alice" "twitter" [] [] (world_with "alice") (member "alice")
                         eq_refl))).
Defined.



(** C5. When the payment of a withdrawal request fails, because the
    processor's call raises or because it reports a status other than
    success, the withdrawal endpoint answers with [success: false], and
    the user registry and the withdrawal index are what they were: no
    balance is decremented and no withdrawal is recorded in the index or
    the user's history. The only effect besides the payment attempt is
    the [withdrawal_status] event with status "failed". *)
Theorem withdraw_payment_failure {num : Type} `{!JSNumber num}
  (net : Net num) (paypalClient : bool) (withdrawalData : WithdrawalData num)
  (w : World num) :
  payment_failed (fst (Server.processWithdrawal net paypalClient withdrawalData w)) ->
  exists reply w' message,
    Server.withdraw net paypalClient withdrawalData w = (Ok reply, w') /\
    wr_success reply = false /\
    wr_error reply = Some message /\
    users w' = users w /\
    withdrawals w' = withdrawals w /\
    emitted w' =
      (emitted w ++
       [(req_userId withdrawalData,
         withdrawal_status ("withdraw_" +:+ pretty (clock (io w))) "failed"
           (req_amount withdrawalData) None (Some message))])%list.
Proof.
  intros Hfail.
  destruct (processWithdrawal_frame net paypalClient withdrawalData w) as (r & s' & E).
  rewrite E in Hfail. simpl in Hfail.
  unfold Server.withdraw. unfold bind at 1. rewrite liftIO_eq. simpl.
  rewrite with_io_io. unfold try_catch. unfold bind at 1. rewrite E.
  destruct r as [p|e]; simpl in *.
  - rewrite Hfail. simpl. eexists _, _, _. repeat split.
  - eexists _, _, _. repeat split.
Qed.

Lemma withdraw_payment_failure_witness :
  payment_failed
    (fst (Server.processWithdrawal net_down false (stripe_request "alice")
            (world_with "alice"))) /\
  exists reply w',
    Server.withdraw net_down false (stripe_request "alice") (world_with "alice")
    = (Ok reply, w') /\
    wr_success reply = false /\
    users w' = users (world_with "alice") /\
    withdrawals w' = withdrawals (world_with "alice").
Proof.
  assert (Hfail : payment_failed
            (fst (Server.processWithdrawal net_down false (stripe_request "alice")
                    (world_with "alice")))) by exact I.
  split; [exact Hfail|].
  destruct (withdraw_payment_failure net_down false (stripe_request "alice")
              (world_with "alice") Hfail)
    as (reply & w' & message & E & Hs & _ & Hu & Hw & _).
  exists reply, w'. repeat split; assumption.
Defined.

(** C8 does not hold of the code. The flag that a tick re-validates is
    a property of the object literal [user.activeBots], read under the
    platform's name. Under the name "__proto__" neither [startBot] nor
    [stopBot] stores anything, and the read answers the object's
    prototype, which is truthy. So after a registered user has started
    and then stopped a bot for that platform, a tick for the pair is no
    no-op: it emits the "fetching" event, runs the cycles of the stored
    keywords, polls the earnings and, when the total is positive, adds
    it to the user's totals. *)
Theorem runRealBotCycle_runs_after_stopBot {num : Type} `{!JSNumber num}
  (net : Net num) (botEngine : Engine) (userId : string) (kws : list string)
  (w : World num) (u : User num) :
  JSMap.get userId (users w) = Some u ->
  let w1 := snd (Server.startBot userId "__proto__" kws w) in
  let w2 := snd (Server.stopBot userId "__proto__" w1) in
  let config := started_config "__proto__" kws in
  let s_poll :=
    after_keywords net botEngine (platforms config) (keywords config) (io w2) in
  let w3 := snd (Server.runRealBotCycle net botEngine userId "__proto__" w2) in
  exists u2 snapshot more,
    JSMap.get userId (users w2) = Some u2 /\
    financials u2 = financials u /\
    activeBots u2 = Some (default ∅ (activeBots u)) /\
    emitted w3 =
      (emitted w2 ++
       (userId, bot_activity "__proto__" MsgFetching None None (clock (io w2))) :: more)%list /\
    fst (RealBotEngine.trackAffiliateEarnings net botEngine s_poll) = Ok snapshot /\
    users w3 =
      if ngt (es_total snapshot) (nlit 0)
      then JSMap.set userId (Server.apply_earnings (es_total snapshot) u2) (users w2)
      else users w2.
Proof.
  intros Hu.
  destruct (startBot_effects userId "__proto__" kws w u Hu)
    as (w1 & E1 & Husers1 & Hcfg1 & _).
  destruct (stopBot_effects userId "__proto__" w1)
    as (w2 & E2 & Husers2 & Hcfg2 & _).
  cbv zeta. rewrite E1. cbn [snd]. rewrite E2. cbn [snd].
  rewrite Husers1, get_set_eq in Husers2. cbn in Husers2.
  rewrite set_set in Husers2.
  set (u2 := set_activeBots u (Some (default ∅ (activeBots u)))) in *.
  assert (Hu2 : JSMap.get userId (users w2) = Some u2)
    by (rewrite Husers2; apply get_set_eq).
  assert (Hc2 : JSMap.get (Server.key userId "__proto__") (userConfigs w2)
                = Some (started_config "__proto__" kws))
    by (rewrite Hcfg2, Hcfg1; apply get_set_eq).
  assert (Hflag : Server.flag u2 "__proto__" = true) by reflexivity.
  destruct (runRealBotCycle_active net botEngine userId "__proto__" w2 u2
              (started_config "__proto__" kws) Hu2 Hflag Hc2)
    as (snapshot & s_after & w3 & Et & Er & Husers3 & _ & more & Hemit).
  exists u2, snapshot, more. rewrite Er, Et. cbn [fst snd].
  split; [exact Hu2|]. split; [reflexivity|]. split; [reflexivity|].
  split; [exact Hemit|]. split; [reflexivity | exact Husers3].
Qed.

(** The failing input of C8: "alice", whose totals stand at 100, starts
    and stops a bot for the platform "__proto__"; the tick that follows
    polls 42 from ClickBank and leaves her total earnings at 142. *)
Lemma runRealBotCycle_runs_after_stopBot_witness :
  let engine := RealBotEngine.initializeClients sdk_ok cfg_programmes in
  let w1 := snd (Server.startBot "alice" "__proto__" ["earbuds"] (world_with "alice")) in
  let w2 := snd (Server.stopBot "alice" "__proto__" w1) in
  let w3 := snd (Server.runRealBotCycle net_earnings engine "alice" "__proto__" w2) in
  JSMap.get "alice" (users w2) = Some (member "alice") /\
  exists u3,
    JSMap.get "alice" (users w3) = Some u3 /\
    totalEarnings u3 = (142 # 1)%Q /\
    emitted w3 <> emitted w2.
Proof.
  cbv zeta.
  destruct (runRealBotCycle_runs_after_stopBot net_earnings
              (RealBotEngine.initializeClients sdk_ok cfg_programmes)
              "alice" ["earbuds"] (world_with "alice") (member "alice") eq_refl)
    as (u2 & snapshot & more & Hu2 & _ & _ & Hemit & Hpoll & Husers).
  vm_compute in Hu2. injection Hu2 as <-.
  vm_compute in Hpoll. injection Hpoll as <-.
  split; [reflexivity|].
  eexists. split; [|split].
  - rewrite Husers. apply get_set_eq.
  - reflexivity.
  - rewrite Hemit. intros Heq.
    apply (f_equal (@length _)) in Heq. rewrite length_app in Heq. simpl in Heq. lia.
Defined.

(** C9. The report object that the server-side [trackAffiliateEarnings]
    returns has no [length], so [earnings.length > 0] is false on every
    call. The earnings endpoint and a pass of the background loop
    therefore never enter their update branch: they end normally, and
    the user registry, hence every user's totals, and the list of
    emitted events are what they were. *)
Theorem earnings_update_unreachable {num : Type} `{!JSNumber num}
  (net : Net num) (botEngine : Engine) (userId : string) (w : World num) :
  (forall report : EarningsReport num, gt0 (length_of (ReportObject report)) = false) /\
  (exists reply,
     fst (Server.track_earnings net botEngine userId w) = Ok reply /\
     tr_success reply = true) /\
  users (snd (Server.track_earnings net botEngine userId w)) = users w /\
  emitted (snd (Server.track_earnings net botEngine userId w)) = emitted w /\
  fst (Server.backgroundEarnings net botEngine w) = Ok tt /\
  users (snd (Server.backgroundEarnings net botEngine w)) = users w /\
  emitted (snd (Server.backgroundEarnings net botEngine w)) = emitted w.
Proof.
  destruct (track_earnings_frame net botEngine userId w) as (report & s1 & E1).
  destruct (backgroundEarnings_frame net botEngine w) as (s2 & E2).
  rewrite E1, E2. simpl. repeat split. eexists. split; reflexivity.
Qed.

(** * Further properties of the engine *)

Section CycleBounds.
Context {num : Type} `{!JSNumber num}.
Variable net : Net num.
Variable this : Engine.

Lemma publish_each_advances product title link platforms :
  forall s, advances s (snd (publish_each net this product title link platforms s)).
Proof.
  induction platforms as [|platform rest IH]; intros s; simpl.
  - apply advances_refl.
  - pose proof (publish_progressive net this platform product link s) as Hp.
    destruct (RealBotEngine.publish net this platform product link s) as [r s1].
    specialize (IH s1).
    destruct (publish_each net this product title link rest s1) as [more s2].
    simpl in *. eapply advances_trans; eassumption.
Qed.

Lemma paused_advances ms (s : IOState num) : advances s (paused net ms s).
Proof.
  split; simpl; [lia|]. exists []. now rewrite app_nil_r.
Qed.

Lemma cycle_spec_advances platforms products :
  forall s, advances s (snd (cycle_spec net this platforms products s)).
Proof.
  induction products as [|product rest IH]; intros s; simpl.
  - apply advances_refl.
  - destruct (amazon (config this)) as [amz|]; [|apply IH].
    destruct (ItemInfo product) as [info|]; [|apply IH].
    pose proof (publish_each_advances product (Title info) (affiliate_link amz product)
                  platforms s) as Hp.
    destruct (publish_each net this product (Title info) (affiliate_link amz product)
                platforms s) as [rs s1].
    specialize (IH (paused net 2000 s1)).
    destruct (cycle_spec net this platforms rest (paused net 2000 s1)) as [more s3].
    simpl in *.
    eapply advances_trans; [exact Hp|].
    eapply advances_trans; [apply paused_advances | exact IH].
Qed.

Lemma cycle_spec_duration amz platforms products :
  amazon (config this) = Some amz ->
  forall s,
    (clock s + 2000 * N.of_nat (length (List.filter processable products))
     <= clock (snd (cycle_spec net this platforms products s)))%N.
Proof.
  intros Hamz. induction products as [|product rest IH]; intros s; simpl.
  - lia.
  - rewrite Hamz. unfold processable at 1.
    destruct (ItemInfo product) as [info|]; [|apply IH].
    pose proof (publish_each_advances product (Title info) (affiliate_link amz product)
                  platforms s) as [Hp _].
    destruct (publish_each net this product (Title info) (affiliate_link amz product)
                platforms s) as [rs s1].
    specialize (IH (paused net 2000 s1)).
    destruct (cycle_spec net this platforms rest (paused net 2000 s1)) as [more s3].
    simpl in *. lia.
Qed.

(** What can be said of every entry that one product contributes. *)
Lemma publish_each_sound product title link platforms :
  forall s,
    let out := publish_each net this product title link platforms s in
    Forall (fun r =>
              pr_postId r <> EmptyString /\
              In (pr_platform r) platforms /\
              pr_product r = title /\
              pr_affiliateLink r = link /\
              (clock s <= pr_timestamp r <= clock (snd out))%N)
           (fst out).
Proof.
  induction platforms as [|platform rest IH]; intros s; simpl.
  - constructor.
  - pose proof (publish_progressive net this platform product link s) as [Hclk _].
    destruct (RealBotEngine.publish net this platform product link s) as [r s1].
    specialize (IH s1).
    pose proof (publish_each_advances product title link rest s1) as [Hrest _].
    destruct (publish_each net this product title link rest s1) as [more s2].
    simpl in *.
    assert (Hmore : Forall (fun r0 =>
              pr_postId r0 <> EmptyString /\
              (platform = pr_platform r0 \/ In (pr_platform r0) rest) /\
              pr_product r0 = title /\
              pr_affiliateLink r0 = link /\
              (clock s <= pr_timestamp r0 <= clock s2)%N) more).
    { eapply Forall_impl; [exact IH|]. simpl.
      intros x (? & ? & ? & ? & ?). repeat split; auto; lia. }
    destruct r as [[id|]|]; simpl; try exact Hmore.
    destruct (negb (String.eqb id EmptyString)) eqn:Eid; simpl; [|exact Hmore].
    constructor; [|exact Hmore]. simpl. repeat split; auto; try lia.
    apply negb_true_iff, String.eqb_neq in Eid. exact Eid.
Qed.

Lemma cycle_spec_sound platforms products :
  forall s,
    let out := cycle_spec net this platforms products s in
    Forall (fun r =>
              pr_postId r <> EmptyString /\
              In (pr_platform r) platforms /\
              (clock s <= pr_timestamp r <= clock (snd out))%N /\
              exists product info amz,
                In product products /\
                ItemInfo product = Some info /\
                amazon (config this) = Some amz /\
                pr_product r = Title info /\
                pr_affiliateLink r = affiliate_link amz product)
           (fst out).
Proof.
  induction products as [|product rest IH]; intros s; simpl.
  - constructor.
  - destruct (amazon (config this)) as [amz|] eqn:Hamz; simpl.
    + destruct (ItemInfo product) as [info|] eqn:Hinfo.
      * pose proof (publish_each_sound product (Title info) (affiliate_link amz product)
                      platforms s) as Hp.
        pose proof (publish_each_advances product (Title info)
                      (affiliate_link amz product) platforms s) as [Hpc _].
        destruct (publish_each net this product (Title info) (affiliate_link amz product)
                    platforms s) as [rs s1].
        specialize (IH (paused net 2000 s1)).
        pose proof (cycle_spec_advances platforms rest (paused net 2000 s1)) as [Hcc _].
        destruct (cycle_spec net this platforms rest (paused net 2000 s1)) as [more s3].
        simpl in *. apply Forall_app. split.
        -- eapply Forall_impl; [exact Hp|]. simpl.
           intros x (H1 & H2 & H3 & H4 & H5).
           split; [exact H1|]. split; [exact H2|]. split; [lia|].
           exists product, info, amz. repeat split; auto.
        -- eapply Forall_impl; [exact IH|]. simpl.
           intros x (H1 & H2 & H3 & p & i & a & H4 & H5 & H6 & H7 & H8).
           split; [exact H1|]. split; [exact H2|]. split; [lia|].
           exists p, i, a. repeat split; auto.
      * specialize (IH s). eapply Forall_impl; [exact IH|]. simpl.
        intros x (H1 & H2 & H3 & p & i & a & H4 & H5 & H6 & H7 & H8).
        split; [exact H1|]. split; [exact H2|]. split; [exact H3|].
        exists p, i, a. repeat split; auto.
    + specialize (IH s). eapply Forall_impl; [exact IH|]. simpl.
      intros x (? & ? & ? & p & i & a & ? & ? & ? & ? & ?). congruence.
Qed.

Lemma search_spec_advances keyword n s :
  advances s (snd (search_spec net this keyword n s)).
Proof.
  unfold search_spec. destruct (amazon (config this)); cbn [snd].
  - split; simpl; [lia | eexists; reflexivity].
  - apply advances_refl.
Qed.

Lemma fetch_spec_snd keyword n s :
  snd (fetch_spec net this keyword n s) = snd (search_spec net this keyword n s).
Proof. unfold fetch_spec. now destruct (search_spec net this keyword n s). Qed.

(** Without an [amazon] section nothing is fetched. *)
Lemma fetch_spec_unconfigured keyword n s :
  amazon (config this) = None -> fetch_spec net this keyword n s = ([], s).
Proof. intros E. unfold fetch_spec, search_spec. now rewrite E. Qed.
End CycleBounds.

(** X1. An engine built by the constructor never lets an exception out of
    a publisher: whatever the platform name, the product, the link and
    the replies of the outside world, [publish] ends normally (with an
    identifier or with [null]), and it only ever adds to the call log and
    moves the clock forward. *)
Theorem publish_never_raises {num : Type} `{!JSNumber num}
  (net : Net num) (sdk : SDK) (cfg : Config) (platform : string)
  (product : Product) (link : string) (s : IOState num) :
  exists postId s',
    RealBotEngine.publish net (RealBotEngine.initializeClients sdk cfg)
      platform product link s = (Ok postId, s') /\
    advances s s'.
Proof.
  destruct (publish_total net _ (wf_initializeClients sdk cfg) platform product link s)
    as (postId & s' & E).
  exists postId, s'. split; [exact E|].
  pose proof (publish_progressive net (RealBotEngine.initializeClients sdk cfg)
                platform product link s) as Hp.
  now rewrite E in Hp.
Qed.

(** X2. A product without [ItemInfo] is never posted: on every platform
    the publisher returns [null] and sends nothing. *)
Theorem publish_without_ItemInfo {num : Type} `{!JSNumber num}
  (net : Net num) (sdk : SDK) (cfg : Config) (platform : string)
  (product : Product) (link : string) (s : IOState num) :
  ItemInfo product = None ->
  RealBotEngine.publish net (RealBotEngine.initializeClients sdk cfg)
    platform product link s = (Ok None, s).
Proof.
  intros Hnone.
  pose proof (wf_initializeClients sdk cfg) as [Hfb Hig].
  set (this := RealBotEngine.initializeClients sdk cfg) in *.
  unfold RealBotEngine.publish.
  repeat match goal with
         | |- (if decide ?P then _ else _) _ = _ => destruct (decide P)
         end; try reflexivity.
  - unfold RealBotEngine.postToTwitter.
    destruct (twitter_client this); [|reflexivity].
    unfold try_catch, bind, deref. now rewrite Hnone.
  - unfold RealBotEngine.postToFacebook.
    destruct (facebook_client this) as [c|]; [|reflexivity].
    destruct Hfb as [fb Efb]; [eauto|]. rewrite Efb.
    unfold bind at 1, deref at 1, ret at 1.
    destruct (negb (truthy (page_id fb))); [reflexivity|].
    unfold try_catch, bind, deref. now rewrite Hnone.
  - unfold RealBotEngine.postToInstagram.
    destruct (instagram_client this) as [c|]; [|reflexivity].
    destruct Hig as [ig Eig]; [eauto|]. rewrite Eig.
    unfold bind at 1, deref at 1, ret at 1.
    destruct (negb (truthy (user_id ig))); [reflexivity|].
    unfold try_catch, bind, deref. now rewrite Hnone.
  - unfold RealBotEngine.postToTikTok, try_catch, bind, deref. now rewrite Hnone.
  - unfold RealBotEngine.postToPinterest, try_catch, bind, deref.
    destruct (pinterest (config this)); [|reflexivity]. now rewrite Hnone.
  - unfold RealBotEngine.postToEbay, try_catch, bind, deref. now rewrite Hnone.
Qed.

Lemma publish_without_ItemInfo_witness :
  ItemInfo bare_product = None /\
  RealBotEngine.publish net_blank_id (RealBotEngine.initializeClients sdk_ok cfg_twitter)
    "twitter" bare_product "https://amazon.com/dp/B00X" io0 = (Ok None, io0).
Proof.
  split; [reflexivity|].
  exact (publish_without_ItemInfo net_blank_id sdk_ok cfg_twitter "twitter" bare_product
           "https://amazon.com/dp/B00X" io0 eq_refl).
Defined.

(** X3. The Twitter publisher, for a product with a primary image, first
    uploads the image. If the upload is rejected nothing is tweeted and
    the result is [null]; otherwise the tweet is sent with the media
    identifier of the upload, and the result is the tweet's identifier,
    or [null] if the tweet is rejected. *)
Theorem postToTwitter_upload_then_tweet {num : Type} `{!JSNumber num}
  (net : Net num) (this : Engine) (product : Product) (link : string)
  (s : IOState num) client info images img :
  twitter_client this = Some client ->
  ItemInfo product = Some info ->
  Images info = Some images ->
  PrimaryImage images = Some img ->
  let upload := TwitterUploadMedia (URL img) in
  match answer net (length (calls s)) upload with
  | Rejected _ =>
      RealBotEngine.postToTwitter net this product link s = (Ok None, sent net upload s)
  | Resolved mediaId =>
      let tweet := TwitterTweet (tweet_text info link) [URL img] (Some [mediaId]) in
      let s1 := sent net upload s in
      RealBotEngine.postToTwitter net this product link s =
      (match answer net (length (calls s1)) tweet with
       | Resolved tweetId => Ok (Some tweetId)
       | Rejected _ => Ok None
       end,
       sent net tweet s1)
  end.
Proof.
  intros Hc Hinfo Himg Hprim. cbv zeta.
  unfold RealBotEngine.postToTwitter. rewrite Hc.
  unfold try_catch, bind, deref. rewrite Hinfo. simpl. rewrite Himg. simpl.
  rewrite Hprim. simpl. unfold request, sent.
  destruct (answer net (length (calls s)) (TwitterUploadMedia (URL img)))
    as [mediaId|e]; simpl; [|reflexivity].
  unfold tweet_text.
  destruct (answer net _ (TwitterTweet _ _ _)) as [tweetId|e]; reflexivity.
Qed.

Lemma postToTwitter_upload_then_tweet_witness :
  RealBotEngine.postToTwitter net_blank_id
    (RealBotEngine.initializeClients sdk_ok cfg_twitter)
    pictured_product "https://amazon.com/dp/B00P" io0 =
  (Ok None, sent net_blank_id (TwitterUploadMedia (URL picture)) io0).
Proof.
  exact (postToTwitter_upload_then_tweet net_blank_id
           (RealBotEngine.initializeClients sdk_ok cfg_twitter)
           pictured_product "https://amazon.com/dp/B00P" io0
           _ pictured_info _ picture eq_refl eq_refl eq_refl eq_refl).
Defined.

(** X4. The Instagram publisher works in two steps. It creates a media
    container; if that call is rejected nothing is published and the
    result is [null]. Otherwise it publishes with the container's
    identifier as [creation_id] (even an undefined one), and the result
    is the identifier in the reply to the publication, or [null] if that
    call is rejected. *)
Theorem postToInstagram_two_steps {num : Type} `{!JSNumber num}
  (net : Net num) (this : Engine) (product : Product) (link : string)
  (s : IOState num) client ig info images :
  instagram_client this = Some client ->
  instagram (config this) = Some ig ->
  truthy (user_id ig) = true ->
  ItemInfo product = Some info ->
  Images info = Some images ->
  let create :=
    GraphPost (client_token client) (show (user_id ig) +:+ "/media")
      [("image_url", URL <$> PrimaryImage images);
       ("caption", Some (instagram_caption info));
       ("access_token", instagram_access_token ig)] in
  match answer net (length (calls s)) create with
  | Rejected _ =>
      RealBotEngine.postToInstagram net this product link s = (Ok None, sent net create s)
  | Resolved creation =>
      let publication :=
        GraphPost (client_token client) (show (user_id ig) +:+ "/media_publish")
          [("creation_id", creation); ("access_token", instagram_access_token ig)] in
      let s1 := sent net create s in
      RealBotEngine.postToInstagram net this product link s =
      (match answer net (length (calls s1)) publication with
       | Resolved postId => Ok postId
       | Rejected _ => Ok None
       end,
       sent net publication s1)
  end.
Proof.
  intros Hc Hcfg Huser Hinfo Himg. cbv zeta.
  unfold RealBotEngine.postToInstagram. rewrite Hc, Hcfg.
  unfold try_catch, bind, deref, ret. cbn beta iota. rewrite Huser.
  cbn [negb]. cbn beta iota. rewrite Hinfo. cbn beta iota. rewrite Himg. cbn beta iota.
  unfold request, sent, instagram_caption. cbv zeta.
  destruct (answer net (length (calls s)) (GraphPost _ _ _)) as [creation|e]; simpl;
    [|reflexivity].
  destruct (answer net _ (GraphPost _ _ _)) as [postId|e]; reflexivity.
Qed.

Lemma postToInstagram_two_steps_witness :
  exists create,
    RealBotEngine.postToInstagram net_down
      (RealBotEngine.initializeClients sdk_ok cfg_instagram)
      pictured_product "https://amazon.com/dp/B00P" io0 =
    (Ok None, sent net_down create io0).
Proof.
  eexists.
  exact (postToInstagram_two_steps net_down
           (RealBotEngine.initializeClients sdk_ok cfg_instagram)
           pictured_product "https://amazon.com/dp/B00P" io0
           _ instagram_section pictured_info _ eq_refl eq_refl eq_refl eq_refl eq_refl).
Defined.

(** X5. The cycle is rate limited: it lasts at least two seconds for
    every fetched product that it can process, whatever the platforms
    and however fast the outside world answers. *)
Theorem runBotCycle_rate_limit {num : Type} `{!JSNumber num}
  (net : Net num) (sdk : SDK) (cfg : Config) (keyword : string)
  (platforms : list string) (s : IOState num) :
  let this := RealBotEngine.initializeClients sdk cfg in
  let products := fst (fetch_spec net this keyword 5 s) in
  (clock s + 2000 * N.of_nat (length (List.filter processable products))
   <= clock (snd (RealBotEngine.runBotCycle net this keyword platforms s)))%N.
Proof.
  intros this products.
  pose proof (wf_initializeClients sdk cfg) as Hwf. fold this in Hwf.
  pose proof (search_spec_advances net this keyword 5 s) as [Hclk _].
  rewrite <- fetch_spec_snd in Hclk.
  destruct (elements (fst (search_spec net this keyword 5 s))) as [ps|] eqn:He.
  - destruct (runBotCycle_iterable net this Hwf keyword platforms s ps He) as [Hf Hr].
    unfold products. rewrite Hf, Hr. cbn [snd].
    destruct (amazon (config this)) as [amz|] eqn:Hamz.
    + pose proof (cycle_spec_duration net this amz platforms ps Hamz
                    (snd (fetch_spec net this keyword 5 s))) as Hd.
      lia.
    + rewrite (fetch_spec_unconfigured net this keyword 5 s Hamz) in Hf, Hclk |- *.
      cbn [fst snd] in *. subst ps. simpl. lia.
  - destruct (runBotCycle_not_iterable net this Hwf keyword platforms s He) as [Hf Hr].
    unfold products. rewrite Hf, Hr. cbn [snd]. simpl. lia.
Qed.

(** X6. A cycle raises exactly when the value that the search returned
    cannot be iterated (the [Items] of the reply is a number, a boolean
    or a plain object), and then with the [TypeError] of the [for-of]
    statement. When it ends normally, every entry of its result is
    backed by the run: its identifier is not empty, its platform is one
    of the requested ones, its title and its affiliate link are those of
    one of the fetched products, and its timestamp lies within the
    run. *)
Theorem runBotCycle_results_sound {num : Type} `{!JSNumber num}
  (net : Net num) (sdk : SDK) (cfg : Config) (keyword : string)
  (platforms : list string) (s : IOState num) :
  let this := RealBotEngine.initializeClients sdk cfg in
  let run := RealBotEngine.runBotCycle net this keyword platforms s in
  let fetched := fst (search_spec net this keyword 5 s) in
  match fst run with
  | Throw e =>
      elements fetched = None /\ e = TypeError "products is not iterable"
  | Ok results =>
      elements fetched = Some (fst (fetch_spec net this keyword 5 s)) /\
      Forall (fun r =>
                pr_postId r <> EmptyString /\
                In (pr_platform r) platforms /\
                (clock s <= pr_timestamp r <= clock (snd run))%N /\
                exists product info amz,
                  In product (fst (fetch_spec net this keyword 5 s)) /\
                  ItemInfo product = Some info /\
                  amazon (config this) = Some amz /\
                  pr_product r = Title info /\
                  pr_affiliateLink r = affiliate_link amz product)
             results
  end.
Proof.
  intros this run fetched. unfold run, fetched.
  pose proof (wf_initializeClients sdk cfg) as Hwf. fold this in Hwf.
  pose proof (search_spec_advances net this keyword 5 s) as [Hclk _].
  rewrite <- fetch_spec_snd in Hclk.
  destruct (elements (fst (search_spec net this keyword 5 s))) as [ps|] eqn:He.
  - destruct (runBotCycle_iterable net this Hwf keyword platforms s ps He) as [Hf Hr].
    rewrite Hr, Hf. cbn [fst snd]. split; [reflexivity|].
    pose proof (cycle_spec_sound net this platforms ps
                  (snd (fetch_spec net this keyword 5 s))) as Hs.
    cbv zeta in Hs. eapply Forall_impl; [exact Hs|]. simpl.
    intros r (H1 & H2 & H3 & H4). repeat split; auto; lia.
  - destruct (runBotCycle_not_iterable net this Hwf keyword platforms s He) as [_ Hr].
    rewrite Hr. cbn [fst]. split; reflexivity.
Qed.

(** X7. Without an [amazon] section a cycle is a silent no-op: it sends
    nothing, does not pause, and returns the empty list. With one, the
    first request of the cycle is the product search, for five items. *)
Theorem runBotCycle_search_first {num : Type} `{!JSNumber num}
  (net : Net num) (sdk : SDK) (cfg : Config) (keyword : string)
  (platforms : list string) (s : IOState num) :
  let this := RealBotEngine.initializeClients sdk cfg in
  let run := RealBotEngine.runBotCycle net this keyword platforms s in
  match amazon cfg with
  | None => run = (Ok [], s)
  | Some amz =>
      exists more,
        calls (snd run) =
        (calls s ++ PaapiSearchItems keyword 5 (amazon_access_key amz) :: more)%list
  end.
Proof.
  intros this run. unfold run.
  rewrite (runBotCycle_eq net this (wf_initializeClients sdk cfg)).
  unfold search_spec. change (amazon (config this)) with (amazon cfg).
  destruct (amazon cfg) as [amz|]; simpl; [|reflexivity].
  destruct (elements _) as [ps|].
  - match goal with
    | |- context [cycle_spec net this platforms ?ps ?s1] =>
        pose proof (cycle_spec_advances net this platforms ps s1) as [_ [more Hmore]];
        destruct (cycle_spec net this platforms ps s1) as [results s2]
    end.
    simpl in *. exists more. rewrite Hmore. now rewrite <- app_assoc.
  - exists []. reflexivity.
Qed.

(** * Further properties of the server *)


Section RegistryFacts.
Context {num : Type} `{!JSNumber num}.

Lemma getUserData_eq query_userId (w : World num) :
  let userId := requested_user query_userId in
  Server.getUserData query_userId w =
  match JSMap.get userId (users w) with
  | Some u => (Ok u, w)
  | None =>
      (Ok (fresh_user userId),
       with_users w (users w ++ [(userId, fresh_user userId)])%list)
  end.
Proof.
  cbv zeta. unfold Server.getUserData. fold (requested_user query_userId).
  unfold bind at 1, gets at 1. unfold JSMap.has.
  destruct (JSMap.get (requested_user query_userId) (users w)) as [u|] eqn:E; simpl.
  - unfold bind, ret, gets, deref. now rewrite E.
  - unfold bind at 1, modify at 1. unfold bind, gets. simpl.
    rewrite get_set_eq. simpl. fold (fresh_user (requested_user query_userId)).
    now rewrite (set_fresh _ _ _ E).
Qed.

End RegistryFacts.

Section TimerFacts.
Context {num : Type} `{!JSNumber num}.

Lemma filter_handle_length (h : nat) (l : list Timer) :
  NoDup (map handle l) ->
  length l <= S (length (List.filter (fun t => negb (Nat.eqb (handle t) h)) l)).
Proof.
  induction l as [|t l IH]; simpl; [lia|].
  intros Hnd. apply NoDup_cons in Hnd as [Hnotin Hnd].
  destruct (Nat.eqb (handle t) h) eqn:E; simpl.
  - apply Nat.eqb_eq in E.
    assert (Hall : List.filter (fun t0 => negb (Nat.eqb (handle t0) h)) l = l).
    { clear IH Hnd. induction l as [|t0 l IH0]; simpl; [reflexivity|].
      destruct (Nat.eqb (handle t0) h) eqn:E0; simpl.
      - apply Nat.eqb_eq in E0. exfalso. apply Hnotin. simpl.
        rewrite list_elem_of_In. left. congruence.
      - f_equal. apply IH0. intros Hin. apply Hnotin. simpl.
        rewrite list_elem_of_In in *. now right. }
    rewrite Hall. lia.
  - specialize (IH Hnd). lia.
Qed.

Lemma filter_keeps_older (n : nat) (l : list Timer) :
  Forall (fun t => handle t < n) l ->
  List.filter (fun t => negb (Nat.eqb (handle t) n)) l = l.
Proof.
  induction 1 as [|t l Ht _ IH]; simpl; [reflexivity|].
  destruct (Nat.eqb (handle t) n) eqn:E; simpl.
  - apply Nat.eqb_eq in E. lia.
  - now rewrite IH.
Qed.

Lemma timers_ok_filter (l : list Timer) (n h : nat) :
  NoDup (map handle l) /\ Forall (fun t => handle t < n) l ->
  NoDup (map handle (List.filter (fun t => negb (Nat.eqb (handle t) h)) l)) /\
  Forall (fun t => handle t < n) (List.filter (fun t => negb (Nat.eqb (handle t) h)) l).
Proof.
  induction l as [|t l IH]; simpl; intros [Hnd Hlt].
  - split; constructor.
  - apply NoDup_cons in Hnd as [Hnotin Hnd]. apply Forall_cons in Hlt as [Ht Hlt].
    destruct (IH (conj Hnd Hlt)) as [IHnd IHlt].
    destruct (negb (Nat.eqb (handle t) h)); simpl; [|now split].
    split; [|now constructor].
    apply NoDup_cons. split; [|exact IHnd].
    intros Hin. apply Hnotin. rewrite list_elem_of_In in *.
    apply in_map_iff in Hin as (x & Hx & Hin). apply filter_In in Hin as [Hin _].
    apply in_map_iff. eauto.
Qed.
End TimerFacts.

(** X8. [/api/user-data] registers a user once. A known user is returned
    as stored and nothing changes; an unknown one is appended to the
    registry with all totals at zero, no active bot and an empty
    withdrawal history. Either way every record that was in the registry
    stays as it was, and asking again returns the same record and changes
    nothing. An absent or empty [userId] stands for "default_user". *)
Theorem getUserData_registers_once {num : Type} `{!JSNumber num}
  (query_userId : option string) (w : World num) :
  let userId := requested_user query_userId in
  exists u w',
    Server.getUserData query_userId w = (Ok u, w') /\
    JSMap.get userId (users w') = Some u /\
    match JSMap.get userId (users w) with
    | Some existing => u = existing /\ w' = w
    | None =>
        u = fresh_user userId /\
        w' = with_users w (users w ++ [(userId, u)])%list
    end /\
    (forall k v, JSMap.get k (users w) = Some v -> JSMap.get k (users w') = Some v) /\
    Server.getUserData query_userId w' = (Ok u, w').
Proof.
  cbv zeta. pose proof (getUserData_eq query_userId w) as E. cbv zeta in E.
  destruct (JSMap.get (requested_user query_userId) (users w)) as [u|] eqn:Hu.
  - exists u, w. repeat split; auto.
  - eexists _, _. split; [exact E|].
    assert (Hget : JSMap.get (requested_user query_userId)
                     (users w ++ [(requested_user query_userId,
                                   fresh_user (requested_user query_userId))])%list
                   = Some (fresh_user (requested_user query_userId))).
    { rewrite <- (set_fresh _ _ _ Hu). apply get_set_eq. }
    repeat split.
    + exact Hget.
    + intros k v Hk. cbn [users with_users]. rewrite <- (set_fresh _ _ _ Hu).
      rewrite get_set_ne; [exact Hk|]. intros Heq. subst k. congruence.
    + match goal with
      | |- Server.getUserData _ ?w1 = _ =>
          pose proof (getUserData_eq query_userId w1) as E'; cbv zeta in E'
      end.
      rewrite E'. cbn [users with_users]. now rewrite Hget.
Qed.

(** X9. [startBot] for a registered user returns [true] and does exactly
    this. In the registry, the user's record is replaced by one that
    differs in [activeBots] only, where [true] is written under the
    platform's name (a write that the name "__proto__" drops), so that
    the flag of the pair reads truthy; no other user is touched. The
    configuration is stored under the pair's key, with the three default
    keywords when none is supplied and the platform as only target, and
    no other entry of the configurations changes. One timer is added to
    the schedule, under a fresh handle that is recorded under the pair's
    key, and no other tracked handle changes. One "started" event is
    emitted to the user's room. Nothing is sent and the withdrawal index
    is untouched. *)
Theorem startBot_registered {num : Type} `{!JSNumber num}
  (userId platform : string) (kws : list string) (w : World num) (u : User num) :
  JSMap.get userId (users w) = Some u ->
  exists w' u',
    Server.startBot userId platform kws w = (Ok true, w') /\
    users w' = JSMap.set userId u' (users w) /\
    u' = set_activeBots u (Some (set_prop platform true (default ∅ (activeBots u)))) /\
    Server.flag u' platform = true /\
    (forall k, k <> userId -> JSMap.get k (users w') = JSMap.get k (users w)) /\
    userConfigs w' =
      JSMap.set (Server.key userId platform) (started_config platform kws)
        (userConfigs w) /\
    (forall k, k <> Server.key userId platform ->
               JSMap.get k (userConfigs w') = JSMap.get k (userConfigs w)) /\
    timers w' = (timers w ++ [bot_timer (next_handle w) userId platform])%list /\
    next_handle w' = S (next_handle w) /\
    botIntervals w' =
      JSMap.set (Server.key userId platform) (next_handle w) (botIntervals w) /\
    (forall k, k <> Server.key userId platform ->
               JSMap.get k (botIntervals w') = JSMap.get k (botIntervals w)) /\
    emitted w' =
      (emitted w ++ [(userId, bot_activity platform MsgStarted None None (clock (io w)))])%list /\
    withdrawals w' = withdrawals w /\
    io w' = io w.
Proof.
  intros Hu.
  destruct (startBot_effects userId platform kws w u Hu)
    as (w' & E & Husers & Hcfg & Ht & Hn & Hb & He & Hw & Hio).
  exists w', (set_activeBots u (Some (set_prop platform true (default ∅ (activeBots u))))).
  split; [exact E|]. split; [exact Husers|]. split; [reflexivity|].
  split; [unfold Server.flag; simpl; apply truthy_after_set_true|].
  split; [intros k Hk; rewrite Husers; now apply get_set_ne|].
  split; [exact Hcfg|].
  split; [intros k Hk; rewrite Hcfg; now apply get_set_ne|].
  split; [exact Ht|]. split; [exact Hn|]. split; [exact Hb|].
  split; [intros k Hk; rewrite Hb; now apply get_set_ne|].
  split; [exact He|]. split; [exact Hw | exact Hio].
Qed.

Lemma startBot_registered_witness :
  exists w' u',
    Server.startBot "alice" "twitter" [] (world_with "alice") = (Ok true, w') /\
    JSMap.get "alice" (users w') = Some u' /\
    Server.flag u' "twitter" = true /\
    JSMap.get (Server.key "alice" "twitter") (userConfigs w') =
      Some {| keywords := ["trending"; "popular"; "bestseller"];
              platforms := ["twitter"] |}.
Proof.
  destruct (startBot_registered "alice" "twitter" [] (world_with "alice") (member "alice")
              eq_refl)
    as (w' & u' & E & Hu & _ & Hf & _ & Hc & _).
  exists w', u'. split; [exact E|].
  split; [rewrite Hu; apply get_set_eq|]. split; [exact Hf|].
  rewrite Hc. apply get_set_eq.
Defined.

(** X10. Timer handles are never reused. If every scheduled timer has its
    own handle, below the next one to be issued, this is still so after
    [startBot] and after [stopBot], whatever their arguments; and
    [stopBot] cancels at most one timer. *)
Theorem timers_ok_preserved {num : Type} `{!JSNumber num}
  (userId platform : string) (kws : list string) (w : World num) :
  timers_ok w ->
  timers_ok (snd (Server.startBot userId platform kws w)) /\
  timers_ok (snd (Server.stopBot userId platform w)) /\
  length (timers w) <= S (length (timers (snd (Server.stopBot userId platform w)))).
Proof.
  intros Hok. split; [|split].
  - destruct (JSMap.get userId (users w)) as [u|] eqn:Hu.
    + destruct (startBot_effects userId platform kws w u Hu)
        as (w' & E & _ & _ & Ht & Hn & _).
      rewrite E. simpl. destruct Hok as [Hnd Hlt]. unfold timers_ok. rewrite Ht, Hn. split.
      * rewrite map_app. simpl. apply NoDup_app. split; [exact Hnd|]. split.
        -- intros x Hx Hx'. apply list_elem_of_In in Hx, Hx'. simpl in Hx'.
           destruct Hx' as [<-|[]].
           apply in_map_iff in Hx as (t & Ht' & Hin).
           rewrite Forall_forall in Hlt. apply list_elem_of_In in Hin.
           specialize (Hlt t Hin). lia.
        -- apply NoDup_singleton.
      * apply Forall_app. split.
        -- eapply Forall_impl; [exact Hlt|]. simpl. intros; lia.
        -- constructor; [simpl; lia | constructor].
    + rewrite (startBot_unknown userId platform kws w Hu). exact Hok.
  - destruct (stopBot_effects userId platform w) as (w' & E & _ & _ & Ht & Hn & _).
    rewrite E. simpl. unfold timers_ok. rewrite Ht, Hn.
    destruct (JSMap.get (Server.key userId platform) (botIntervals w)) as [h|];
      [|exact Hok].
    now apply timers_ok_filter.
  - destruct (stopBot_effects userId platform w) as (w' & E & _ & _ & Ht & _).
    rewrite E. simpl. rewrite Ht.
    destruct (JSMap.get (Server.key userId platform) (botIntervals w)) as [h|]; [|lia].
    apply filter_handle_length. apply Hok.
Qed.

Lemma timers_ok_preserved_witness :
  timers_ok (world_with "alice") /\
  timers_ok (snd (Server.startBot "alice" "twitter" [] (world_with "alice"))).
Proof.
  assert (Hok : timers_ok (world_with "alice")).
  { split; simpl; constructor. }
  split; [exact Hok|].
  exact (proj1 (timers_ok_preserved "alice" "twitter" [] (world_with "alice") Hok)).
Defined.

(** X11. Start then stop is a round trip on the schedule. For a
    registered user, in a state where no timer carries a handle that is
    yet to be issued, [startBot] followed by [stopBot] for the same pair
    leaves the scheduled timers exactly as they were before the start
    and tracks no handle for the pair; the stored configuration stays.
    The flag of the pair is left cleared, except for the platform name
    "__proto__", under which nothing can be stored and the flag reads
    truthy all the same. *)
Theorem startBot_stopBot_round_trip {num : Type} `{!JSNumber num}
  (userId platform : string) (kws : list string) (w : World num) (u : User num) :
  JSMap.get userId (users w) = Some u ->
  Forall (fun t => handle t < next_handle w) (timers w) ->
  let w1 := snd (Server.startBot userId platform kws w) in
  let w2 := snd (Server.stopBot userId platform w1) in
  timers w2 = timers w /\
  JSMap.get (Server.key userId platform) (botIntervals w2) = None /\
  (exists u2, JSMap.get userId (users w2) = Some u2 /\
              Server.flag u2 platform = bool_decide (platform = "__proto__") /\
              financials u2 = financials u) /\
  JSMap.get (Server.key userId platform) (userConfigs w2) =
    Some (started_config platform kws).
Proof.
  intros Hu Hlt.
  destruct (startBot_effects userId platform kws w u Hu)
    as (w1 & E1 & Hu1 & Hc1 & Ht1 & Hn1 & Hb1 & _).
  destruct (stopBot_effects userId platform w1)
    as (w2 & E2 & Hu2 & Hc2 & Ht2 & Hn2 & Hb2 & _).
  cbv zeta. rewrite E1. simpl. rewrite E2. simpl.
  rewrite Hu1, get_set_eq in Hu2. simpl in Hu2.
  rewrite Hb1, get_set_eq in Ht2.
  repeat split.
  - rewrite Ht2, Ht1, List.filter_app. simpl. rewrite Nat.eqb_refl. simpl.
    rewrite app_nil_r. now apply filter_keeps_older.
  - rewrite Hb2. apply get_delete_eq.
  - eexists. rewrite Hu2. split; [apply get_set_eq|]. split; [|reflexivity].
    unfold Server.flag. simpl. rewrite get_set_prop.
    destruct (decide (platform = "__proto__")) as [->|Hne]; [reflexivity|].
    now rewrite bool_decide_eq_false_2.
  - rewrite Hc2, Hc1. apply get_set_eq.
Qed.

Lemma startBot_stopBot_round_trip_witness :
  timers (snd (Server.stopBot "alice" "twitter"
     (snd (Server.startBot "alice" "twitter" ["earbuds"] (world_with "alice")))))
  = timers (world_with "alice").
Proof.
  exact (proj1 (startBot_stopBot_round_trip "alice" "twitter" ["earbuds"]
                  (world_with "alice") (member "alice") eq_refl (List.Forall_nil _))).
Defined.

(** X12. Once [stopBot] has run for a pair whose platform is not named
    "__proto__", a tick for that pair does nothing at all, whichever
    timer fires it and whether or not the user is registered: the state
    after the tick is the state before it. This holds for the names that
    object literals inherit, such as "constructor", too: [stopBot]
    stores [false] under them. *)
Theorem tick_after_stopBot_is_noop {num : Type} `{!JSNumber num}
  (net : Net num) (botEngine : Engine) (userId platform : string) (w : World num) :
  platform <> "__proto__" ->
  let w1 := snd (Server.stopBot userId platform w) in
  Server.fire net botEngine (CbRunRealBotCycle userId platform) w1 = (Ok tt, w1).
Proof.
  intros Hne.
  destruct (stopBot_effects userId platform w) as (w1 & E & Hu & _).
  cbv zeta. rewrite E. simpl.
  destruct (JSMap.get userId (users w)) as [u|] eqn:Hget.
  - destruct (activeBots u) as [ab|] eqn:Eab.
    + eapply runRealBotCycle_inactive_flag.
      * rewrite Hu. apply get_set_eq.
      * unfold Server.flag. simpl. now rewrite get_set_prop_eq.
    + eapply runRealBotCycle_inactive_flag.
      * rewrite Hu. exact Hget.
      * unfold Server.flag. now rewrite Eab.
  - apply runRealBotCycle_inactive_user. now rewrite Hu.
Qed.

Lemma tick_after_stopBot_is_noop_witness :
  let engine := RealBotEngine.initializeClients sdk_ok cfg_programmes in
  let w1 := snd (Server.stopBot "alice" "constructor"
                   (snd (Server.startBot "alice" "constructor" ["earbuds"]
                           (world_with "alice")))) in
  Server.fire net_earnings engine (CbRunRealBotCycle "alice" "constructor") w1
  = (Ok tt, w1).
Proof.
  exact (tick_after_stopBot_is_noop net_earnings
           (RealBotEngine.initializeClients sdk_ok cfg_programmes)
           "alice" "constructor"
           (snd (Server.startBot "alice" "constructor" ["earbuds"] (world_with "alice")))
           ltac:(discriminate)).
Defined.

Section TickFrame.
Context {num : Type} `{!JSNumber num}.
Variable net : Net num.
Variable botEngine : Engine.

Lemma flag_apply_earnings total (u : User num) platform :
  Server.flag (Server.apply_earnings total u) platform = Server.flag u platform.
Proof. reflexivity. Qed.

(** An active tick, effect by effect. *)
Lemma runRealBotCycle_active_effects userId platform (w : World num) u config :
  JSMap.get userId (users w) = Some u ->
  Server.flag u platform = true ->
  JSMap.get (Server.key userId platform) (userConfigs w) = Some config ->
  let s_poll := after_keywords net botEngine (platforms config) (keywords config) (io w) in
  exists snapshot s_after w',
    RealBotEngine.trackAffiliateEarnings net botEngine s_poll = (Ok snapshot, s_after) /\
    Server.runRealBotCycle net botEngine userId platform w = (Ok tt, w') /\
    users w' = (if ngt (es_total snapshot) (nlit 0)
                then JSMap.set userId (Server.apply_earnings (es_total snapshot) u) (users w)
                else users w) /\
    same_books w w' /\
    emits_only_to userId w w' /\
    io w' = s_after.
Proof.
  intros Hu Hflag Hcfg s_poll.
  pose proof (trackAffiliateEarnings_eq net botEngine s_poll) as Et. cbv zeta in Et.
  match type of Et with
  | _ = (Ok ?snap, ?sa) =>
      generalize dependent snap; intros snapshot;
      generalize dependent sa; intros s_after Et
  end.
  exists snapshot, s_after.
  unfold Server.runRealBotCycle.
  unfold bind at 1, gets at 1. rewrite Hu, Hflag. simpl.
  unfold bind at 1, gets at 1. rewrite Hcfg.
  unfold try_catch at 1. unfold bind at 1. rewrite liftIO_eq. simpl.
  unfold bind at 1. unfold Server.emit at 1, modify at 1.
  unfold with_local at 1. unfold bind at 1.
  match goal with
  | |- context [for_of _ _ (?w0, ?acc0)] =>
      destruct (keywords_loop net botEngine (platforms config) (keywords config) w0 acc0)
        as (acc' & E)
  end.
  rewrite E. clear E. simpl. fold s_poll.
  unfold bind at 1. unfold on_fst at 1. simpl. rewrite liftIO_eq. simpl.
  rewrite !Et. simpl.
  unfold bind at 1, local at 1, gets at 1. simpl.
  destruct (ngt (es_total snapshot) (nlit 0)) eqn:Epos.
  - unfold bind at 1. unfold bind at 1. unfold on_fst at 1. simpl. rewrite Hu.
    eexists. split; [reflexivity|]. split; [reflexivity|]. simpl.
    split; [reflexivity|]. split; [repeat split|]. split; [|reflexivity].
    eexists. split; [rewrite <- !app_assoc; reflexivity|]. simpl. repeat constructor.
  - eexists. split; [reflexivity|]. split; [reflexivity|]. simpl.
    split; [reflexivity|]. split; [repeat split|]. split; [|reflexivity].
    eexists. split; [rewrite <- !app_assoc; reflexivity|]. simpl. repeat constructor.
Qed.

(** A manual cycle touches the network state and the event list only. *)
Lemma runManualCycle_touches userId platform keyword (w : World num) :
  exists s events,
    snd (Server.runManualCycle net botEngine userId platform keyword w)
    = with_emitted (with_io w s) events.
Proof.
  assert (Hsame : w = with_emitted (with_io w (io w)) (emitted w)) by now destruct w.
  unfold Server.runManualCycle. unfold bind at 1, gets at 1.
  destruct (JSMap.get (Server.key userId platform) (userConfigs w)) as [config|].
  - unfold try_catch. unfold bind at 1. rewrite liftIO_eq. simpl.
    unfold bind at 1. unfold Server.emit at 1, modify at 1.
    unfold bind at 1. rewrite liftIO_eq. simpl.
    destruct (RealBotEngine.runBotCycle net botEngine keyword [platform] (io w))
      as [[results|e] s1]; simpl; [|eexists _, _; reflexivity].
    unfold bind at 1. rewrite liftIO_eq. simpl.
    rewrite trackAffiliateEarnings_eq. simpl. eexists _, _; reflexivity.
  - simpl. exists (io w), (emitted w). exact Hsame.
Qed.

Lemma runManualCycle_frame userId platform keyword (w : World num) :
  let run := Server.runManualCycle net botEngine userId platform keyword w in
  users (snd run) = users w /\ same_books w (snd run).
Proof.
  cbv zeta. destruct (runManualCycle_touches userId platform keyword w) as (s & evs & E).
  rewrite E. split; [reflexivity | repeat split].
Qed.
End TickFrame.

(** A manual cycle for a pair with a stored configuration, on an engine
    built by the constructor: it raises exactly when the fetched value
    cannot be iterated. *)
Lemma runManualCycle_started {num : Type} `{!JSNumber num}
  (net : Net num) (sdk : SDK) (cfg : Config) (userId platform keyword : string)
  (w : World num) (config : BotConfig) :
  JSMap.get (Server.key userId platform) (userConfigs w) = Some config ->
  let engine := RealBotEngine.initializeClients sdk cfg in
  let cycle := RealBotEngine.runBotCycle net engine keyword [platform] (io w) in
  let poll := RealBotEngine.trackAffiliateEarnings net engine (snd cycle) in
  let announced :=
    (emitted w ++
     [(userId, bot_activity platform (MsgManual keyword) None None (clock (io w)))])%list in
  exists snapshot,
    fst poll = Ok snapshot /\
    match elements (fst (search_spec net engine keyword 5 (io w))) with
    | Some _ =>
        exists results,
          fst cycle = Ok results /\
          Server.runManualCycle net engine userId platform keyword w =
          (Ok {| mr_success := true; mr_posts := results;
                 mr_earnings := es_total snapshot; mr_timestamp := clock (snd poll) |},
           with_emitted (with_io w (snd poll)) announced)
    | None =>
        Server.runManualCycle net engine userId platform keyword w =
        (Throw (TypeError "products is not iterable"),
         with_emitted (with_io w (snd cycle)) announced)
    end.
Proof.
  intros Hcfg. cbv zeta.
  set (engine := RealBotEngine.initializeClients sdk cfg).
  destruct (runManualCycle_accepted net engine userId platform keyword w config Hcfg)
    as (snapshot & Ep & Er).
  cbv zeta in Ep, Er. exists snapshot. split; [exact Ep|].
  pose proof (wf_initializeClients sdk cfg) as Hwf. fold engine in Hwf.
  destruct (elements (fst (search_spec net engine keyword 5 (io w)))) as [ps|] eqn:He.
  - destruct (runBotCycle_iterable net engine Hwf keyword [platform] (io w) ps He)
      as [_ Hr].
    rewrite Hr in Er |- *. cbn [fst snd] in *. eexists. split; [reflexivity|]. exact Er.
  - destruct (runBotCycle_not_iterable net engine Hwf keyword [platform] (io w) He)
      as [_ Hr].
    rewrite Hr in Er |- *. cbn [fst snd] in *. exact Er.
Qed.

(** X13. A tick stays within its pair's user. Whatever it does, it never
    touches the withdrawal index, the stored configurations, the timers
    or the tracked handles; every other user's record is as it was; the
    ticking user keeps its id, its flags and its withdrawal history; and
    every event it emits goes to that user's room. *)
Theorem tick_stays_with_its_user {num : Type} `{!JSNumber num}
  (net : Net num) (botEngine : Engine) (userId platform : string) (w : World num) :
  let w' := snd (Server.runRealBotCycle net botEngine userId platform w) in
  same_books w w' /\
  emits_only_to userId w w' /\
  (forall k, k <> userId -> JSMap.get k (users w') = JSMap.get k (users w)) /\
  match JSMap.get userId (users w) with
  | Some u =>
      exists u',
        JSMap.get userId (users w') = Some u' /\
        uid u' = uid u /\
        activeBots u' = activeBots u /\
        withdrawalHistory u' = withdrawalHistory u
  | None => JSMap.get userId (users w') = None
  end.
Proof.
  cbv zeta.
  assert (Hnoop : forall w0 : World num,
            same_books w0 w0 /\ emits_only_to userId w0 w0).
  { intros w0. split; [repeat split|]. exists []. split; [now rewrite app_nil_r | constructor]. }
  destruct (JSMap.get userId (users w)) as [u|] eqn:Hu.
  - destruct (Server.flag u platform) eqn:Hf.
    + destruct (JSMap.get (Server.key userId platform) (userConfigs w)) as [config|] eqn:Hc.
      * destruct (runRealBotCycle_active_effects net botEngine userId platform w u config
                    Hu Hf Hc) as (snapshot & s_after & w' & _ & Er & Husers & Hb & He & _).
        rewrite Er. simpl. split; [exact Hb|]. split; [exact He|].
        rewrite Husers. destruct (ngt (es_total snapshot) (nlit 0)).
        -- split; [intros k Hk; now apply get_set_ne|].
           eexists. split; [apply get_set_eq|]. repeat split.
        -- split; [reflexivity|]. exists u. repeat split. exact Hu.
      * rewrite (runRealBotCycle_no_config net botEngine userId platform w u Hu Hc). simpl.
        destruct (Hnoop w) as [? ?]. repeat split; auto. exists u. repeat split. exact Hu.
    + rewrite (runRealBotCycle_inactive_flag net botEngine userId platform w u Hu Hf). simpl.
      destruct (Hnoop w) as [? ?]. repeat split; auto. exists u. repeat split. exact Hu.
  - rewrite (runRealBotCycle_inactive_user net botEngine userId platform w Hu). simpl.
    destruct (Hnoop w) as [? ?]. repeat split; auto.
Qed.

(** X14. No baseline is kept between ticks. When two consecutive ticks
    of an active pair both poll a positive total, the second total is
    added on top of the first: the user's record after the two ticks is
    [apply_earnings t2 (apply_earnings t1 u)], whether or not the
    providers reported the same figures twice. *)
Theorem ticks_add_up {num : Type} `{!JSNumber num}
  (net : Net num) (botEngine : Engine) (userId platform : string) (w : World num)
  (u : User num) (config : BotConfig) :
  JSMap.get userId (users w) = Some u ->
  Server.flag u platform = true ->
  JSMap.get (Server.key userId platform) (userConfigs w) = Some config ->
  let poll_of (w0 : World num) :=
    fst (RealBotEngine.trackAffiliateEarnings net botEngine
           (after_keywords net botEngine (platforms config) (keywords config) (io w0))) in
  let w1 := snd (Server.runRealBotCycle net botEngine userId platform w) in
  let w2 := snd (Server.runRealBotCycle net botEngine userId platform w1) in
  exists first second,
    poll_of w = Ok first /\
    poll_of w1 = Ok second /\
    (ngt (es_total first) (nlit 0) = true ->
     ngt (es_total second) (nlit 0) = true ->
     JSMap.get userId (users w2) =
     Some (Server.apply_earnings (es_total second)
             (Server.apply_earnings (es_total first) u))).
Proof.
  intros Hu Hf Hc. cbv zeta.
  destruct (runRealBotCycle_active_effects net botEngine userId platform w u config Hu Hf Hc)
    as (first & sa1 & w1 & Et1 & Er1 & Hu1 & Hb1 & _).
  rewrite Er1. simpl. rewrite Et1. simpl.
  destruct (ngt (es_total first) (nlit 0)) eqn:Epos1.
  - assert (Hget1 : JSMap.get userId (users w1)
                    = Some (Server.apply_earnings (es_total first) u))
      by (rewrite Hu1; apply get_set_eq).
    assert (Hc1 : JSMap.get (Server.key userId platform) (userConfigs w1) = Some config).
    { destruct Hb1 as (_ & _ & Hcfg & _). now rewrite Hcfg. }
    destruct (runRealBotCycle_active_effects net botEngine userId platform w1 _ config
                Hget1 Hf Hc1) as (second & sa2 & w2 & Et2 & Er2 & Hu2 & _).
    rewrite Er2. simpl. rewrite Et2. simpl.
    exists first, second. repeat split.
    intros _ Epos2. rewrite Hu2, Epos2. apply get_set_eq.
  - assert (Hget1 : JSMap.get userId (users w1) = Some u) by now rewrite Hu1.
    assert (Hc1 : JSMap.get (Server.key userId platform) (userConfigs w1) = Some config).
    { destruct Hb1 as (_ & _ & Hcfg & _). now rewrite Hcfg. }
    destruct (runRealBotCycle_active_effects net botEngine userId platform w1 _ config
                Hget1 Hf Hc1) as (second & sa2 & w2 & Et2 & Er2 & Hu2 & _).
    rewrite Er2. simpl. rewrite Et2. simpl.
    exists first, second. repeat split. intros Habs. congruence.
Qed.

(** X15. A manual cycle only reports. On an engine built by the
    constructor, for a pair with a stored configuration, it emits one
    "manual run" event to the user's room and runs one cycle for the
    given keyword on the given platform alone. When the value fetched
    can be iterated it ends normally with [success: true], the posts of
    that cycle and the total polled after it; when not, it raises the
    cycle's [TypeError]. Either way, unlike a tick, it never applies the
    polled earnings: the user registry, the withdrawal index, the
    configurations and the timers are as they were. *)
Theorem runManualCycle_only_reports {num : Type} `{!JSNumber num}
  (net : Net num) (sdk : SDK) (cfg : Config) (userId platform keyword : string)
  (w : World num) (config : BotConfig) :
  JSMap.get (Server.key userId platform) (userConfigs w) = Some config ->
  let engine := RealBotEngine.initializeClients sdk cfg in
  let cycle := RealBotEngine.runBotCycle net engine keyword [platform] (io w) in
  let poll := RealBotEngine.trackAffiliateEarnings net engine (snd cycle) in
  let run := Server.runManualCycle net engine userId platform keyword w in
  match elements (fst (search_spec net engine keyword 5 (io w))) with
  | Some _ =>
      exists result snapshot,
        fst run = Ok result /\
        mr_success result = true /\
        fst cycle = Ok (mr_posts result) /\
        fst poll = Ok snapshot /\
        mr_earnings result = es_total snapshot
  | None => fst run = Throw (TypeError "products is not iterable")
  end /\
  users (snd run) = users w /\
  same_books w (snd run) /\
  emitted (snd run) =
    (emitted w ++
     [(userId, bot_activity platform (MsgManual keyword) None None (clock (io w)))])%list.
Proof.
  intros Hcfg. cbv zeta.
  destruct (runManualCycle_started net sdk cfg userId platform keyword w config Hcfg)
    as (snapshot & Ep & Hcases).
  cbv zeta in Ep, Hcases.
  destruct (elements _) as [ps|].
  - destruct Hcases as (results & Ec & Er). rewrite Er. cbn [fst snd].
    split; [|repeat split].
    exists {| mr_success := true; mr_posts := results;
              mr_earnings := es_total snapshot;
              mr_timestamp := clock (snd (RealBotEngine.trackAffiliateEarnings net
                (RealBotEngine.initializeClients sdk cfg)
                (snd (RealBotEngine.runBotCycle net
                        (RealBotEngine.initializeClients sdk cfg) keyword [platform]
                        (io w))))) |}, snapshot.
    repeat split; assumption.
  - rewrite Hcases. cbn [fst snd]. repeat split.
Qed.

Lemma runManualCycle_only_reports_witness :
  let w1 := snd (Server.startBot "alice" "tiktok" [] (world_with "alice")) in
  let run := Server.runManualCycle net_shop
               (RealBotEngine.initializeClients sdk_ok cfg_amazon)
               "alice" "tiktok" "wireless earbuds" w1 in
  (exists result, fst run = Ok result /\ mr_success result = true) /\
  users (snd run) = users w1.
Proof.
  cbv zeta.
  destruct (runManualCycle_only_reports net_shop sdk_ok cfg_amazon "alice" "tiktok"
              "wireless earbuds"
              (snd (Server.startBot "alice" "tiktok" [] (world_with "alice")))
              (started_config "tiktok" []) eq_refl)
    as (Hcases & Hu & _).
  split; [|exact Hu].
  destruct Hcases as (result & snapshot & E & Hs & _). exists result. split; assumption.
Defined.

(** X16. [stopBot] does not remove the stored configuration. After a
    registered user has started and then stopped a bot, a manual cycle
    for the pair is not refused as "not started": it emits its event and
    runs, ending normally with [success: true] when the value fetched
    can be iterated and with the cycle's [TypeError] when not. *)
Theorem runManualCycle_after_stopBot {num : Type} `{!JSNumber num}
  (net : Net num) (sdk : SDK) (cfg : Config) (userId platform keyword : string)
  (kws : list string) (w : World num) (u : User num) :
  JSMap.get userId (users w) = Some u ->
  let engine := RealBotEngine.initializeClients sdk cfg in
  let w1 := snd (Server.startBot userId platform kws w) in
  let w2 := snd (Server.stopBot userId platform w1) in
  let run := Server.runManualCycle net engine userId platform keyword w2 in
  userConfigs w2 = userConfigs w1 /\
  match elements (fst (search_spec net engine keyword 5 (io w2))) with
  | Some _ => exists result, fst run = Ok result /\ mr_success result = true
  | None => fst run = Throw (TypeError "products is not iterable")
  end /\
  emitted (snd run) =
    (emitted w2 ++
     [(userId, bot_activity platform (MsgManual keyword) None None (clock (io w2)))])%list.
Proof.
  intros Hu.
  destruct (startBot_effects userId platform kws w u Hu) as (w1 & E1 & _ & Hc1 & _).
  destruct (stopBot_effects userId platform w1) as (w2 & E2 & _ & Hc2 & _).
  cbv zeta. rewrite E1. simpl. rewrite E2. simpl. split; [exact Hc2|].
  assert (Hcfg : JSMap.get (Server.key userId platform) (userConfigs w2)
                 = Some (started_config platform kws)).
  { rewrite Hc2, Hc1. apply get_set_eq. }
  destruct (runManualCycle_started net sdk cfg userId platform keyword w2 _ Hcfg)
    as (snapshot & _ & Hcases).
  cbv zeta in Hcases.
  destruct (elements _) as [ps|].
  - destruct Hcases as (results & _ & Er). rewrite Er. cbn [fst snd].
    split; [|reflexivity]. eexists. split; reflexivity.
  - rewrite Hcases. cbn [fst snd]. split; reflexivity.
Qed.

Lemma runManualCycle_after_stopBot_witness :
  let engine := RealBotEngine.initializeClients sdk_ok cfg_amazon in
  let w1 := snd (Server.startBot "alice" "tiktok" ["earbuds"] (world_with "alice")) in
  let w2 := snd (Server.stopBot "alice" "tiktok" w1) in
  exists result,
    fst (Server.runManualCycle net_shop engine "alice" "tiktok" "wireless earbuds" w2)
    = Ok result /\
    mr_success result = true.
Proof.
  cbv zeta.
  destruct (runManualCycle_after_stopBot net_shop sdk_ok cfg_amazon "alice" "tiktok"
              "wireless earbuds" ["earbuds"] (world_with "alice") (member "alice")
              eq_refl)
    as (_ & Hcases & _).
  exact Hcases.
Defined.

Lemma ticks_add_up_witness :
  let engine := RealBotEngine.initializeClients sdk_ok cfg_programmes in
  let w1 := snd (Server.runRealBotCycle net_earnings engine "alice" "tiktok" world_ticking) in
  let w2 := snd (Server.runRealBotCycle net_earnings engine "alice" "tiktok" w1) in
  exists u2,
    JSMap.get "alice" (users w2) = Some u2 /\
    totalEarnings u2 = (184 # 1)%Q.
Proof.
  cbv zeta.
  destruct (ticks_add_up net_earnings (RealBotEngine.initializeClients sdk_ok cfg_programmes)
              "alice" "tiktok" world_ticking
              (set_activeBots (member "alice") (Some (<["tiktok" := true]> ∅)))
              (started_config "tiktok" ["earbuds"]) eq_refl eq_refl eq_refl)
    as (first & second & P1 & P2 & Hsum).
  vm_compute in P1. injection P1 as <-.
  vm_compute in P2. injection P2 as <-.
  eexists. split; [exact (Hsum eq_refl eq_refl)|]. reflexivity.
Defined.



Section WithdrawFacts.
Context {num : Type} `{!JSNumber num}.
Variable net : Net num.
Variable paypalClient : bool.

Lemma withdraw_paid_eq (withdrawalData : WithdrawalData num) (w : World num) paid s1 :
  Server.processWithdrawal net paypalClient withdrawalData w = (Ok paid, with_io w s1) ->
  pay_success paid = true ->
  let record := withdrawal_record withdrawalData paid (withdrawal_id w) (clock s1) in
  exists w',
    Server.withdraw net paypalClient withdrawalData w =
    (Ok {| wr_success := true; wr_withdrawalId := Some (withdrawal_id w);
           wr_transactionId := Some (pay_transactionId paid); wr_error := None |}, w') /\
    users w' =
      match JSMap.get (req_userId withdrawalData) (users w) with
      | Some u =>
          JSMap.set (req_userId withdrawalData)
            (paid_user (req_amount withdrawalData) record u) (users w)
      | None => users w
      end /\
    withdrawals w' = JSMap.set (withdrawal_id w) record (withdrawals w) /\
    emitted w' =
      (emitted w ++
       [(req_userId withdrawalData,
         withdrawal_status (withdrawal_id w) "completed" (req_amount withdrawalData)
           (Some (pay_transactionId paid)) None)])%list /\
    io w' = s1 /\
    botIntervals w' = botIntervals w /\
    userConfigs w' = userConfigs w /\
    timers w' = timers w.
Proof.
  intros E Hpaid. cbv zeta.
  unfold Server.withdraw. unfold bind at 1. rewrite liftIO_eq. simpl.
  rewrite with_io_io. unfold try_catch. unfold bind at 1. rewrite E. rewrite Hpaid.
  unfold bind at 1, gets at 1. simpl.
  destruct (JSMap.get (req_userId withdrawalData) (users w)) as [u|] eqn:Hu.
  - rewrite bool_decide_eq_true_2 by eauto.
    unfold bind, Server.mutate, modify, Server.emit, Server.liftIO, now, gets, ret.
    simpl. rewrite Hu. simpl. rewrite get_set_eq. simpl.
    eexists. split; [reflexivity|]. simpl. rewrite set_set. repeat split.
  - rewrite bool_decide_eq_false_2 by (intros [? ?]; discriminate).
    unfold bind, Server.mutate, modify, Server.emit, Server.liftIO, now, gets, ret.
    simpl. eexists. split; [reflexivity|]. simpl. repeat split.
Qed.

Lemma processWithdrawal_bank (withdrawalData : WithdrawalData num) (w : World num) :
  req_method withdrawalData = "bank" ->
  Server.processWithdrawal net paypalClient withdrawalData w =
  (Ok {| pay_success := true;
         pay_transactionId := "bank_" +:+ pretty (clock (io w));
         pay_fee := nlit 0;
         pay_processingTime := "1-3 business days" |}, w).
Proof.
  intros Hm. unfold Server.processWithdrawal, try_catch. rewrite Hm. simpl.
  unfold bind, Server.liftIO, now, gets, ret. simpl. now rewrite with_io_io.
Qed.

Lemma processWithdrawal_no_processor (withdrawalData : WithdrawalData num) (w : World num) :
  (req_method withdrawalData = "paypal" /\ paypalClient = false) \/
  (req_method withdrawalData <> "stripe" /\ req_method withdrawalData <> "paypal" /\
   req_method withdrawalData <> "bank") ->
  Server.processWithdrawal net paypalClient withdrawalData w =
  (Throw (Error (if decide (req_method withdrawalData = "paypal")
                 then "PayPal not configured"
                 else "Unsupported payment method")), w).
Proof.
  intros [[Hm Hp]|(H1 & H2 & H3)]; unfold Server.processWithdrawal, try_catch.
  - rewrite Hm, Hp. reflexivity.
  - rewrite !decide_False by assumption. reflexivity.
Qed.
End WithdrawFacts.

(** X17. The withdrawal endpoint always answers: it never raises, and
    its [success] is that of the payment ([false] when the processor's
    call raised or the method is not available). *)
Theorem withdraw_reply_reflects_payment {num : Type} `{!JSNumber num}
  (net : Net num) (paypalClient : bool) (withdrawalData : WithdrawalData num)
  (w : World num) :
  exists reply w',
    Server.withdraw net paypalClient withdrawalData w = (Ok reply, w') /\
    wr_success reply =
      match fst (Server.processWithdrawal net paypalClient withdrawalData w) with
      | Ok paid => pay_success paid
      | Throw _ => false
      end.
Proof.
  destruct (processWithdrawal_frame net paypalClient withdrawalData w) as (r & s1 & E).
  rewrite E. simpl. destruct r as [paid|e].
  - destruct (pay_success paid) eqn:Hpaid.
    + destruct (withdraw_paid_eq net paypalClient withdrawalData w paid s1 E Hpaid)
        as (w' & Ew & _).
      eexists _, _. split; [exact Ew|reflexivity].
    + unfold Server.withdraw. unfold bind at 1. rewrite liftIO_eq. simpl.
      rewrite with_io_io. unfold try_catch. unfold bind at 1. rewrite E, Hpaid. simpl.
      eexists _, _. split; reflexivity.
  - unfold Server.withdraw. unfold bind at 1. rewrite liftIO_eq. simpl.
    rewrite with_io_io. unfold try_catch. unfold bind at 1. rewrite E. simpl.
    eexists _, _. split; reflexivity.
Qed.

(** X18. A paid withdrawal of a registered user takes the amount off the
    available balance, whatever the balance is (nothing compares the two),
    and leaves the other totals alone. The record of the withdrawal, with
    status "completed" and the processor's transaction id and fee, is
    stored in the index under the withdrawal's id and put in front of the
    user's history; the other users are untouched. *)
Theorem withdraw_paid_registered {num : Type} `{!JSNumber num}
  (net : Net num) (paypalClient : bool) (withdrawalData : WithdrawalData num)
  (w : World num) (paid : PaymentResult num) (u : User num) :
  fst (Server.processWithdrawal net paypalClient withdrawalData w) = Ok paid ->
  pay_success paid = true ->
  JSMap.get (req_userId withdrawalData) (users w) = Some u ->
  exists reply w' u' record,
    Server.withdraw net paypalClient withdrawalData w = (Ok reply, w') /\
    wr_success reply = true /\
    wr_withdrawalId reply = Some (withdrawal_id w) /\
    record = withdrawal_record withdrawalData paid (withdrawal_id w) (clock (io w')) /\
    JSMap.get (withdrawal_id w) (withdrawals w') = Some record /\
    JSMap.get (req_userId withdrawalData) (users w') = Some u' /\
    availableBalance u' = nsub (availableBalance u) (req_amount withdrawalData) /\
    (totalEarnings u', totalRevenue u', totalProfit u')
      = (totalEarnings u, totalRevenue u, totalProfit u) /\
    withdrawalHistory u' = Some (record :: default [] (withdrawalHistory u)) /\
    (forall k, k <> req_userId withdrawalData ->
               JSMap.get k (users w') = JSMap.get k (users w)).
Proof.
  intros Hp Hpaid Hu.
  destruct (processWithdrawal_frame net paypalClient withdrawalData w) as (r & s1 & E).
  rewrite E in Hp. simpl in Hp. subst r.
  destruct (withdraw_paid_eq net paypalClient withdrawalData w paid s1 E Hpaid)
    as (w' & Ew & Husers & Hwd & _ & Hio & _).
  rewrite Hu in Husers.
  set (record := withdrawal_record withdrawalData paid (withdrawal_id w) (clock s1)) in *.
  eexists _, w', (paid_user (req_amount withdrawalData) record u), record.
  split; [exact Ew|]. rewrite Husers, Hwd, Hio. repeat split.
  - apply get_set_eq.
  - apply get_set_eq.
  - intros k Hk. apply get_set_ne. congruence.
Qed.

Lemma withdraw_paid_registered_witness :
  exists reply w' u',
    Server.withdraw net_down false (bank_request "alice" (250 # 1)%Q) (world_with "alice")
    = (Ok reply, w') /\
    wr_success reply = true /\
    JSMap.get "alice" (users w') = Some u' /\
    availableBalance u' = (-150 # 1)%Q.
Proof.
  destruct (withdraw_paid_registered net_down false (bank_request "alice" (250 # 1)%Q)
              (world_with "alice") _ (member "alice") eq_refl eq_refl eq_refl)
    as (reply & w' & u' & record & E & Hs & _ & _ & _ & Hu & Hb & _).
  exists reply, w', u'. split; [exact E|]. split; [exact Hs|]. split; [exact Hu|].
  exact Hb.
Defined.

(** X19. The endpoint does not require the user to exist. A paid
    withdrawal for a user id that the registry does not hold still
    answers [success: true] and still stores the record in the index,
    while the registry stays as it was. *)
Theorem withdraw_paid_unknown_user {num : Type} `{!JSNumber num}
  (net : Net num) (paypalClient : bool) (withdrawalData : WithdrawalData num)
  (w : World num) (paid : PaymentResult num) :
  fst (Server.processWithdrawal net paypalClient withdrawalData w) = Ok paid ->
  pay_success paid = true ->
  JSMap.get (req_userId withdrawalData) (users w) = None ->
  exists reply w',
    Server.withdraw net paypalClient withdrawalData w = (Ok reply, w') /\
    wr_success reply = true /\
    users w' = users w /\
    JSMap.get (withdrawal_id w) (withdrawals w') =
      Some (withdrawal_record withdrawalData paid (withdrawal_id w) (clock (io w'))).
Proof.
  intros Hp Hpaid Hu.
  destruct (processWithdrawal_frame net paypalClient withdrawalData w) as (r & s1 & E).
  rewrite E in Hp. simpl in Hp. subst r.
  destruct (withdraw_paid_eq net paypalClient withdrawalData w paid s1 E Hpaid)
    as (w' & Ew & Husers & Hwd & _ & Hio & _).
  rewrite Hu in Husers.
  eexists _, w'. split; [exact Ew|]. rewrite Husers, Hwd, Hio. repeat split.
  apply get_set_eq.
Qed.

Lemma withdraw_paid_unknown_user_witness :
  exists reply w',
    Server.withdraw net_down false (bank_request "bob" (25 # 1)%Q) (world_with "alice")
    = (Ok reply, w') /\
    wr_success reply = true /\
    users w' = users (world_with "alice") /\
    JSMap.keys (withdrawals w') = [withdrawal_id (world_with "alice")].
Proof.
  destruct (withdraw_paid_unknown_user net_down false (bank_request "bob" (25 # 1)%Q)
              (world_with "alice") _ eq_refl eq_refl eq_refl)
    as (reply & w' & E & Hs & Hu & _).
  exists reply, w'. repeat split; try assumption.
  apply (f_equal snd) in E. simpl in E. rewrite <- E. reflexivity.
Defined.

(** X20. A request that no processor can take, because its method is
    none of "stripe", "paypal" and "bank" or because it is "paypal" and
    no PayPal client is configured, is refused without any call to the
    outside: the answer is [success: false] with the error "Unsupported
    payment method" or "PayPal not configured", and the user registry and
    the withdrawal index are untouched. *)
Theorem withdraw_without_processor {num : Type} `{!JSNumber num}
  (net : Net num) (paypalClient : bool) (withdrawalData : WithdrawalData num)
  (w : World num) :
  (req_method withdrawalData = "paypal" /\ paypalClient = false) \/
  (req_method withdrawalData <> "stripe" /\ req_method withdrawalData <> "paypal" /\
   req_method withdrawalData <> "bank") ->
  exists reply w',
    Server.withdraw net paypalClient withdrawalData w = (Ok reply, w') /\
    wr_success reply = false /\
    wr_error reply = Some (if decide (req_method withdrawalData = "paypal")
                           then "PayPal not configured"
                           else "Unsupported payment method") /\
    io w' = io w /\
    users w' = users w /\
    withdrawals w' = withdrawals w.
Proof.
  intros Hno.
  pose proof (processWithdrawal_no_processor net paypalClient withdrawalData w Hno) as E.
  unfold Server.withdraw. unfold bind at 1. rewrite liftIO_eq. simpl.
  rewrite with_io_io. unfold try_catch. unfold bind at 1. rewrite E. simpl.
  eexists _, _. repeat split.
Qed.

Lemma withdraw_without_processor_witness :
  exists reply w',
    Server.withdraw net_down false (crypto_request "alice") (world_with "alice")
    = (Ok reply, w') /\
    wr_success reply = false /\
    wr_error reply = Some "Unsupported payment method" /\
    io w' = io (world_with "alice").
Proof.
  destruct (withdraw_without_processor net_down false (crypto_request "alice")
              (world_with "alice"))
    as (reply & w' & E & Hs & He & Hio & _).
  { right. repeat split; discriminate. }
  exists reply, w'. repeat split; assumption.
Defined.

(** X21. A bank withdrawal is approved unconditionally and without any
    call to the outside: the answer is [success: true], the transaction
    id is fabricated from the clock, the fee is 0, and the network state
    is as it was. *)
Theorem withdraw_bank_always_paid {num : Type} `{!JSNumber num}
  (net : Net num) (paypalClient : bool) (withdrawalData : WithdrawalData num)
  (w : World num) :
  req_method withdrawalData = "bank" ->
  exists reply w' record,
    Server.withdraw net paypalClient withdrawalData w = (Ok reply, w') /\
    wr_success reply = true /\
    wr_transactionId reply = Some ("bank_" +:+ pretty (clock (io w))) /\
    JSMap.get (withdrawal_id w) (withdrawals w') = Some record /\
    wd_fee record = nlit 0 /\
    wd_amount record = req_amount withdrawalData /\
    io w' = io w.
Proof.
  intros Hm.
  pose proof (processWithdrawal_bank net paypalClient withdrawalData w Hm) as E.
  assert (E' := E). rewrite <- (with_io_io w) in E' at 3.
  destruct (withdraw_paid_eq net paypalClient withdrawalData w _ (io w) E' eq_refl)
    as (w' & Ew & _ & Hwd & _ & Hio & _).
  eexists _, w', _. split; [exact Ew|]. rewrite Hwd, Hio. repeat split.
  - apply get_set_eq.
  - reflexivity.
  - reflexivity.
Qed.

Lemma withdraw_bank_always_paid_witness :
  exists reply w',
    Server.withdraw net_down false (bank_request "alice" (25 # 1)%Q) (world_with "alice")
    = (Ok reply, w') /\
    wr_success reply = true /\
    io w' = io (world_with "alice").
Proof.
  destruct (withdraw_bank_always_paid net_down false (bank_request "alice" (25 # 1)%Q)
              (world_with "alice") eq_refl)
    as (reply & w' & record & E & Hs & _ & _ & _ & _ & Hio).
  exists reply, w'. repeat split; assumption.
Defined.

(** * The HTTP layer *)

Section ApiFacts.
Context {num : Type} `{!JSNumber num}.

Lemma liftIO_now (w : World num) : Server.liftIO now w = (Ok (clock (io w)), w).
Proof. unfold Server.liftIO, now, gets. now rewrite with_io_io. Qed.

Lemma cycle_keyword_eq (keyword : option string) :
  (if truthy keyword then default EmptyString keyword else "trending products")
  = cycle_keyword keyword.
Proof. now destruct keyword as [[|c k]|]. Qed.

(** The status endpoint reads the registry and the stored configuration
    and leaves the state as it is. *)
Lemma bot_status_eq platform userId (w : World num) :
  Api.bot_status platform userId w =
  (Ok {| st_platform := platform;
         st_active := match JSMap.get userId (users w) with
                      | Some u =>
                          match activeBots u with
                          | Some ab => get_prop ab platform
                          | None => PropUndefined
                          end
                      | None => PropUndefined
                      end;
         st_config := JSMap.get (Server.key userId platform) (userConfigs w);
         st_keywords := match JSMap.get (Server.key userId platform) (userConfigs w) with
                        | Some c => keywords c
                        | None => []
                        end;
         st_lastRun := clock (io w) |}, w).
Proof.
  unfold Api.bot_status. unfold bind at 1, gets at 1. unfold bind at 1, gets at 1.
  unfold bind at 1. rewrite liftIO_now. unfold ret.
  reflexivity.
Qed.
End ApiFacts.

Section RouteFacts.

Lemma lit_eqb_cycle_empty : Api.lit_eqb "cycle" EmptyString = false.
Proof. reflexivity. Qed.

(** A path that the pattern of the cycle route matches is matched by the
    pattern of the control route, registered before it. *)
Lemma control_pattern_covers_cycle (path : list string) :
  Api.match_path [Api.Lit "api"; Api.Lit "bot"; Api.Param "platform"; Api.Lit "cycle"] path
    <> None ->
  Api.match_path [Api.Lit "api"; Api.Lit "bot"; Api.Param "platform"; Api.Param "action"] path
    <> None.
Proof.
  destruct path as [|a [|b [|c [|d [|e rest]]]]]; cbn [Api.match_path]; try congruence.
  - destruct (Api.lit_eqb "api" a); [|congruence].
    destruct (Api.lit_eqb "bot" b); [|congruence].
    destruct (String.eqb c EmptyString); [congruence|].
    destruct (String.eqb d EmptyString) eqn:Ed.
    + apply String.eqb_eq in Ed. subst d. rewrite lit_eqb_cycle_empty. congruence.
    + congruence.
  - destruct (Api.lit_eqb "api" a); [|congruence].
    destruct (Api.lit_eqb "bot" b); [|congruence].
    destruct (String.eqb c EmptyString); [congruence|].
    destruct (Api.lit_eqb "cycle" d); congruence.
Qed.
End RouteFacts.

(** X22. The bot control endpoint always answers, whatever the action
    and the user. [start] for a registered user answers [success: true]
    and leaves an interval stored for the pair; [start] for a user that
    is not registered answers [success: false] with the message of the
    TypeError that [startBot] raised and changes nothing; [stop] answers
    [success: true], registered user or not, and leaves no interval for
    the pair; any other action answers [success: false] together with
    the message ["Real <platform> bot <action>ed"], no error, and
    changes nothing. *)
Theorem bot_control_outcomes {num : Type} `{!JSNumber num}
  (platform action userId : string) (kws : option (list string)) (w : World num) :
  exists reply w',
    Api.bot_control platform action userId kws w = (Ok reply, w') /\
    if decide (action = "start") then
      match JSMap.get userId (users w) with
      | Some _ =>
          cr_success reply = true /\ cr_error reply = None /\
          JSMap.get (Server.key userId platform) (botIntervals w')
            = Some (next_handle w) /\
          JSMap.get (Server.key userId platform) (userConfigs w')
            = Some (started_config platform (default [] kws))
      | None =>
          cr_success reply = false /\ cr_message reply = None /\
          cr_error reply
            = Some "Cannot set properties of undefined (setting 'activeBots')" /\
          w' = w
      end
    else if decide (action = "stop") then
      cr_success reply = true /\ cr_error reply = None /\
      JSMap.get (Server.key userId platform) (botIntervals w') = None /\
      userConfigs w' = userConfigs w
    else
      cr_success reply = false /\ cr_error reply = None /\
      cr_message reply = Some ("Real " +:+ platform +:+ " bot " +:+ action +:+ "ed") /\
      w' = w.
Proof.
  unfold Api.bot_control.
  destruct (decide (action = "start")) as [Estart|Estart].
  - destruct (JSMap.get userId (users w)) as [u|] eqn:Hu.
    + destruct (startBot_effects userId platform (default [] kws) w u Hu)
        as (w' & E & _ & Hcfg & _ & _ & Hbi & _).
      eexists _, w'. split.
      { unfold try_catch, bind. rewrite E. reflexivity. }
      cbn [cr_success cr_error]. rewrite Hbi, Hcfg, !get_set_eq. repeat split.
    + eexists _, w. split.
      { unfold try_catch, bind. rewrite (startBot_unknown userId platform _ w Hu).
        reflexivity. }
      repeat split.
  - destruct (decide (action = "stop")) as [Estop|Estop].
    + destruct (stopBot_effects userId platform w)
        as (w' & E & _ & Hcfg & _ & _ & Hbi & _).
      eexists _, w'. split.
      { unfold try_catch, bind. rewrite E. reflexivity. }
      cbn [cr_success cr_error]. rewrite Hbi, get_delete_eq. repeat split. exact Hcfg.
    + eexists _, w. split; [reflexivity|]. repeat split.
Qed.

(** X23. No request is ever dispatched to the handler registered for
    [POST /api/bot/:platform/cycle]: whatever the method and the path,
    the route table selects another handler or none, because every path
    that the pattern matches is matched by [/api/bot/:platform/:action],
    registered before it. *)
Theorem cycle_route_is_shadowed (m : Api.Method) (path : list string) :
  fst <$> Api.dispatch m path <> Some Api.BotCycle.
Proof.
  pose proof (control_pattern_covers_cycle path) as Hcover.
  unfold Api.dispatch, Api.routes. destruct m; cbn [Api.dispatch_in Api.method_eqb].
  - repeat match goal with
           | |- context [match Api.match_path ?p path with _ => _ end] =>
               destruct (Api.match_path p path)
           end; cbn; congruence.
  - destruct (Api.match_path [Api.Lit "api"; Api.Lit "track-earnings"] path);
      [cbn; congruence|].
    destruct (Api.match_path
                [Api.Lit "api"; Api.Lit "bot"; Api.Param "platform"; Api.Param "action"]
                path) eqn:Econtrol; [cbn; congruence|].
    destruct (Api.match_path
                [Api.Lit "api"; Api.Lit "bot"; Api.Param "platform"; Api.Lit "cycle"]
                path) eqn:Ecycle.
    + exfalso. apply Hcover; congruence.
    + repeat match goal with
             | |- context [match Api.match_path ?p path with _ => _ end] =>
                 destruct (Api.match_path p path)
             end; cbn; congruence.
Qed.

(** X24. A request [POST /api/bot/<platform>/cycle] is handled as a
    control request with the action ["cycle"]: the route table selects
    the control handler with these parameters, and that handler neither
    starts nor stops anything, runs no cycle, changes nothing, and
    answers [success: false] with the message
    ["Real <platform> bot cycleed"]. *)
Theorem post_cycle_is_a_control_request {num : Type} `{!JSNumber num}
  (platform userId : string) (kws : option (list string)) (w : World num) :
  platform <> EmptyString ->
  Api.dispatch Api.POST ["api"; "bot"; platform; "cycle"]
    = Some (Api.BotControl, [("platform", platform); ("action", "cycle")]) /\
  Api.bot_control platform "cycle" userId kws w
    = (Ok {| cr_success := false;
             cr_platform := Some platform;
             cr_action := Some "cycle";
             cr_message := Some ("Real " +:+ platform +:+ " bot cycleed");
             cr_error := None |}, w).
Proof.
  intros Hne. split; [|reflexivity].
  unfold Api.dispatch, Api.routes. cbn [Api.dispatch_in Api.method_eqb Api.match_path].
  change (Api.lit_eqb "api" "api") with true.
  change (Api.lit_eqb "track-earnings" "bot") with false.
  change (Api.lit_eqb "bot" "bot") with true.
  change (String.eqb "cycle" EmptyString) with false.
  cbv iota.
  destruct (String.eqb platform EmptyString) eqn:E; [|reflexivity].
  apply String.eqb_eq in E. contradiction.
Qed.

Lemma post_cycle_is_a_control_request_witness :
  Api.dispatch Api.POST ["api"; "bot"; "tiktok"; "cycle"]
    = Some (Api.BotControl, [("platform", "tiktok"); ("action", "cycle")]) /\
  fst (Api.bot_control "tiktok" "cycle" "alice" None world_ticking)
    = Ok {| cr_success := false;
            cr_platform := Some "tiktok";
            cr_action := Some "cycle";
            cr_message := Some "Real tiktok bot cycleed";
            cr_error := None |}.
Proof.
  destruct (post_cycle_is_a_control_request "tiktok" "alice" None world_ticking)
    as [Hroute Hreply]; [discriminate|].
  split; [exact Hroute|]. rewrite Hreply. reflexivity.
Defined.

(** X25. The handler of the manual cycle always answers and leaves the
    registry of users, the withdrawals, the stored configurations and
    the timers as they are. For a pair without a stored configuration
    the answer is the failure "Bot not started - start the bot first"
    and nothing at all changes. For a pair with one, on an engine built
    by the constructor, one activity event is sent to the user, naming
    the keyword of the request, or "trending products" when the keyword
    is absent or empty; the answer is a result with [success: true] when
    the value fetched for that keyword can be iterated, and the failure
    "products is not iterable" when not. *)
Theorem bot_cycle_outcomes {num : Type} `{!JSNumber num}
  (net : Net num) (sdk : SDK) (cfg : Config)
  (platform userId : string) (keyword : option string) (w : World num) :
  let engine := RealBotEngine.initializeClients sdk cfg in
  exists reply w',
    Api.bot_cycle net engine platform userId keyword w = (Ok reply, w') /\
    users w' = users w /\
    same_books w w' /\
    match JSMap.get (Server.key userId platform) (userConfigs w) with
    | None =>
        reply = CycleFailed "Bot not started - start the bot first" /\ w' = w
    | Some _ =>
        match elements (fst (search_spec net engine (cycle_keyword keyword) 5 (io w))) with
        | Some _ => exists result, reply = CycleResult result /\ mr_success result = true
        | None => reply = CycleFailed "products is not iterable"
        end /\
        emitted w' =
          (emitted w ++
           [(userId,
             bot_activity platform (MsgManual (cycle_keyword keyword)) None None
               (clock (io w)))])%list
    end.
Proof.
  cbv zeta. unfold Api.bot_cycle. rewrite cycle_keyword_eq.
  destruct (JSMap.get (Server.key userId platform) (userConfigs w)) as [config|] eqn:Hcfg.
  - destruct (runManualCycle_started net sdk cfg userId platform (cycle_keyword keyword)
                w config Hcfg) as (snapshot & _ & Hcases).
    cbv zeta in Hcases.
    destruct (elements _) as [ps|].
    + destruct Hcases as (results & _ & E).
      eexists _, _. split.
      { unfold try_catch, bind. rewrite E. reflexivity. }
      split; [reflexivity|]. split; [repeat split|].
      split; [eexists; split; reflexivity | reflexivity].
    + eexists _, _. split.
      { unfold try_catch, bind. rewrite Hcases. reflexivity. }
      split; [reflexivity|]. split; [repeat split|]. split; reflexivity.
  - eexists _, w. split.
    { unfold try_catch, bind.
      rewrite (runManualCycle_without_config net _ userId platform _ w Hcfg).
      reflexivity. }
    split; [reflexivity|]. split; [repeat split|]. split; reflexivity.
Qed.

(** X26. After [startBot] for a registered user the status endpoint
    reports the stored configuration and its keywords (the three default
    ones when none were given) and leaves the state as [startBot] left
    it. As [active] it reports [true], except for the platform name
    "__proto__", for which it reports the prototype of the object
    literal that holds the flags. *)
Theorem bot_status_after_startBot {num : Type} `{!JSNumber num}
  (userId platform : string) (kws : list string) (w : World num) (u : User num) :
  JSMap.get userId (users w) = Some u ->
  exists w1 reply,
    Server.startBot userId platform kws w = (Ok true, w1) /\
    Api.bot_status platform userId w1 = (Ok reply, w1) /\
    st_active reply =
      (if decide (platform = "__proto__") then PropInherited "__proto__"
       else PropBool true) /\
    st_config reply = Some (started_config platform kws) /\
    st_keywords reply = keywords (started_config platform kws) /\
    st_keywords reply <> [].
Proof.
  intros Hu.
  destruct (startBot_effects userId platform kws w u Hu)
    as (w1 & E & Husers & Hcfg & _).
  eexists w1, _. split; [exact E|]. split; [apply bot_status_eq|].
  cbn [st_active st_config st_keywords]. rewrite Husers, Hcfg, !get_set_eq.
  cbn. rewrite get_set_prop. repeat split.
  destruct kws; discriminate.
Qed.

Lemma bot_status_after_startBot_witness :
  exists w1 reply,
    Server.startBot "alice" "tiktok" [] (world_with "alice") = (Ok true, w1) /\
    Api.bot_status "tiktok" "alice" w1 = (Ok reply, w1) /\
    st_active reply = PropBool true /\
    st_keywords reply = ["trending"; "popular"; "bestseller"].
Proof.
  destruct (bot_status_after_startBot "alice" "tiktok" [] (world_with "alice")
              (member "alice") eq_refl)
    as (w1 & reply & E & Es & Ha & _ & Hk & _).
  exists w1, reply. split; [exact E|]. split; [exact Es|]. split; [exact Ha|]. exact Hk.
Defined.

(** X27. After [startBot] and then [stopBot] for a registered user the
    status endpoint still reports the configuration and the keywords
    that [startBot] stored: stopping a bot does not forget its
    configuration. As [active] it reports [false], except for the
    platform name "__proto__", for which it reports the same prototype
    object as while the bot was running. *)
Theorem bot_status_after_stopBot {num : Type} `{!JSNumber num}
  (userId platform : string) (kws : list string) (w : World num) (u : User num) :
  JSMap.get userId (users w) = Some u ->
  exists w1 w2 reply,
    Server.startBot userId platform kws w = (Ok true, w1) /\
    Server.stopBot userId platform w1 = (Ok true, w2) /\
    Api.bot_status platform userId w2 = (Ok reply, w2) /\
    st_active reply =
      (if decide (platform = "__proto__") then PropInherited "__proto__"
       else PropBool false) /\
    st_config reply = Some (started_config platform kws).
Proof.
  intros Hu.
  destruct (startBot_effects userId platform kws w u Hu)
    as (w1 & E1 & Husers1 & Hcfg1 & _).
  destruct (stopBot_effects userId platform w1)
    as (w2 & E2 & Husers2 & Hcfg2 & _).
  eexists w1, w2, _. split; [exact E1|]. split; [exact E2|].
  split; [apply bot_status_eq|].
  cbn [st_active st_config]. rewrite Husers2, Hcfg2, Husers1, Hcfg1, !get_set_eq.
  cbn. rewrite get_set_eq. cbn. rewrite get_set_prop. split; reflexivity.
Qed.

Lemma bot_status_after_stopBot_witness :
  exists w1 w2 reply,
    Server.startBot "alice" "tiktok" ["earbuds"] (world_with "alice") = (Ok true, w1) /\
    Server.stopBot "alice" "tiktok" w1 = (Ok true, w2) /\
    Api.bot_status "tiktok" "alice" w2 = (Ok reply, w2) /\
    st_active reply = PropBool false /\
    st_config reply = Some {| keywords := ["earbuds"]; platforms := ["tiktok"] |}.
Proof.
  destruct (bot_status_after_stopBot "alice" "tiktok" ["earbuds"] (world_with "alice")
              (member "alice") eq_refl)
    as (w1 & w2 & reply & E1 & E2 & Es & Ha & Hc).
  exists w1, w2, reply. split; [exact E1|]. split; [exact E2|]. split; [exact Es|].
  split; [exact Ha | exact Hc].
Defined.
